(* ===================================================================== *)
(*  darts-2024 / blender-darts-export                                     *)
(*  A shallow embedding of the shading-graph translator                   *)
(*  (scene.py, textures.py, materials.py, geometry.py) and the            *)
(*  properties of its specification that can be stated over it.           *)
(* ===================================================================== *)
(*  Layout
      Float64     the float arithmetic the translator relies on, as an
                  interface; [binary64] implements it with IEEE doubles
      Py          Python values, exceptions, the report log and the
                  monad in which every translated function runs
      Bpy         the host data model: sockets, links, nodes, materials
      Scene       SceneWriter: flags, info, follow_link, color, LRS_matrix
      Textures    textures.py
      Materials   materials.py
      World       the world background and the scene defaults
      Geometry    geometry.py, over the state of the host
      Spec        the vocabulary of the properties
      Examples    example scenes, with IEEE doubles
      theorems    one block per property of the specification, then
                  further properties of the translated functions, then
                  the properties on the example scenes                   *)

From Stdlib Require Import ZArith QArith Floats Ascii.
From stdpp Require Import gmap strings list.

Set Warnings "-register-all".

Local Open Scope Z_scope.
Local Open Scope string_scope.
Local Open Scope list_scope.

(* --------------------------------------------------------------------- *)
(*  Float arithmetic                                                      *)
(* --------------------------------------------------------------------- *)

(** The translator computes with Python floats, with two [math]/builtin
    functions and with one NumPy reduction.  No property below depends on
    how these round, so they are an interface; [f_lit q] is the float
    written as the decimal literal [q] in the source.

    [pow] is the one operation of the source that can fail on floats: the
    C library reports a range error when the result overflows, and Python
    turns it into an [OverflowError].  [f_pow_range x y] says that
    [pow(x, y)] fails in this way, and [f_pow x y] is its result when it
    does not.  Two facts about the failure are part of the interface: a
    square root does not overflow, and a result that overflowed is an
    infinity, whose square is not 0. *)
Class Float64 := {
  float64 : Type;
  f_lit : Q -> float64;
  f_of_int : Z -> float64;
  f_add : float64 -> float64 -> float64;
  f_sub : float64 -> float64 -> float64;
  f_mul : float64 -> float64 -> float64;
  f_div : float64 -> float64 -> float64;
  f_eqb : float64 -> float64 -> bool;
  f_ltb : float64 -> float64 -> bool;
  f_leb : float64 -> float64 -> bool;
  f_pow : float64 -> float64 -> float64;       (* pow(x, y) *)
  f_pow_range : float64 -> float64 -> bool;    (* pow(x, y) overflows *)
  f_degrees : float64 -> float64;              (* math.degrees *)
  np_sum : list float64 -> float64;            (* numpy.sum of a float array *)
  np_maximum : float64 -> float64 -> float64;  (* numpy.maximum, elementwise *)
  f_pow_range_half : forall x, f_pow_range x (f_lit 0.5) = false;
  f_pow_range_square : forall x y,
    f_pow_range x y = true ->
    f_eqb (f_mul (f_pow x y) (f_pow x y)) (f_of_int 0) = false;
}.

(** IEEE binary64, on Rocq's primitive floats. *)
Definition b64_of_Z (z : Z) : PrimFloat.float :=
  SF2Prim (binary_normalize prec emax z 0 false).

Definition b64_lit (q : Q) : PrimFloat.float :=
  PrimFloat.div (b64_of_Z (Qnum q)) (b64_of_Z (Zpos (Qden q))).

(** [pow] is used by the source with the exponents 2 and 0.5 only, and
    this instance gives it for these (and for 1) only.  The C library's
    [pow] is accurate to the last place but not correctly rounded, and it
    differs between C libraries; the instance takes the correctly rounded
    square and square root, from which a given C library can differ in
    the last bit of the result.  With the exponent 2, [pow] overflows when
    the square of a finite float is infinite. *)
Definition b64_pow (x y : PrimFloat.float) : PrimFloat.float :=
  if PrimFloat.eqb y (b64_of_Z 2) then PrimFloat.mul x x
  else if PrimFloat.eqb y (b64_lit 0.5) then PrimFloat.sqrt x
  else if PrimFloat.eqb y (b64_of_Z 1) then x
  else PrimFloat.nan.

Definition b64_pow_range (x y : PrimFloat.float) : bool :=
  PrimFloat.eqb y (b64_of_Z 2) && PrimFloat.is_finite x &&
  PrimFloat.is_infinity (PrimFloat.mul x x).

(** [numpy.sum] of a float64 array is NumPy's pairwise summation, started
    at 0.0.  Fewer than 8 items are added from left to right.  Up to 128
    items are added into 8 accumulators, item [i] into accumulator
    [i mod 8], over the whole blocks of 8; the accumulators are added as
    ((r0 + r1) + (r2 + r3)) + ((r4 + r5) + (r6 + r7)) and the remaining
    items from left to right.  A longer array is split at half its length,
    rounded down to a multiple of 8, and the sums of the two parts are
    added.  (Recent NumPy versions start at -0.0, which only changes the
    sign of a sum that is zero; the source compares the sum with 0.) *)
Fixpoint b64_blocks (k : nat) (r a : list PrimFloat.float)
  : list PrimFloat.float * list PrimFloat.float :=
  match k with
  | O => (r, a)
  | S k' => b64_blocks k' (zip_with PrimFloat.add r (take 8 a)) (drop 8 a)
  end.

Definition b64_sum_block (a : list PrimFloat.float) : PrimFloat.float :=
  let '(r, rest) := b64_blocks (length a / 8 - 1) (take 8 a) (drop 8 a) in
  match r with
  | [r0; r1; r2; r3; r4; r5; r6; r7] =>
      fold_left PrimFloat.add rest
        (PrimFloat.add (PrimFloat.add (PrimFloat.add r0 r1) (PrimFloat.add r2 r3))
                       (PrimFloat.add (PrimFloat.add r4 r5) (PrimFloat.add r6 r7)))
  | _ => fold_left PrimFloat.add a (b64_of_Z 0)
  end.

(** [fuel] bounds the number of nested splits; the length of the array is
    enough. *)
Fixpoint b64_pairwise_sum (fuel : nat) (a : list PrimFloat.float) : PrimFloat.float :=
  if (length a <? 8)%nat then fold_left PrimFloat.add a (b64_of_Z 0)
  else if (length a <=? 128)%nat then b64_sum_block a
  else
    match fuel with
    | O => b64_sum_block a
    | S fuel' =>
        let n2 := (length a / 2 - (length a / 2) mod 8)%nat in
        PrimFloat.add (b64_pairwise_sum fuel' (take n2 a))
                      (b64_pairwise_sum fuel' (drop n2 a))
    end.

Definition b64_sum (l : list PrimFloat.float) : PrimFloat.float :=
  PrimFloat.add (b64_of_Z 0) (b64_pairwise_sum (length l) l).

Definition b64_maximum (x y : PrimFloat.float) : PrimFloat.float :=
  if PrimFloat.is_nan x then x
  else if PrimFloat.is_nan y then y
  else if PrimFloat.ltb x y then y else x.

Definition binary64 : Float64.
Proof.
  refine {|
    float64 := PrimFloat.float;
    f_lit := b64_lit;
    f_of_int := b64_of_Z;
    f_add := PrimFloat.add;
    f_sub := PrimFloat.sub;
    f_mul := PrimFloat.mul;
    f_div := PrimFloat.div;
    f_eqb := PrimFloat.eqb;
    f_ltb := PrimFloat.ltb;
    f_leb := PrimFloat.leb;
    f_pow := b64_pow;
    f_pow_range := b64_pow_range;
    f_degrees := fun x =>
      PrimFloat.mul x (PrimFloat.div (b64_of_Z 180) 0x1.921fb54442d18p+1%float);
    np_sum := b64_sum;
    np_maximum := b64_maximum;
  |}.
  - (* the exponent 0.5 is not the exponent 2 *)
    reflexivity.
  - (* an infinity times itself is an infinity, which is not 0 *)
    intros x y. unfold b64_pow_range, b64_pow.
    destruct (PrimFloat.eqb y (b64_of_Z 2)); [|discriminate].
    intros [_ H]%andb_prop. revert H. generalize (PrimFloat.mul x x). intros r.
    unfold PrimFloat.is_infinity.
    rewrite !FloatAxioms.eqb_spec, FloatAxioms.abs_spec, FloatAxioms.mul_spec.
    replace (Prim2SF infinity) with (S754_infinity false) by reflexivity.
    replace (Prim2SF (b64_of_Z 0)) with (S754_zero false) by reflexivity.
    destruct (Prim2SF r) as [s | s | | s m e]; try discriminate.
    intros _. by destruct s.
Defined.

(* --------------------------------------------------------------------- *)
(*  Python values, exceptions, reports                                    *)
(* --------------------------------------------------------------------- *)

Module Py.
Section WithFloat.
Context `{FL : Float64}.

(** The values that flow through the translator.  [PArray] stands for the
    host's array types ([bpy_prop_array], [Color], [Vector], [Euler]):
    sequences that are neither [tuple] nor [list].  A [dict] keeps its
    insertion order, as in Python. *)
Inductive pyval :=
  | PNone
  | PBool (b : bool)
  | PInt (z : Z)
  | PFloat (x : float64)
  | PStr (s : string)
  | PTuple (l : list pyval)
  | PList (l : list pyval)
  | PArray (l : list pyval)
  | PDict (d : list (string * pyval)).

Inductive pytype := TNone | TBool | TInt | TFloat | TStr | TTuple | TList | TArray | TDict.

#[global] Instance pytype_eq_dec : EqDecision pytype.
Proof. solve_decision. Defined.

Definition type_of (v : pyval) : pytype :=
  match v with
  | PNone => TNone | PBool _ => TBool | PInt _ => TInt | PFloat _ => TFloat
  | PStr _ => TStr | PTuple _ => TTuple | PList _ => TList
  | PArray _ => TArray | PDict _ => TDict
  end.

(** An f-string, kept unformatted: literal pieces and interpolated values. *)
Inductive part := Lit (s : string) | Val (v : pyval).
Definition msg := list part.

(** The exception classes the translated code raises, itself or through the
    interpreter.  [RecursionError] is the interpreter's answer to a call
    depth beyond its limit. *)
Inductive exn :=
  | NotImplementedError (m : msg)
  | ValueError (m : msg)
  | TypeError
  | KeyError
  | IndexError
  | AttributeError
  | ZeroDivisionError
  | OverflowError
  | RecursionError.

(** One call of the report callback: the level set's element and the text. *)
Record report_entry := Report { level : string; text : msg }.

(** Every translated function runs in [M]: it either returns or raises, and
    it appends to the report log in both cases. *)
Definition M (A : Type) : Type := (exn + A) * list report_entry.

Definition ret {A} (a : A) : M A := (inr a, []).
Definition raise {A} (e : exn) : M A := (inl e, []).
Definition bind {A B} (m : M A) (k : A -> M B) : M B :=
  match m with
  | (inl e, l) => (inl e, l)
  | (inr a, l) => let '(r, l') := k a in (r, l ++ l')
  end.
Definition tell (r : report_entry) : M unit := (inr tt, [r]).

(** [try: body except NotImplementedError as e: handler(e.args[0])]. *)
Definition try_except_NotImplementedError {A} (body : M A) (handler : msg -> M A) : M A :=
  match body with
  | (inl (NotImplementedError m), l) => let '(r, l') := handler m in (r, l ++ l')
  | other => other
  end.

Definition result {A} (m : M A) : exn + A := fst m.
Definition reports {A} (m : M A) : list report_entry := snd m.

#[global] Instance M_ret : MRet M := @ret.
#[global] Instance M_bind : MBind M := fun A B k m => bind m k.

(** ** Strings *)

Definition ascii_lower (c : ascii) : ascii :=
  let n := nat_of_ascii c in
  if (Nat.leb 65 n && Nat.leb n 90)%bool then ascii_of_nat (n + 32)%nat else c.

(** [s.lower()], on ASCII text. *)
Fixpoint lower (s : string) : string :=
  match s with
  | EmptyString => EmptyString
  | String c r => String (ascii_lower c) (lower r)
  end.

(** [s.replace(a, b)] for one-character [a] and [b]. *)
Fixpoint replace_char (a b : ascii) (s : string) : string :=
  match s with
  | EmptyString => EmptyString
  | String c r => String (if Ascii.eqb c a then b else c) (replace_char a b r)
  end.

(** ** Dictionaries *)

Fixpoint dict_lookup (k : string) (d : list (string * pyval)) : option pyval :=
  match d with
  | [] => None
  | (k', v) :: r => if String.eqb k k' then Some v else dict_lookup k r
  end.

(** [d[k] = v]: an existing key keeps its position. *)
Fixpoint dict_set (k : string) (v : pyval) (d : list (string * pyval)) : list (string * pyval) :=
  match d with
  | [] => [(k, v)]
  | (k', v') :: r => if String.eqb k k' then (k', v) :: r else (k', v') :: dict_set k v r
  end.

#[global] Instance dict_insert : Insert string pyval (list (string * pyval)) := dict_set.

(** [d.update(e)]. *)
Definition dict_update (d e : list (string * pyval)) : list (string * pyval) :=
  fold_left (fun acc kv => dict_set (fst kv) (snd kv) acc) e d.

(** The dictionary left by [d.pop(k)]. *)
Fixpoint dict_remove (k : string) (d : list (string * pyval)) : list (string * pyval) :=
  match d with
  | [] => []
  | (k', v') :: r => if String.eqb k k' then r else (k', v') :: dict_remove k r
  end.

(** [k in d]. *)
Definition dict_has (k : string) (d : list (string * pyval)) : bool :=
  match dict_lookup k d with Some _ => true | None => false end.

(** [d[k]] on a value: [KeyError] on a dictionary without the key,
    [TypeError] on a value that cannot be indexed by a string. *)
Definition getitem_str (v : pyval) (k : string) : M pyval :=
  match v with
  | PDict d => match dict_lookup k d with Some x => mret x | None => raise KeyError end
  | _ => raise TypeError
  end.

(** ** Numbers *)

Inductive num := NInt (z : Z) | NFloat (x : float64).

(** [bool] is a subclass of [int]. *)
Definition as_num (v : pyval) : option num :=
  match v with
  | PBool b => Some (NInt (if b then 1 else 0))
  | PInt z => Some (NInt z)
  | PFloat x => Some (NFloat x)
  | _ => None
  end.

Definition to_float (n : num) : float64 :=
  match n with NInt z => f_of_int z | NFloat x => x end.

Definition of_num (n : num) : pyval :=
  match n with NInt z => PInt z | NFloat x => PFloat x end.

(** [isinstance(v, (float, int))]. *)
Definition is_number (v : pyval) : bool :=
  match as_num v with Some _ => true | None => false end.

Definition num_eqb (a b : num) : bool :=
  match a, b with
  | NInt x, NInt y => Z.eqb x y
  | _, _ => f_eqb (to_float a) (to_float b)
  end.

Definition num_ltb (a b : num) : bool :=
  match a, b with
  | NInt x, NInt y => Z.ltb x y
  | _, _ => f_ltb (to_float a) (to_float b)
  end.

Definition num_leb (a b : num) : bool :=
  match a, b with
  | NInt x, NInt y => Z.leb x y
  | _, _ => f_leb (to_float a) (to_float b)
  end.

(** [v == c] for a numeric constant [c]: a value that is not a number is
    not equal to one. *)
Definition eq_num (v : pyval) (c : num) : bool :=
  match as_num v with Some n => num_eqb n c | None => false end.

(** [v == c] for a string constant [c]. *)
Definition eq_str (v : pyval) (c : string) : bool :=
  match v with PStr s => String.eqb s c | _ => false end.

(** [t == (c1, ..., cn)] for a tuple [t] and numeric constants. *)
Fixpoint tuple_eq_nums (l : list pyval) (c : list num) : bool :=
  match l, c with
  | [], [] => true
  | x :: l', n :: c' => eq_num x n && tuple_eq_nums l' c'
  | _, _ => false
  end.

(** [v <= c] for a numeric constant: [TypeError] unless [v] is a number. *)
Definition le_num (v : pyval) (c : num) : M bool :=
  match as_num v with Some n => mret (num_leb n c) | None => raise TypeError end.

(** [max(a, b)]: [b] when [b > a], otherwise [a]. *)
Definition py_max2 (a b : pyval) : M pyval :=
  match as_num a, as_num b with
  | Some x, Some y => mret (if num_ltb x y then b else a)
  | _, _ => raise TypeError
  end.

(** [max(v)] with a single argument iterates over it: a number is not
    iterable, an empty sequence has no maximum. *)
Definition py_max1 (v : pyval) : M pyval :=
  match v with
  | PTuple l | PList l | PArray l =>
      match l with
      | [] => raise (ValueError [Lit "max() arg is an empty sequence"])
      | x :: r => foldl (fun acc y => a ← acc; py_max2 a y) (mret x) r
      end
  | _ => raise TypeError
  end.

Definition arith (fz : Z -> Z -> Z) (ff : float64 -> float64 -> float64) (a b : pyval) : M pyval :=
  match as_num a, as_num b with
  | Some (NInt x), Some (NInt y) => mret (PInt (fz x y))
  | Some x, Some y => mret (PFloat (ff (to_float x) (to_float y)))
  | _, _ => raise TypeError
  end.

Definition py_sub : pyval -> pyval -> M pyval := arith Z.sub f_sub.

(** [a * b]: numbers multiply, a built-in sequence is repeated by an int. *)
Definition py_mul (a b : pyval) : M pyval :=
  let rep (l : list pyval) (n : Z) := mjoin (replicate (Z.to_nat n) l) in
  let reps (s : string) (n : Z) := fold_right String.append "" (replicate (Z.to_nat n) s) in
  match a, as_num b, as_num a, b with
  | PTuple l, Some (NInt n), _, _ => mret (PTuple (rep l n))
  | PList l, Some (NInt n), _, _ => mret (PList (rep l n))
  | PStr s, Some (NInt n), _, _ => mret (PStr (reps s n))
  | _, _, Some (NInt n), PTuple l => mret (PTuple (rep l n))
  | _, _, Some (NInt n), PList l => mret (PList (rep l n))
  | _, _, Some (NInt n), PStr s => mret (PStr (reps s n))
  | _, _, _, _ => arith Z.mul f_mul a b
  end.

(** [np.sum(l)] of a list of numbers.  [np.array(l)] first gives the list
    a dtype (on a platform whose C long has 64 bits):
      int64    every entry is a bool or an int from -2^63 to 2^63 - 1;
      uint64   every entry is an int from 2^63 to 2^64 - 1;
      float64  an entry is a float, or the ints are of both kinds;
      object   an entry is an int that needs more than 64 bits.
    The int64 and the uint64 sum wrap around, the float64 sum is
    [np_sum] of the entries as floats, and the sum of an object array is
    Python's, from left to right.  The empty list is a float64 array.  (A
    list with other entries is not an array of numbers; the model stops
    there with a [TypeError].) *)
Definition all_nums (l : list pyval) : option (list num) :=
  mapM as_num l.

Definition is_int (n : num) : bool := match n with NInt _ => true | NFloat _ => false end.

Definition int_of (n : num) : Z := match n with NInt z => z | NFloat _ => 0 end.

Definition fits_int64 (n : num) : bool :=
  match n with NInt z => Z.leb (- 2 ^ 63) z && Z.ltb z (2 ^ 63) | NFloat _ => false end.

Definition fits_uint64_only (n : num) : bool :=
  match n with NInt z => Z.leb (2 ^ 63) z && Z.ltb z (2 ^ 64) | NFloat _ => false end.

(** The entry is a float, or an int that NumPy stores in 64 bits. *)
Definition fits_float64 (n : num) : bool :=
  match n with NInt _ => fits_int64 n || fits_uint64_only n | NFloat _ => true end.

Definition wrap_int64 (z : Z) : Z := (z + 2 ^ 63) mod 2 ^ 64 - 2 ^ 63.

Definition wrap_uint64 (z : Z) : Z := z mod 2 ^ 64.

(** [a + b] on numbers. *)
Definition num_add (a b : num) : num :=
  match a, b with
  | NInt x, NInt y => NInt (x + y)
  | _, _ => NFloat (f_add (to_float a) (to_float b))
  end.

Definition np_sum_list (l : list pyval) : M pyval :=
  match all_nums l with
  | Some [] => mret (PFloat (np_sum []))
  | Some ((n :: r) as ns) =>
      if forallb fits_int64 ns then
        mret (PInt (wrap_int64 (foldr Z.add 0 (map int_of ns))))
      else if forallb fits_uint64_only ns then
        mret (PInt (wrap_uint64 (foldr Z.add 0 (map int_of ns))))
      else if forallb fits_float64 ns then
        mret (PFloat (np_sum (map to_float ns)))
      else mret (of_num (foldl num_add n r))
  | None => raise TypeError
  end.

(** [a / b]: true division. *)
Definition py_div (a b : pyval) : M pyval :=
  match as_num a, as_num b with
  | Some x, Some y =>
      if num_eqb y (NInt 0) then raise ZeroDivisionError
      else mret (PFloat (f_div (to_float x) (to_float y)))
  | _, _ => raise TypeError
  end.

(** [pow(a, b)] for the two exponents of the source, the int 2 and the
    float 0.5: ints are raised exactly, anything else as floats, and a
    float result that overflows is an [OverflowError].  The source applies
    the exponent 0.5 to [max(x, 0.0)] only; a negative base, which Python
    would answer with a complex number, is not in this model. *)
Definition float_pow (x y : float64) : M pyval :=
  if f_pow_range x y then raise OverflowError else mret (PFloat (f_pow x y)).

Definition py_pow (a b : pyval) : M pyval :=
  match as_num a, as_num b with
  | Some (NInt x), Some (NInt y) =>
      if Z.leb 0 y then mret (PInt (x ^ y))
      else if Z.eqb x 0 then raise ZeroDivisionError
      else float_pow (f_of_int x) (f_of_int y)
  | Some x, Some y => float_pow (to_float x) (to_float y)
  | _, _ => raise TypeError
  end.

(** ** Truth, sequences *)

(** [bool(v)]. *)
Definition truthy (v : pyval) : bool :=
  match v with
  | PNone => false
  | PBool b => b
  | PInt z => negb (Z.eqb z 0)
  | PFloat x => negb (f_eqb x (f_of_int 0))
  | PStr s => negb (String.eqb s "")
  | PTuple l | PList l | PArray l => negb (bool_decide (length l = 0%nat))
  | PDict d => negb (bool_decide (length d = 0%nat))
  end.

Fixpoint string_chars (s : string) : list pyval :=
  match s with
  | EmptyString => []
  | String c r => PStr (String c EmptyString) :: string_chars r
  end.

(** [list(v)]. *)
Definition py_list (v : pyval) : M (list pyval) :=
  match v with
  | PTuple l | PList l | PArray l => mret l
  | PStr s => mret (string_chars s)
  | PDict d => mret (map (fun kv => PStr (fst kv)) d)
  | _ => raise TypeError
  end.

(** [v[:]]: an array is copied into a tuple. *)
Definition slice_all (v : pyval) : M pyval :=
  match v with
  | PTuple l | PArray l => mret (PTuple l)
  | PList l => mret (PList l)
  | PStr s => mret (PStr s)
  | _ => raise TypeError
  end.

(** [l[i]] on a Python list. *)
Definition index {A} (l : list A) (i : nat) : M A :=
  match l !! i with Some x => mret x | None => raise IndexError end.

End WithFloat.
End Py.

(* --------------------------------------------------------------------- *)
(*  The host data model (bpy)                                             *)
(* --------------------------------------------------------------------- *)

Module Bpy.
Section WithFloat.
Context `{FL : Float64}.
Import Py.

(** A link names the node and the output socket it comes from.  Python
    holds references to the objects; nodes are referred to by their name,
    which is unique in a node tree, so that a tree with a cycle is a value
    like any other. *)
Record link := Link { from_node : string; from_socket : string }.

(** An input socket.  [default_value] is absent on socket types that have
    none (shader sockets). *)
Record socket := Socket {
  name : string;
  default_value : option pyval;
  links : list link;
}.

Definition is_linked (s : socket) : bool := negb (bool_decide (links s = [])).

Record image := Image {
  image_name : string;
  filepath : string;
  file_format : string;
  colorspace_settings_name : string;
}.

Record color_ramp_element := Element { position : pyval; color : pyval; alpha : pyval }.

Record color_ramp := ColorRamp {
  color_mode : string;
  interpolation : string;
  hue_interpolation : string;
  elements : list color_ramp_element;
}.

(** A node: its type name, its ordered input sockets and the properties of
    its kind ([distribution], [space], [noise_dimensions], ...), read by
    name as Python does. *)
Record node := Node {
  node_name : string;
  bl_idname : string;
  inputs : list socket;
  attrs : list (string * pyval);
  node_image : option image;
  node_color_ramp : option color_ramp;
}.

(** An output socket knows its node. *)
Record out_socket := OutSocket { out_node : node; out_name : string }.

Definition node_tree := list node.

Record material := Material {
  name_full : string;
  users : Z;
  use_nodes : bool;
  nodes : node_tree;
  diffuse_color : pyval;
}.

(** A scene object: [data] may be missing, a material slot may be empty. *)
Record object := Object {
  object_name_full : string;
  object_type : string;
  data_materials : option (list (option material));
}.

(** [node.inputs[name]]. *)
Definition input (n : node) (nm : string) : M socket :=
  match find (fun s => String.eqb (name s) nm) (inputs n) with
  | Some s => mret s
  | None => raise KeyError
  end.

(** [name in node.inputs]. *)
Definition has_input (n : node) (nm : string) : bool :=
  existsb (fun s => String.eqb (name s) nm) (inputs n).

(** [node.inputs[i]]. *)
Definition input_at (n : node) (i : nat) : M socket := index (inputs n) i.

(** [socket.default_value]. *)
Definition get_default_value (s : socket) : M pyval :=
  match default_value s with Some v => mret v | None => raise AttributeError end.

(** [node.<attribute>]. *)
Definition attr (n : node) (a : string) : M pyval :=
  match dict_lookup a (attrs n) with Some v => mret v | None => raise AttributeError end.

(** [v.lower()]: a method of strings. *)
Definition str_lower (v : pyval) : M string :=
  match v with PStr s => mret (lower s) | _ => raise AttributeError end.

(** [table[v]] for a table with string keys: a list or a dict cannot be
    hashed, any other value that is not one of the keys is missing. *)
Definition table_get {A} (table : list (string * A)) (v : pyval) : M A :=
  match v with
  | PStr s =>
      match find (fun kv => String.eqb (fst kv) s) table with
      | Some kv => mret (snd kv)
      | None => raise KeyError
      end
  | PList _ | PDict _ | PArray _ => raise TypeError
  | _ => raise KeyError
  end.

(** [name in tree.nodes]. *)
Definition has_node (t : node_tree) (nm : string) : bool :=
  existsb (fun n => String.eqb (node_name n) nm) t.

(** [tree.nodes[name]]; also the node a link refers to. *)
Definition get_node (t : node_tree) (nm : string) : M node :=
  match find (fun n => String.eqb (node_name n) nm) t with
  | Some n => mret n
  | None => raise KeyError
  end.

(** [socket.links[0]]. *)
Definition link0 (s : socket) : M link := index (links s) 0.

End WithFloat.
End Bpy.

(* --------------------------------------------------------------------- *)
(*  scene.py                                                              *)
(* --------------------------------------------------------------------- *)

Module Scene.
Section WithFloat.
Context `{FL : Float64}.
Import Py Bpy.

(** The fields of [SceneWriter] that the translator reads.  The cache
    [already_exported] is the one field that is written; it is threaded
    through [Materials.export] explicitly. *)
Record SceneWriter := {
  verbose : bool;
  write_texture_files : bool;
  material_mode : string;
  glossy_mode : string;
  use_normal_maps : bool;
  use_bump_maps : bool;
  force_two_sided : bool;
  enable_blackbody : bool;
  enable_brick : bool;
  enable_checker : bool;
  enable_clamp : bool;
  enable_color_ramp : bool;
  enable_coord : bool;
  enable_fresnel : bool;
  enable_gradient : bool;
  enable_layer_weight : bool;
  enable_mapping : bool;
  enable_math : bool;
  enable_musgrave : bool;
  enable_mix_rgb : bool;
  enable_mix_node : bool;
  enable_noise : bool;
  enable_separate : bool;
  enable_voronoi : bool;
  enable_wave : bool;
  enable_wavelength : bool;
  enable_wireframe : bool;
}.

(** [self.report({level}, message)]. *)
Definition report (lvl : string) (m : msg) : M unit := tell (Report lvl m).

Definition info (ctx : SceneWriter) (message : msg) : M unit :=
  if verbose ctx then report "INFO" message else mret tt.

Definition material_name (b_name : string) : string :=
  replace_char " " "_" b_name.

(** Recursively follow a link potentially via reroute nodes.  [depth] is
    the number of nested calls the interpreter still allows. *)
Fixpoint follow_link (depth : nat) (t : node_tree) (socket : socket) : M Bpy.socket :=
  match depth with
  | O => raise RecursionError
  | S depth' =>
      if is_linked socket then
        l ← link0 socket;
        n ← get_node t (from_node l);
        if String.eqb (bl_idname n) "NodeReroute" then
          s ← input_at n 0;
          follow_link depth' t s
        else mret socket
      else mret socket
  end.

(** [any(type(value[i]) != type(value[i + 1]) for i in range(len(value) - 1))]. *)
Fixpoint mixed_types (value : list pyval) : bool :=
  match value with
  | x :: ((y :: _) as r) => negb (bool_decide (type_of x = type_of y)) || mixed_types r
  | _ => false
  end.

(** [isinstance(x, (float, int, tuple))]. *)
Definition is_number_or_tuple (x : pyval) : bool :=
  is_number x || bool_decide (type_of x = TTuple).

(** Given a color value, format it for the scene dict. *)
Definition color (value : pyval) : M pyval :=
  if is_number value then mret value
  else
    value ← py_list value;
    if existsb (fun x => negb (is_number_or_tuple x)) value then
      raise (ValueError [Lit "Unknown color entry: "; Val (PList value)])
    else if mixed_types value then
      raise (ValueError [Lit "Mixed types in color entry "; Val (PList value)])
    else
      let totitems := length value in
      v0 ← index value 0;
      if is_number v0 then
        if bool_decide (totitems = 3%nat) || bool_decide (totitems = 4%nat) then
          mret (PList (take 3 value))
        else if bool_decide (totitems = 1%nat) then mret v0
        else
          raise (ValueError [Lit "Expected color items to be 1,3 or 4 got ";
                             Val (PInt (Z.of_nat totitems)); Lit ": "; Val (PList value)])
      else mret (PInt 0).

(** [degrees(v)]. *)
Definition degrees (v : pyval) : M pyval :=
  match as_num v with
  | Some n => mret (PFloat (f_degrees (to_float n)))
  | None => raise TypeError
  end.

(** [v.x], [v.y], [v.z]: the components of a host vector. *)
Definition component (v : pyval) (i : nat) : M pyval :=
  match v with
  | PArray l => match l !! i with Some x => mret x | None => raise AttributeError end
  | _ => raise AttributeError
  end.

(** [v[:] != (c, c, c)]. *)
Definition differs_from (v : pyval) (c : Z) : M bool :=
  t ← slice_all v;
  mret (match t with
        | PTuple l => negb (tuple_eq_nums l [NInt c; NInt c; NInt c])
        | _ => true
        end).

Definition LRS_matrix (ctx : SceneWriter) (loc rot sca : pyval) : M pyval :=
  angles ← py_list rot;
  degs ← mapM degrees angles;
  info ctx [Lit "Writing matrix as
	"; Val loc; Lit "
	"; Val (PTuple degs); Lit "
	"; Val sca];;
  let params : list pyval := [] in
  s ← differs_from sca 1;
  params ← (if s : bool then t ← slice_all sca; mret (params ++ [PDict [("scale", t)]])
            else mret params);
  r ← differs_from rot 0;
  params ← (if r : bool then
              x ← component rot 0; dx ← degrees x;
              y ← component rot 1; dy ← degrees y;
              z ← component rot 2; dz ← degrees z;
              mret (params ++ [PDict [("rotate", PTuple [dx; PInt 1; PInt 0; PInt 0])];
                               PDict [("rotate", PTuple [dy; PInt 0; PInt 1; PInt 0])];
                               PDict [("rotate", PTuple [dz; PInt 0; PInt 0; PInt 1])]])
            else mret params);
  m ← differs_from loc 0;
  params ← (if m : bool then t ← slice_all loc; mret (params ++ [PDict [("translate", t)]])
            else mret params);
  mret (PList params).

End WithFloat.
End Scene.

(* --------------------------------------------------------------------- *)
(*  textures.py                                                           *)
(* --------------------------------------------------------------------- *)

Module Textures.
Section WithFloat.
Context `{FL : Float64}.
Import Py Bpy Scene.

Definition dummy_color (ctx : SceneWriter) : M pyval :=
  color (PList [PFloat (f_lit 0.0); PFloat (f_lit 1.0); PFloat (f_lit 0.3)]).

(** ** export_image

    The path under which a texture is referenced.  Saving the image file
    itself, when [write_texture_files] is set, is the image collaborator's
    business and leaves no trace in the scene dictionary. *)

Fixpoint has_char (c : ascii) (s : string) : bool :=
  match s with
  | EmptyString => false
  | String a r => Ascii.eqb a c || has_char c r
  end.

(** [os.path.basename]. *)
Fixpoint basename (s : string) : string :=
  match s with
  | EmptyString => EmptyString
  | String a r => if has_char "/" s then basename r else s
  end.

Fixpoint rindex (c : ascii) (s : string) : option nat :=
  match s with
  | EmptyString => None
  | String a r =>
      match rindex c r with
      | Some i => Some (S i)
      | None => if Ascii.eqb a c then Some O else None
      end
  end.

Fixpoint all_dots (s : string) : bool :=
  match s with
  | EmptyString => true
  | String a r => Ascii.eqb a "." && all_dots r
  end.

(** [os.path.splitext] on a file name without directory. *)
Definition splitext (p : string) : string * string :=
  match rindex "." p with
  | Some d =>
      let root := String.substring 0 d p in
      if all_dots root then (p, "")
      else (root, String.substring d (String.length p - d) p)
  | None => (p, "")
  end.

Definition texture_exts : list (string * string) :=
  [("BMP", ".bmp"); ("HDR", ".hdr"); ("JPEG", ".jpg"); ("JPEG2000", ".jpg");
   ("PNG", ".png"); ("OPEN_EXR", ".exr"); ("OPEN_EXR_MULTILAYER", ".exr");
   ("TARGA", ".tga"); ("TARGA_RAW", ".tga")].

Definition convert_format : list (string * string) :=
  [("CINEON", "EXR"); ("DPX", "EXR"); ("TIFF", "PNG"); ("IRIS", "PNG")].

Definition export_image (ctx : SceneWriter) (image : option Bpy.image) : M string :=
  match image with
  | None => raise AttributeError
  | Some image =>
      file_format ←
        match find (fun kv => String.eqb (fst kv) (file_format image)) convert_format with
        | Some kv =>
            info ctx [Lit "Image format of '"; Val (PStr (image_name image));
                      Lit "' is not supported. Converting it to "; Val (PStr (snd kv)); Lit "."];;
            mret (snd kv)
        | None => mret (file_format image)
        end;
      let original_name := basename (filepath image) in
      name ←
        (if negb (String.eqb original_name "") && String.prefix original_name (image_name image)
         then
           let base_name := fst (splitext original_name) in
           let name := base_name +:+
                       String.substring (String.length original_name)
                         (String.length (image_name image) - String.length original_name)
                         (image_name image) in
           ext ← table_get texture_exts (PStr file_format);
           mret (name +:+ ext)
         else
           ext ← table_get texture_exts (PStr file_format);
           mret (image_name image +:+ ext));
      mret ("textures/" +:+ name)
  end.

(** [repr] of the image in a message: its name stands for the object. *)
Definition image_val (image : option Bpy.image) : pyval :=
  match image with Some i => PStr (image_name i) | None => PNone end.

(** [node.image.colorspace_settings.name]. *)
Definition colorspace (n : node) : M string :=
  match node_image n with
  | Some i => mret (colorspace_settings_name i)
  | None => raise AttributeError
  end.

Definition is_non_color (cs : string) : bool :=
  String.eqb cs "Non-Color" || String.eqb cs "Raw" || String.eqb cs "Linear".


(** ** The converters

    Each converter receives the texture conversion it recurses into, as
    Python finds [convert_texture_node] in the module when it is called. *)

Section Converters.
Variable convert_texture_node : SceneWriter -> socket -> M pyval.

(** [if node.inputs["Vector"].is_linked: params["vector"] = ...]. *)
Definition with_vector (ctx : SceneWriter) (node : node) (params : list (string * pyval))
  : M (list (string * pyval)) :=
  vector ← input node "Vector";
  if is_linked vector then
    v ← convert_texture_node ctx vector;
    mret (<["vector" := v]> params)
  else mret params.

(** [convert_texture_node(ctx, node.inputs[name])]. *)
Definition convert_input (ctx : SceneWriter) (node : node) (nm : string) : M pyval :=
  s ← input node nm;
  convert_texture_node ctx s.

Definition convert_image_texture_node (ctx : SceneWriter) (out_socket : out_socket) : M pyval :=
  let node := out_node out_socket in
  filename ← export_image ctx (node_image node);
  interpolation ← (a ← attr node "interpolation"; str_lower a);
  projection ← (a ← attr node "projection"; str_lower a);
  projection_blend ← attr node "projection_blend";
  let params := [("type", PStr "image"); ("filename", PStr filename);
                 ("interpolation", PStr interpolation); ("projection", PStr projection);
                 ("projection blend", projection_blend)] in
  cs ← colorspace node;
  params ←
    (if is_non_color cs then mret (<["raw" := PBool true]> params)
     else if negb (String.eqb cs "sRGB") then
       report "WARNING" [Lit "Texture '"; Val (image_val (node_image node)); Lit "' uses ";
                         Val (PStr cs);
                         Lit " colorspace. Darts only supports sRGB textures for color data."];;
       mret params
     else mret params);
  params ←
    (if String.eqb (out_name out_socket) "Color" then mret (<["output" := PStr "color"]> params)
     else if String.eqb (out_name out_socket) "Alpha" then mret (<["output" := PStr "alpha"]> params)
     else raise (NotImplementedError
                   [Lit "Unrecognized output socket '"; Val (PStr (out_name out_socket));
                    Lit "' on image texture node"]));
  extension ← attr node "extension";
  (if eq_str extension "CLIP" then
     report "WARNING" [Lit "'CLIP' extension mode behaves differently in Blender than in Darts."]
   else mret tt);;
  let modes := [("REPEAT", "repeat"); ("EXTEND", "CLAMP"); ("CLIP", "black")] in
  mode ← table_get modes extension;
  let params := <["wrap mode y" := PStr mode]> (<["wrap mode x" := PStr mode]> params) in
  params ← with_vector ctx node params;
  mret (PDict params).

Definition convert_environment_texture_node (ctx : SceneWriter) (out_socket : out_socket) : M pyval :=
  let node := out_node out_socket in
  filename ← export_image ctx (node_image node);
  interpolation ← (a ← attr node "interpolation"; str_lower a);
  let params := [("type", PStr "envmap"); ("filename", PStr filename);
                 ("output", PStr "color"); ("interpolation", PStr interpolation)] in
  cs ← colorspace node;
  params ←
    (if is_non_color cs then mret (<["raw" := PBool true]> params)
     else if negb (String.eqb cs "sRGB") then
       report "WARNING" [Lit "Texture '"; Val (image_val (node_image node)); Lit "' uses ";
                         Val (PStr cs);
                         Lit " colorspace. Darts only supports sRGB textures for color data."];;
       mret params
     else mret params);
  projection ← attr node "projection";
  (if negb (eq_str projection "EQUIRECTANGULAR") then
     report "WARNING" [Lit "Darts only supports 'EQUIRECTANGULAR' envmaps. Ignoring ";
                       Val projection; Lit "."]
   else mret tt);;
  params ← with_vector ctx node params;
  mret (PDict params).

Definition convert_checker_texture_node (ctx : SceneWriter) (out_socket : out_socket) : M pyval :=
  if negb (enable_checker ctx) then dummy_color ctx
  else
    let node := out_node out_socket in
    scale ← input node "Scale";
    if is_linked scale then
      raise (NotImplementedError [Lit "Textured 'Scale' values are not supported"])
    else
      scale ← convert_input ctx node "Scale";
      color1 ← convert_input ctx node "Color1";
      color2 ← convert_input ctx node "Color2";
      let params := [("type", PStr "checker"); ("scale", scale);
                     ("color1", color1); ("color2", color2)] in
      params ← with_vector ctx node params;
      mret (PDict params).

Definition convert_brick_texture_node (ctx : SceneWriter) (out_socket : out_socket) : M pyval :=
  if negb (enable_brick ctx) then dummy_color ctx
  else
    let node := out_node out_socket in
    offset ← attr node "offset";
    offset_frequency ← attr node "offset_frequency";
    squash ← attr node "squash";
    squash_frequency ← attr node "squash_frequency";
    color1 ← convert_input ctx node "Color1";
    color2 ← convert_input ctx node "Color2";
    mortar ← convert_input ctx node "Mortar";
    scale ← convert_input ctx node "Scale";
    mortar_size ← convert_input ctx node "Mortar Size";
    mortar_smooth ← convert_input ctx node "Mortar Smooth";
    bias ← convert_input ctx node "Bias";
    brick_width ← convert_input ctx node "Brick Width";
    row_height ← convert_input ctx node "Row Height";
    let params := [("type", PStr "brick"); ("offset", offset);
                   ("offset frequency", offset_frequency); ("squash", squash);
                   ("squash frequency", squash_frequency);
                   ("color1", color1); ("color2", color2); ("mortar", mortar);
                   ("scale", scale); ("mortar size", mortar_size);
                   ("mortar smooth", mortar_smooth); ("bias", bias);
                   ("brick width", brick_width); ("row height", row_height);
                   ("output", PStr (if String.eqb (out_name out_socket) "Fac"
                                    then "float" else "color"))] in
    params ← with_vector ctx node params;
    mret (PDict params).

Definition convert_wave_texture_node (ctx : SceneWriter) (out_socket : out_socket) : M pyval :=
  if negb (enable_wave ctx) then color (PFloat (f_lit 0.5))
  else
    let node := out_node out_socket in
    let profiles := [("SIN", "sine"); ("SAW", "saw"); ("TRI", "triangle")] in
    wave_type_v ← attr node "wave_type";
    wave_type ← str_lower wave_type_v;
    wt ← attr node "wave_type";
    direction ←
      (if eq_str wt "BANDS" then a ← attr node "bands_direction"; str_lower a
       else a ← attr node "rings_direction"; str_lower a);
    wave_profile ← attr node "wave_profile";
    profile ← table_get profiles wave_profile;
    scale ← convert_input ctx node "Scale";
    distortion ← convert_input ctx node "Distortion";
    detail ← convert_input ctx node "Detail";
    detail_scale ← convert_input ctx node "Detail Scale";
    detail_roughness ← convert_input ctx node "Detail Roughness";
    phase_offset ← convert_input ctx node "Phase Offset";
    let params := [("type", PStr "wave"); ("wave type", PStr wave_type);
                   ("direction", PStr direction); ("profile", PStr profile);
                   ("scale", scale); ("distortion", distortion); ("detail", detail);
                   ("detail scale", detail_scale); ("detail roughness", detail_roughness);
                   ("phase offset", phase_offset)] in
    params ← with_vector ctx node params;
    mret (PDict params).

Definition dimensions : list (string * Z) := [("1D", 1); ("2D", 2); ("3D", 3); ("4D", 4)].

(** The two statements that end the noise, white noise, Voronoi and
    Musgrave converters:
      [if dims == 1 or dims == 4: params["w"] = ...]
      [if dims != 1 and node.inputs["Vector"].is_linked: params["vector"] = ...] *)
Definition with_w_and_vector (ctx : SceneWriter) (node : node) (dims : Z)
    (params : list (string * pyval)) : M (list (string * pyval)) :=
  params ←
    (if Z.eqb dims 1 || Z.eqb dims 4 then
       w ← convert_input ctx node "W";
       mret (<["w" := w]> params)
     else mret params);
  if negb (Z.eqb dims 1) then with_vector ctx node params
  else mret params.

Definition convert_white_noise_texture_node (ctx : SceneWriter) (out_socket : out_socket) : M pyval :=
  let node := out_node out_socket in
  nd ← attr node "noise_dimensions";
  dims ← table_get dimensions nd;
  let params := [("type", PStr "white noise"); ("dimensions", PInt dims);
                 ("output", PStr (if String.eqb (out_name out_socket) "Value"
                                  then "float" else "color"))] in
  params ← with_w_and_vector ctx node dims params;
  mret (PDict params).

Definition convert_noise_texture_node (ctx : SceneWriter) (out_socket : out_socket) : M pyval :=
  if negb (enable_noise ctx) then color (PFloat (f_lit 0.5))
  else
    let node := out_node out_socket in
    nd ← attr node "noise_dimensions";
    dims ← table_get dimensions nd;
    scale ← convert_input ctx node "Scale";
    detail ← convert_input ctx node "Detail";
    roughness ← convert_input ctx node "Roughness";
    lacunarity ← convert_input ctx node "Lacunarity";
    distortion ← convert_input ctx node "Distortion";
    normalize ← attr node "normalize";
    let params := [("type", PStr "noise"); ("scale", scale); ("detail", detail);
                   ("roughness", roughness); ("lacunarity", lacunarity);
                   ("distortion", distortion); ("dimensions", PInt dims);
                   ("normalize", normalize);
                   ("output", PStr (if String.eqb (out_name out_socket) "Fac"
                                    then "float" else "color"))] in
    params ← with_w_and_vector ctx node dims params;
    mret (PDict params).

Definition convert_voronoi_texture_node (ctx : SceneWriter) (out_socket : out_socket) : M pyval :=
  if negb (enable_voronoi ctx) then color (PFloat (f_lit 0.5))
  else
    let node := out_node out_socket in
    vd ← attr node "voronoi_dimensions";
    dims ← table_get dimensions vd;
    scale ← convert_input ctx node "Scale";
    randomness ← convert_input ctx node "Randomness";
    feature ← (a ← attr node "feature"; s ← str_lower a; mret (replace_char "_" " " s));
    distance ← (a ← attr node "distance"; str_lower a);
    let params := [("type", PStr "voronoi"); ("scale", scale); ("randomness", randomness);
                   ("dimensions", PInt dims); ("feature", PStr feature);
                   ("distance", PStr distance);
                   ("output", PStr (lower (out_name out_socket)))] in
    params ←
      (if String.eqb feature "smooth f1" then
         smoothness ← convert_input ctx node "Smoothness";
         mret (<["smoothness" := smoothness]> params)
       else mret params);
    params ← with_w_and_vector ctx node dims params;
    mret (PDict params).

Definition convert_musgrave_texture_node (ctx : SceneWriter) (out_socket : out_socket) : M pyval :=
  if negb (enable_musgrave ctx) then color (PFloat (f_lit 0.5))
  else
    let node := out_node out_socket in
    nd ← attr node "noise_dimensions";
    dims ← table_get dimensions nd;
    fractal_type ← (a ← attr node "musgrave_type"; s ← str_lower a; mret (replace_char "_" " " s));
    scale ← convert_input ctx node "Scale";
    detail ← convert_input ctx node "Detail";
    dimension ← convert_input ctx node "Dimension";
    lacunarity ← convert_input ctx node "Lacunarity";
    offset ← convert_input ctx node "Offset";
    gain ← convert_input ctx node "Gain";
    let params := [("type", PStr "musgrave"); ("fractal type", PStr fractal_type);
                   ("scale", scale); ("detail", detail); ("dimension", dimension);
                   ("lacunarity", lacunarity); ("offset", offset); ("gain", gain);
                   ("dimensions", PInt dims)] in
    params ← with_w_and_vector ctx node dims params;
    mret (PDict params).

Definition convert_layer_weight_node (ctx : SceneWriter) (out_socket : out_socket) : M pyval :=
  if negb (enable_layer_weight ctx) then color (PFloat (f_lit 0.5))
  else
    let node := out_node out_socket in
    if String.eqb (out_name out_socket) "Fresnel" then
      blend ← input node "Blend";
      (if is_linked blend then
         report "WARNING" [Lit "Textured Blend values for Fresnel are not currently supported in Darts. Using the default value instead."]
       else mret tt);;
      blend ← input node "Blend";
      b ← get_default_value blend;
      d ← py_sub (PFloat (f_lit 1.0)) b;
      m ← py_max2 d (PFloat (f_lit 0.00001));
      ior ← py_div (PFloat (f_lit 1.0)) m;
      mret (PDict [("type", PStr "fresnel"); ("ior", ior)])
    else if String.eqb (out_name out_socket) "Facing" then
      blend ← convert_input ctx node "Blend";
      mret (PDict [("type", PStr "facing"); ("blend", blend)])
    else
      raise (NotImplementedError
               [Lit "Unsupported Layer Weight type, expecting either 'Fresnel' or 'Facing'"]).

Definition convert_mix_rgb_node (ctx : SceneWriter) (out_socket : out_socket) : M pyval :=
  if negb (enable_mix_rgb ctx) then dummy_color ctx
  else
    let node := out_node out_socket in
    blend_type ← (a ← attr node "blend_type"; s ← str_lower a; mret (replace_char "_" " " s));
    use_clamp ← attr node "use_clamp";
    factor ← convert_input ctx node "Fac";
    a ← convert_input ctx node "Color1";
    b ← convert_input ctx node "Color2";
    mret (PDict [("type", PStr "mix"); ("blend type", PStr blend_type);
                 ("clamp result", use_clamp); ("factor", factor); ("a", a); ("b", b)]).

Definition convert_mix_node (ctx : SceneWriter) (out_socket : out_socket) : M pyval :=
  if negb (enable_mix_node ctx) then dummy_color ctx
  else
    let node := out_node out_socket in
    data_type ← attr node "data_type";
    if negb (eq_str data_type "RGBA") && negb (eq_str data_type "FLOAT") then
      raise (NotImplementedError
               [Lit "Only Color and Float mix nodes are currently supported in Darts"])
    else
      blend_type ← (a ← attr node "blend_type"; s ← str_lower a; mret (replace_char "_" " " s));
      clamp_factor ← attr node "clamp_factor";
      clamp_result ← attr node "clamp_result";
      factor ← convert_input ctx node "Fac";
      a ← convert_input ctx node "Color1";
      b ← convert_input ctx node "Color2";
      mret (PDict [("type", PStr "mix"); ("blend type", PStr blend_type);
                   ("clamp factor", clamp_factor); ("clamp result", clamp_result);
                   ("factor", factor); ("a", a); ("b", b)]).

Definition convert_clamp_node (ctx : SceneWriter) (out_socket : out_socket) : M pyval :=
  if negb (enable_clamp ctx) then dummy_color ctx
  else
    let node := out_node out_socket in
    clamp_type ← (a ← attr node "clamp_type"; str_lower a);
    value ← convert_input ctx node "Value";
    min ← convert_input ctx node "Min";
    max ← convert_input ctx node "Max";
    mret (PDict [("type", PStr "clamp"); ("clamp type", PStr clamp_type);
                 ("value", value); ("min", min); ("max", max)]).

Definition convert_fresnel_node (ctx : SceneWriter) (out_socket : out_socket) : M pyval :=
  if negb (enable_fresnel ctx) then color (PFloat (f_lit 0.5))
  else
    let node := out_node out_socket in
    ior ← input node "IOR";
    (if is_linked ior then
       report "WARNING" [Lit "Textured IOR values are not supported in Darts. Using the default value instead."]
     else mret tt);;
    ior ← input node "IOR";
    v ← get_default_value ior;
    mret (PDict [("type", PStr "fresnel"); ("ior", v)]).

Definition convert_rgb_node (ctx : SceneWriter) (out_socket : out_socket) : M pyval :=
  let node := out_node out_socket in
  c ← attr node "color";
  color c.

Definition convert_blackbody_node (ctx : SceneWriter) (out_socket : out_socket) : M pyval :=
  if negb (enable_blackbody ctx) then dummy_color ctx
  else
    let node := out_node out_socket in
    temperature ← convert_input ctx node "Temperature";
    mret (PDict [("type", PStr "blackbody"); ("temperature", temperature)]).

Definition convert_wavelength_node (ctx : SceneWriter) (out_socket : out_socket) : M pyval :=
  if negb (enable_wavelength ctx) then dummy_color ctx
  else
    let node := out_node out_socket in
    wavelength ← convert_input ctx node "Wavelength";
    mret (PDict [("type", PStr "wavelength"); ("wavelength", wavelength)]).

Definition convert_coord_texture_node (ctx : SceneWriter) (out_socket : out_socket) : M pyval :=
  if negb (enable_coord ctx) then dummy_color ctx
  else
    let node := out_node out_socket in
    object ← attr node "object";
    (if negb (bool_decide (type_of object = TNone)) then
       report "WARNING" [Lit "Darts does not currently support texture coordinates from other objects. Ignoring."]
     else mret tt);;
    mret (PDict [("type", PStr "coord"); ("coordinate", PStr (lower (out_name out_socket)))]).

Definition convert_mapping_node (ctx : SceneWriter) (out_socket : out_socket) : M pyval :=
  if negb (enable_mapping ctx) then mret PNone
  else
    let node := out_node out_socket in
    vector_type ← (a ← attr node "vector_type"; str_lower a);
    let params := [("type", PStr "mapping"); ("vector type", PStr vector_type)] in
    info ctx [Lit "Writing '"; Val (PStr vector_type); Lit "' mapping node."];;
    location ← input node "Location";
    linked ←
      (if is_linked location then mret true
       else rotation ← input node "Rotation";
            if is_linked rotation then mret true
            else scale ← input node "Scale"; mret (is_linked scale));
    if linked : bool then
      raise (NotImplementedError
               [Lit "Location, Rotation, and Scale inputs shouldn't be linked"])
    else
      loc ← (s ← input node "Location"; get_default_value s);
      rot ← (s ← input node "Rotation"; get_default_value s);
      sca ← (s ← input node "Scale"; get_default_value s);
      transform ← LRS_matrix ctx loc rot sca;
      let params := <["transform" := transform]> params in
      params ← with_vector ctx node params;
      mret (PDict params).

Definition convert_wireframe_texture_node (ctx : SceneWriter) (out_socket : out_socket) : M pyval :=
  if negb (enable_wireframe ctx) then dummy_color ctx
  else
    let node := out_node out_socket in
    size ← convert_input ctx node "Size";
    use_pixel_size ← attr node "use_pixel_size";
    mret (PDict [("type", PStr "wireframe"); ("size", size); ("pixel size", use_pixel_size)]).

Definition convert_light_path_texture_node (ctx : SceneWriter) (out_socket : out_socket) : M pyval :=
  mret (PDict [("type", PStr "light path"); ("output", PStr (lower (out_name out_socket)))]).

Definition convert_color_attrib_node (ctx : SceneWriter) (out_socket : out_socket) : M pyval :=
  mret (PDict [("type", PStr "vertex colors")]).

Definition convert_val_to_rgb_node (ctx : SceneWriter) (out_socket : out_socket) : M pyval :=
  if negb (enable_color_ramp ctx) then dummy_color ctx
  else
    let node := out_node out_socket in
    factor ← convert_input ctx node "Fac";
    match node_color_ramp node with
    | None => raise AttributeError
    | Some color_ramp =>
        elements ←
          mapM (fun e =>
                  c ← color (Bpy.color e);
                  mret (PDict [("position", position e); ("color", c); ("alpha", alpha e)]))
               (elements color_ramp);
        mret (PDict [("type", PStr "color ramp"); ("factor", factor);
                     ("color mode", PStr (lower (color_mode color_ramp)));
                     ("interpolation",
                      PStr (replace_char "_" "-" (lower (interpolation color_ramp))));
                     ("hue interpolation", PStr (lower (hue_interpolation color_ramp)));
                     ("elements", PList elements);
                     ("output", PStr (if String.eqb (out_name out_socket) "Alpha"
                                      then "float" else "color"))])
    end.

(** A socket object is true, so [node.inputs["Color"] if node.inputs["Color"]
    else node.inputs["Vector"]] is [node.inputs["Color"]] or a [KeyError]. *)
Definition convert_separate_node (ctx : SceneWriter) (out_socket : out_socket) : M pyval :=
  if negb (enable_separate ctx) then dummy_color ctx
  else
    let node := out_node out_socket in
    _ ← input node "Color";
    inp ← convert_input ctx node "Color";
    mode_v ← attr node "mode";
    mode ← (if truthy mode_v then m ← attr node "mode"; str_lower m else mret "xyz");
    mret (PDict [("type", PStr "separate"); ("input", inp); ("mode", PStr mode);
                 ("component", PStr (lower (out_name out_socket)))]).

Definition convert_gradient_node (ctx : SceneWriter) (out_socket : out_socket) : M pyval :=
  if negb (enable_gradient ctx) then dummy_color ctx
  else
    let node := out_node out_socket in
    vector ← convert_input ctx node "Vector";
    gradient_type ← (a ← attr node "gradient_type"; s ← str_lower a; mret (replace_char "_" " " s));
    mret (PDict [("type", PStr "gradient"); ("vector", vector);
                 ("gradient type", PStr gradient_type)]).

Definition convert_math_node (ctx : SceneWriter) (out_socket : out_socket) : M pyval :=
  if negb (enable_math ctx) then dummy_color ctx
  else
    let node := out_node out_socket in
    operation ← (a ← attr node "operation"; s ← str_lower a; mret (replace_char "_" " " s));
    use_clamp ← attr node "use_clamp";
    let params := [("type", PStr "math"); ("operation", PStr operation); ("clamp", use_clamp)] in
    params ←
      (if Nat.ltb 0 (length (inputs node)) then
         s ← input_at node 0; a ← convert_texture_node ctx s; mret (<["a" := a]> params)
       else mret params);
    params ←
      (if Nat.ltb 1 (length (inputs node)) then
         s ← input_at node 1; b ← convert_texture_node ctx s; mret (<["b" := b]> params)
       else mret params);
    params ←
      (if Nat.ltb 2 (length (inputs node)) then
         s ← input_at node 2; c ← convert_texture_node ctx s; mret (<["c" := c]> params)
       else mret params);
    mret (PDict params).

(** The dispatch table of [convert_texture_node]. *)
Definition texture_converters : list (string * (SceneWriter -> out_socket -> M pyval)) :=
  [("ShaderNodeBlackbody", convert_blackbody_node);
   ("ShaderNodeTexBrick", convert_brick_texture_node);
   ("ShaderNodeClamp", convert_clamp_node);
   ("ShaderNodeTexChecker", convert_checker_texture_node);
   ("ShaderNodeTexCoord", convert_coord_texture_node);
   ("ShaderNodeTexEnvironment", convert_environment_texture_node);
   ("ShaderNodeMapping", convert_mapping_node);
   ("ShaderNodeFresnel", convert_fresnel_node);
   ("ShaderNodeTexImage", convert_image_texture_node);
   ("ShaderNodeLayerWeight", convert_layer_weight_node);
   ("ShaderNodeMixRGB", convert_mix_rgb_node);
   ("ShaderNodeMix", convert_mix_node);
   ("ShaderNodeTexMusgrave", convert_musgrave_texture_node);
   ("ShaderNodeTexNoise", convert_noise_texture_node);
   ("ShaderNodeRGB", convert_rgb_node);
   ("ShaderNodeTexVoronoi", convert_voronoi_texture_node);
   ("ShaderNodeTexWave", convert_wave_texture_node);
   ("ShaderNodeWavelength", convert_wavelength_node);
   ("ShaderNodeTexWhiteNoise", convert_white_noise_texture_node);
   ("ShaderNodeWireframe", convert_wireframe_texture_node);
   ("ShaderNodeLightPath", convert_light_path_texture_node);
   ("ShaderNodeVertexColor", convert_color_attrib_node);
   ("ShaderNodeValToRGB", convert_val_to_rgb_node);
   ("ShaderNodeSeparateXYZ", convert_separate_node);
   ("ShaderNodeSeparateColor", convert_separate_node);
   ("ShaderNodeTexGradient", convert_gradient_node);
   ("ShaderNodeMath", convert_math_node)].

End Converters.

(** [a in s] for strings. *)
Fixpoint is_substring (a s : string) : bool :=
  String.prefix a s ||
  match s with
  | EmptyString => false
  | String _ r => is_substring a r
  end.

(** [params and isinstance(params, Iterable) and "type" in params]. *)
Definition announces_type (params : pyval) : bool :=
  truthy params &&
  match params with
  | PDict d => dict_has "type" d
  | PTuple l | PList l | PArray l => existsb (fun x => eq_str x "type") l
  | PStr s => is_substring "type" s
  | _ => false
  end.

(** [depth] is the number of nested calls the interpreter still allows;
    [t] is the node tree the socket belongs to. *)
Fixpoint convert_texture_node (depth : nat) (t : node_tree) (ctx : SceneWriter)
    (socket : socket) : M pyval :=
  match depth with
  | O => raise RecursionError
  | S depth' =>
      if is_linked socket then
        s ← follow_link depth' t socket;
        l ← link0 s;
        node ← get_node t (from_node l);
        let from_socket := OutSocket node (from_socket l) in
        match find (fun kv => String.eqb (fst kv) (bl_idname node))
                   (texture_converters (convert_texture_node depth' t)) with
        | Some kv =>
            info ctx [Lit "Converting a '"; Val (PStr (bl_idname node));
                      Lit "' Blender shader node."];;
            params ← snd kv ctx from_socket;
            (if announces_type params then
               ty ← getitem_str params "type";
               info ctx [Lit "  Created a '"; Val ty; Lit "' texture."]
             else mret tt);;
            mret params
        | None =>
            raise (NotImplementedError
                     [Lit "Shader node type "; Val (PStr (bl_idname node));
                      Lit " is not supported"])
        end
      else
        v ← get_default_value socket;
        color v
  end.

End WithFloat.
End Textures.

(* --------------------------------------------------------------------- *)
(*  materials.py                                                          *)
(* --------------------------------------------------------------------- *)

Module Materials.
Section WithFloat.
Context `{FL : Float64}.
Import Py Bpy Scene.

Definition dict := list (string * pyval).

Definition RoughnessMode : list (string * string) :=
  [("GGX", "ggx"); ("BECKMANN", "beckmann"); ("ASHIKHMIN_SHIRLEY", "blinn");
   ("MULTI_GGX", "ggx")].

Definition make_two_sided (ctx : SceneWriter) (bsdf : dict) : M dict :=
  if force_two_sided ctx then
    ty ← getitem_str (PDict bsdf) "type";
    info ctx [Lit "  Wrapping '"; Val ty; Lit "' material in a 'two sided' adapter."];;
    mret [("type", PStr "two sided"); ("both sides", PDict bsdf)]
  else mret bsdf.

(** ** The surface converters

    They call [textures.convert_texture_node], [ctx.follow_link] and, for
    the mix and add shaders, [cycles_surface_to_dict]; the three are bound
    to what the caller's remaining call depth allows. *)

Section Converters.
Variable t : node_tree.
Variable convert_texture_node : SceneWriter -> socket -> M pyval.
Variable follow_link : socket -> M socket.
Variable cycles_surface_to_dict : SceneWriter -> node -> option string -> M dict.

Definition convert_input (ctx : SceneWriter) (node : node) (nm : string) : M pyval :=
  s ← input node nm;
  convert_texture_node ctx s.

(** [ctx.follow_link(socket).links[0].from_node]. *)
Definition linked_node (socket : socket) : M node :=
  s ← follow_link socket;
  l ← link0 s;
  get_node t (from_node l).

Definition convert_diffuse_material (ctx : SceneWriter) (node : node) : M dict :=
  color ← convert_input ctx node "Color";
  roughness ← convert_input ctx node "Roughness";
  let params := [("type", PStr "diffuse"); ("color", color); ("roughness", roughness)] in
  make_two_sided ctx params.

(** [max(2.0 / (alpha * alpha) - 1.0, 0.0)]. *)
Definition roughness_to_blinn_exponent (alpha : pyval) : M pyval :=
  a2 ← py_mul alpha alpha;
  q ← py_div (PFloat (f_lit 2.0)) a2;
  d ← py_sub q (PFloat (f_lit 1.0));
  py_max2 d (PFloat (f_lit 0.0)).

Definition convert_glossy_material (ctx : SceneWriter) (node : node) : M dict :=
  let params : dict := [] in
  roughness ← convert_input ctx node "Roughness";
  params ←
    (if String.eqb (glossy_mode ctx) "rough conductor" then
       distribution ← attr node "distribution";
       sharp ←
         (if eq_str distribution "SHARP" then mret true
          else
            r ← input node "Roughness";
            if negb (is_linked r) then
              r ← input node "Roughness";
              v ← get_default_value r;
              le_num v (NInt 0)
            else mret false);
       params ←
         (if sharp : bool then mret (dict_update params [("type", PStr "conductor")])
          else
            distribution ← attr node "distribution";
            mode ← table_get RoughnessMode distribution;
            let params := dict_update params [("type", PStr (glossy_mode ctx));
                                              ("distribution", PStr mode)] in
            let params := dict_update params [("roughness", roughness)] in
            params ←
              (if has_input node "Anisotropy" then
                 a ← convert_input ctx node "Anisotropy";
                 mret (dict_update params [("anisotropy", a)])
               else mret params);
            (if has_input node "Rotation" then
               r ← convert_input ctx node "Rotation";
               mret (dict_update params [("rotation", r)])
             else mret params));
       color ← convert_input ctx node "Color";
       mret (dict_update params [("color", color)])
     else if String.eqb (glossy_mode ctx) "blinn-phong" || String.eqb (glossy_mode ctx) "phong" then
       r ← input node "Roughness";
       exponent ←
         (if is_linked r then
            raise (NotImplementedError
                     [Lit "Phong and Blinn-Phong roughness parameter doesn't support textures in Darts"])
          else
            r ← input node "Roughness";
            v ← get_default_value r;
            alpha ← py_pow v (PInt 2);
            exponent ← roughness_to_blinn_exponent alpha;
            if String.eqb (glossy_mode ctx) "phong" then py_div exponent (PInt 4)
            else mret exponent);
       distribution ← attr node "distribution";
       sharp ← (if eq_str distribution "SHARP" then mret true else le_num exponent (NInt 0));
       params ←
         (if sharp : bool then
            mret (dict_update params [("type", PStr "metal"); ("roughness", PInt 0)])
          else
            distribution ← attr node "distribution";
            mode ← table_get RoughnessMode distribution;
            mret (dict_update params [("type", PStr (glossy_mode ctx));
                                      ("exponent", exponent);
                                      ("distribution", PStr mode)]));
       color ← convert_input ctx node "Color";
       mret (dict_update params [("color", color)])
     else if String.eqb (glossy_mode ctx) "metal" then
       distribution ← attr node "distribution";
       roughness ←
         (if negb (eq_str distribution "SHARP") then convert_input ctx node "Roughness"
          else mret (PInt 0));
       color ← convert_input ctx node "Color";
       mret (dict_update params [("type", PStr (glossy_mode ctx));
                                 ("roughness", roughness); ("color", color)])
     else mret params);
  make_two_sided ctx params.

Definition convert_glass_material (ctx : SceneWriter) (node : node) : M dict :=
  let params : dict := [] in
  ior_socket ← input node "IOR";
  (if is_linked ior_socket then
     report "WARNING" [Val (PStr (node_name node));
                       Lit ": Textured IOR values are not supported in Darts. Using the default value instead."]
   else mret tt);;
  ior ← (s ← input node "IOR"; get_default_value s);
  roughness ← convert_input ctx node "Roughness";
  rough ←
    (if truthy roughness then
       distribution ← attr node "distribution";
       mret (negb (eq_str distribution "SHARP"))
     else mret false);
  params ←
    (if rough : bool then
       distribution ← attr node "distribution";
       mode ← table_get RoughnessMode distribution;
       mret (dict_update params [("type", PStr "rough dielectric");
                                 ("roughness", roughness);
                                 ("distribution", PStr mode)])
     else
       mret (<["type" := PStr (if eq_num ior (NFloat (f_lit 1.0))
                               then "thin dielectric" else "dielectric")]> params));
  let params := <["ior" := ior]> params in
  color ← convert_input ctx node "Color";
  let params := <["reflectance" := color]> params in
  let params := <["transmittance" := color]> params in
  mret params.

Definition convert_emission_material (ctx : SceneWriter) (node : node) : M dict :=
  strength ← input node "Strength";
  radiance ←
    (if is_linked strength then
       raise (NotImplementedError [Lit "Only default emitter strength value is supported"])
     else
       s ← input node "Strength";
       get_default_value s);
  color_socket ← input node "Color";
  radiance ←
    (if is_linked color_socket then
       raise (NotImplementedError [Lit "Only default emitter color is supported"])
     else
       c ← (s ← input node "Color"; get_default_value s);
       c ← slice_all c;
       xs ← py_list c;
       mapM (fun x => py_mul x radiance) xs);
  total ← np_sum_list radiance;
  if eq_num total (NInt 0) then
    report "WARN" [Lit "  Emitter has zero emission, this may cause Darts to fail! Creating a 'diffuse' material instead."];;
    c ← color (PInt 0);
    mret [("type", PStr "diffuse"); ("color", c)]
  else
    c ← color (PList radiance);
    mret [("type", PStr "emission"); ("color", c)].

Definition convert_transparent_material (ctx : SceneWriter) (node : node) : M dict :=
  color ← convert_input ctx node "Color";
  mret [("type", PStr "transparent"); ("color", color)].

(** [not node.inputs[1].is_linked or not node.inputs[2].is_linked]. *)
Definition missing_branch (node : node) : M bool :=
  s1 ← input_at node 1;
  if negb (is_linked s1) then mret true
  else s2 ← input_at node 2; mret (negb (is_linked s2)).

Definition convert_mix_material (ctx : SceneWriter) (node : node) : M dict :=
  missing ← missing_branch node;
  if missing : bool then
    raise (NotImplementedError [Lit "Mix shader is not linked to two materials"])
  else
    mat_I ← (s ← input_at node 1; linked_node s);
    mat_II ← (s ← input_at node 2; linked_node s);
    factor ← convert_input ctx node "Fac";
    a ← cycles_surface_to_dict ctx mat_I None;
    b ← cycles_surface_to_dict ctx mat_II None;
    mret [("type", PStr "mix"); ("factor", factor); ("a", PDict a); ("b", PDict b)].

Definition convert_add_material (ctx : SceneWriter) (node : node) : M dict :=
  missing ← missing_branch node;
  if missing : bool then
    raise (NotImplementedError [Lit "Add shader is not linked to two materials"])
  else
    mat_I ← (s ← input_at node 1; linked_node s);
    mat_II ← (s ← input_at node 2; linked_node s);
    a ← cycles_surface_to_dict ctx mat_I None;
    b ← cycles_surface_to_dict ctx mat_II None;
    mret [("type", PStr "add"); ("a", PDict a); ("b", PDict b)].

Definition wrap_with_bump_or_normal_map (ctx : SceneWriter) (node : node) (nested : dict) : M dict :=
  linked ←
    (if (use_normal_maps ctx || use_bump_maps ctx) && has_input node "Normal" then
       s ← input node "Normal"; mret (is_linked s)
     else mret false);
  if linked : bool then
    n ← (s ← input node "Normal"; linked_node s);
    if String.eqb (bl_idname n) "ShaderNodeNormalMap" then
      if negb (use_normal_maps ctx) then mret nested
      else
        space ← attr n "space";
        if negb (eq_str space "TANGENT") then
          raise (NotImplementedError [Lit "Darts only supports tangent-space normal maps"])
        else
          normals ← (s ← input n "Color"; convert_texture_node ctx s);
          strength ← (s ← input n "Strength"; get_default_value s);
          let wrapper := [("type", PStr "normal map"); ("normals", normals);
                          ("strength", strength)] in
          let '(wrapper, nested) :=
            match dict_lookup "name" nested with
            | Some nm => (<["name" := nm]> wrapper, dict_remove "name" nested)
            | None => (wrapper, nested)
            end in
          let wrapper := <["nested" := PDict nested]> wrapper in
          ty ← getitem_str (PDict wrapper) "type";
          info ctx [Lit "  Wrapping material with a '"; Val ty; Lit "'."];;
          mret wrapper
    else if String.eqb (bl_idname n) "ShaderNodeBump" then
      if negb (use_bump_maps ctx) then mret nested
      else
        height ← (s ← input n "Height"; convert_texture_node ctx s);
        strength ← (s ← input n "Strength"; convert_texture_node ctx s);
        distance ← (s ← input n "Distance"; convert_texture_node ctx s);
        invert ← attr n "invert";
        let wrapper := [("type", PStr "bump map"); ("height", height);
                        ("strength", strength); ("distance", distance);
                        ("invert", invert)] in
        let '(wrapper, nested) :=
          match dict_lookup "name" nested with
          | Some nm => (<["name" := nm]> wrapper, dict_remove "name" nested)
          | None => (wrapper, nested)
          end in
        let wrapper := <["nested" := PDict nested]> wrapper in
        ty ← getitem_str (PDict wrapper) "type";
        info ctx [Lit "  Wrapping material with a '"; Val ty; Lit "'."];;
        mret wrapper
    else
      raise (NotImplementedError
               [Lit "Only normal map and bump nodes supported for 'Normal' input"])
  else mret nested.

(** The dispatch table of [cycles_surface_to_dict]. *)
Definition surface_converters : list (string * (SceneWriter -> node -> M dict)) :=
  [("ShaderNodeBsdfDiffuse", convert_diffuse_material);
   ("ShaderNodeBsdfGlossy", convert_glossy_material);
   ("ShaderNodeBsdfAnisotropic", convert_glossy_material);
   ("ShaderNodeBsdfGlass", convert_glass_material);
   ("ShaderNodeMixShader", convert_mix_material);
   ("ShaderNodeAddShader", convert_add_material);
   ("ShaderNodeEmission", convert_emission_material);
   ("ShaderNodeBsdfTransparent", convert_transparent_material)].

(** The body of [cycles_surface_to_dict]. *)
Definition surface_to_dict (ctx : SceneWriter) (node : node) (name : option string) : M dict :=
  let params : dict := [] in
  let params :=
    match name with
    | Some name => <["name" := PStr (material_name name)]> params
    | None => params
    end in
  params ←
    match find (fun kv => String.eqb (fst kv) (bl_idname node)) surface_converters with
    | Some kv =>
        info ctx [Lit "Converting a '"; Val (PStr (bl_idname node)); Lit "' Blender material."];;
        d ← snd kv ctx node;
        let params := dict_update params d in
        ty ← getitem_str (PDict params) "type";
        info ctx [Lit "  Created a '"; Val ty; Lit "' material."];;
        mret params
    | None =>
        raise (NotImplementedError
                 [Lit "Node type: "; Val (PStr (bl_idname node));
                  Lit " is not supported in Darts"])
    end;
  wrap_with_bump_or_normal_map ctx node params.

End Converters.

(** Converting a Blender surface node to Darts material format.  [depth]
    is the number of nested calls the interpreter still allows. *)
Fixpoint cycles_surface_to_dict (depth : nat) (t : node_tree) (ctx : SceneWriter)
    (node : node) (name : option string) : M dict :=
  match depth with
  | O => raise RecursionError
  | S depth' =>
      surface_to_dict t (Textures.convert_texture_node depth' t) (follow_link depth' t)
        (cycles_surface_to_dict depth' t) ctx node name
  end.

(** ** The volume converters *)

Definition convert_volume_scatter_node (ctx : SceneWriter) (node : node) : M dict :=
  c ← input node "Color";
  linked ←
    (if is_linked c then mret true
     else d ← input node "Density";
          if is_linked d then mret true
          else a ← input node "Anisotropy"; mret (is_linked a));
  if linked : bool then
    raise (NotImplementedError
             [Lit "Only homogeneous volume scattering nodes are currently supported"])
  else
    albedo ← (s ← input node "Color"; v ← get_default_value s; color v);
    total ← (s ← input node "Density"; v ← get_default_value s; color v);
    g ← (s ← input node "Anisotropy"; get_default_value s);
    mret [("type", PStr "homogeneous"); ("albedo", albedo); ("total", total);
          ("real fraction", PFloat (f_lit 1.0));
          ("phase function", PDict [("type", PStr "hg"); ("g", g)])].

(** [max(1.0 - pow(max(x, 0.0), 0.5))]: the outer [max] has one argument. *)
Definition absorption_total (x : pyval) : M pyval :=
  m ← py_max2 x (PFloat (f_lit 0.0));
  p ← py_pow m (PFloat (f_lit 0.5));
  d ← py_sub (PFloat (f_lit 1.0)) p;
  py_max1 d.

Definition convert_volume_absorption_node (ctx : SceneWriter) (node : node) : M dict :=
  c ← input node "Color";
  linked ←
    (if is_linked c then mret true
     else d ← input node "Density"; mret (is_linked d));
  if linked : bool then
    raise (NotImplementedError
             [Lit "Only homogeneous volume absorption nodes are currently supported"])
  else
    c ← (s ← input node "Color"; get_default_value s);
    c ← slice_all c;
    xs ← py_list c;
    total ← mapM absorption_total xs;
    mret [("type", PStr "homogeneous"); ("albedo", PInt 0); ("total", PList total);
          ("real fraction", PFloat (f_lit 1.0));
          ("phase function", PDict [("type", PStr "isotropic")])].

(** NumPy arithmetic on what [ctx.color] returns: a number, or a list of
    numbers made into an array. *)
Definition np_map (f : float64 -> float64) (v : pyval) : M pyval :=
  match as_num v, v with
  | Some n, _ => mret (PFloat (f (to_float n)))
  | None, PList l =>
      match all_nums l with
      | Some ns => mret (PList (map (fun n => PFloat (f (to_float n))) ns))
      | None => raise TypeError
      end
  | None, _ => raise TypeError
  end.

Definition np_mul (a b : pyval) : M pyval :=
  match a, b with
  | PFloat x, PFloat y => mret (PFloat (f_mul x y))
  | PFloat x, PList l => np_map (f_mul x) (PList l)
  | PList l, PFloat y => np_map (fun x => f_mul x y) (PList l)
  | PList l, PList m =>
      match all_nums l, all_nums m with
      | Some ls, Some ms =>
          if bool_decide (length ls = length ms) then
            mret (PList (zip_with (fun x y => PFloat (f_mul (to_float x) (to_float y))) ls ms))
          else raise (ValueError [Lit "operands could not be broadcast together"])
      | _, _ => raise TypeError
      end
  | _, _ => raise TypeError
  end.

Definition convert_volume_vdb_node (ctx : SceneWriter) (node : node) : M dict :=
  info ctx [Lit "Converting vdb node"];;
  c ← input node "Color";
  linked ←
    (if is_linked c then mret true
     else d ← input node "Density";
          if is_linked d then mret true
          else a ← input node "Absorption Color"; mret (is_linked a));
  if linked : bool then
    raise (NotImplementedError
             [Lit "Textured density, color, or absorption colors are not supported by the nanovdb medium"])
  else
    scatter_color ← (s ← input node "Color"; v ← get_default_value s; color v);
    absorption_color ← (s ← input node "Absorption Color"; v ← get_default_value s; color v);
    a ← np_map (fun x => np_maximum (f_sub (f_lit 1.0) x) (f_lit 0.0)) scatter_color;
    b ← np_map (fun x => np_maximum (f_sub (f_lit 1.0) x) (f_lit 0.0)) absorption_color;
    absorption_coeff ← np_mul a b;
    density ← (s ← input node "Density"; get_default_value s);
    g ← (s ← input node "Anisotropy"; get_default_value s);
    let params := [("type", PStr "nanovdb"); ("density", density);
                   ("sigma_s", scatter_color); ("sigma_a", absorption_coeff);
                   ("phase function", PDict [("type", PStr "hg"); ("g", g)])] in
    _ ← input node "Density Attribute";
    gridname ← (s ← input node "Density Attribute"; get_default_value s);
    mret (<["gridname" := gridname]> params).

(** The dispatch table of [cycles_volume_to_dict]. *)
Definition volume_converters : list (string * (SceneWriter -> node -> M dict)) :=
  [("ShaderNodeVolumeScatter", convert_volume_scatter_node);
   ("ShaderNodeVolumeAbsorption", convert_volume_absorption_node);
   ("ShaderNodeVolumePrincipled", convert_volume_vdb_node)].

(** Converting one Cycles volume shader to a Darts medium. *)
Definition cycles_volume_to_dict (ctx : SceneWriter) (node : node) (name : option string) : M dict :=
  info ctx [Lit "Adding volume"];;
  let params : dict := [] in
  let params :=
    match name with
    | Some name => <["name" := PStr (material_name name)]> params
    | None => params
    end in
  match find (fun kv => String.eqb (fst kv) (bl_idname node)) volume_converters with
  | Some kv =>
      info ctx [Lit "Converting a '"; Val (PStr (bl_idname node)); Lit "' Blender volume."];;
      d ← snd kv ctx node;
      let params := dict_update params d in
      ty ← getitem_str (PDict params) "type";
      info ctx [Lit "  Created a '"; Val ty; Lit "' medium."];;
      mret params
  | None =>
      raise (NotImplementedError
               [Lit "Node type: "; Val (PStr (bl_idname node)); Lit " is not supported in Darts"])
  end.

Definition get_dummy_material (ctx : SceneWriter) (name : option string) : M dict :=
  c ← color (PList [PFloat (f_lit 1.0); PFloat (f_lit 0.0); PFloat (f_lit 0.3)]);
  let params := [("type", PStr "diffuse"); ("color", c)] in
  mret (match name with
        | Some name => <["name" := PStr (material_name name)]> params
        | None => params
        end).

(** [name in output_node.inputs and output_node.inputs[name].is_linked]. *)
Definition output_linked (output_node : node) (nm : string) : M bool :=
  if has_input output_node nm then s ← input output_node nm; mret (is_linked s)
  else mret false.

(** The statements under [try] in [convert_material].  [media_params] is
    assigned by the last statement that can raise, so it is still [None]
    whenever the handler runs. *)
Definition convert_material_body (depth : nat) (ctx : SceneWriter) (b_mat : material)
  : M (dict * option dict) :=
  let output_node_id := "Material Output" in
  if negb (has_node (nodes b_mat) output_node_id) then
    raise (NotImplementedError [Lit "Cannot find material output node"])
  else
    output_node ← get_node (nodes b_mat) output_node_id;
    surface ← output_linked output_node "Surface";
    mat_params ←
      (if surface : bool then
         surface_node ← (s ← input output_node "Surface";
                         linked_node (nodes b_mat) (follow_link depth (nodes b_mat)) s);
         cycles_surface_to_dict depth (nodes b_mat) ctx surface_node (Some (name_full b_mat))
       else mret [("type", PStr "transparent")]);
    volume ← output_linked output_node "Volume";
    '(mat_params, media_params) ←
      (if volume : bool then
         volume_node ← (s ← input output_node "Volume";
                        linked_node (nodes b_mat) (follow_link depth (nodes b_mat)) s);
         let medium_name := name_full b_mat +:+ " volume" in
         media_params ← cycles_volume_to_dict ctx volume_node (Some medium_name);
         mret (<["interior medium" := PStr medium_name]> mat_params, Some media_params)
       else mret (mat_params, None));
    displacement ← output_linked output_node "Displacement";
    (if displacement : bool then
       report "WARNING" [Lit "Material '"; Val (PStr (name_full b_mat));
                         Lit "': Displacement maps are not supported. Consider converting them to bump maps first"]
     else mret tt);;
    mret (mat_params, media_params).

(** Converting one material from Blender / Cycles to Darts. *)
Definition convert_material (depth : nat) (ctx : SceneWriter) (b_mat : material)
  : M (dict * option dict) :=
  if use_nodes b_mat then
    try_except_NotImplementedError
      (convert_material_body depth ctx b_mat)
      (fun e =>
         report "WARNING" ([Lit "Export of material '"; Val (PStr (name_full b_mat));
                            Lit "' failed: "] ++ e ++
                           [Lit ". Exporting a dummy material instead."]);;
         mat_params ← get_dummy_material ctx (Some (name_full b_mat));
         mret (mat_params, None))
  else
    mat_params ← get_dummy_material ctx (Some (name_full b_mat));
    c ← color (diffuse_color b_mat);
    mret (dict_update mat_params [("color", c)], None).

(** ** export

    [export] mutates three objects: the cache [ctx.already_exported] and its
    two result lists.  [conversions] is not in the source: it records the
    key of every call of [convert_material], so that the number of calls
    can be stated. *)
Record store := Store {
  already_exported : gmap string pyval;
  materials : list pyval;
  media : list pyval;
  conversions : list string;
}.

(** A statement of [export]: it runs in [M] and updates the store, which
    keeps its updates when the statement raises. *)
Definition X (A : Type) : Type := store -> M A * store.

#[global] Instance X_ret : MRet X := fun A a st => (mret a, st).
#[global] Instance X_bind : MBind X := fun A B k m st =>
  match m st with
  | ((inl e, l), st') => ((inl e, l), st')
  | ((inr a, l), st') =>
      match k a st' with
      | ((r, l'), st'') => ((r, l ++ l'), st'')
      end
  end.

Definition lift {A} (m : M A) : X A := fun st => (m, st).
Definition get : X store := fun st => (mret st, st).
Definition modify (f : store -> store) : X unit := fun st => (mret tt, f st).

(** [for x in l: body(x)]. *)
Fixpoint for_each {A} (l : list A) (body : A -> X unit) : X unit :=
  match l with
  | [] => mret tt
  | x :: r => body x;; for_each r body
  end.

(** [mat_id = f"mat-{mat.name_full}"]. *)
Definition mat_id (mat : material) : string := "mat-" +:+ name_full mat.

(** The body of the loop over [mesh.data.materials]. *)
Definition export_material (depth : nat) (ctx : SceneWriter) (mat : option material) : X unit :=
  match mat with
  | None => mret tt
  | Some mat =>
      if String.eqb (name_full mat) "Dots Stroke" || Z.eqb (users mat) 0 then
        lift (info ctx [Lit "Skipping unused material '"; Val (PStr (name_full mat)); Lit "'"])
      else
        st ← get;
        if bool_decide (is_Some (already_exported st !! mat_id mat)) then
          lift (info ctx [Lit "Skipping previously exported material '";
                          Val (PStr (name_full mat)); Lit "'."])
        else
          lift (info ctx [Lit "Exporting material '"; Val (PStr (name_full mat));
                          Lit "', with "; Val (PInt (users mat)); Lit " users."]);;
          modify (fun st => Store (already_exported st) (materials st) (media st)
                                  (conversions st ++ [mat_id mat]));;
          '(mat_params, media_params) ← lift (convert_material depth ctx mat);
          modify (fun st => Store (<[mat_id mat := PDict mat_params]> (already_exported st))
                                  (materials st) (media st) (conversions st));;
          modify (fun st => Store (already_exported st) (materials st ++ [PDict mat_params])
                                  (media st) (conversions st));;
          match media_params with
          | Some m =>
              if truthy (PDict m) then
                modify (fun st => Store (already_exported st) (materials st)
                                        (media st ++ [PDict m]) (conversions st))
              else mret tt
          | None => mret tt
          end
  end.

(** Write out the materials to Darts format.  [bpy_data_materials] is
    [bpy.data.materials]; the store holds [ctx.already_exported] on entry
    and the two result lists on exit. *)
Definition export (depth : nat) (ctx : SceneWriter) (bpy_data_materials : list material)
    (meshes : list object) : X unit :=
  lift (info ctx [Lit "Writing default diffuse material"]);;
  modify (fun st => Store (already_exported st)
                          [PDict [("type", PStr "diffuse"); ("name", PStr "default");
                                  ("color", PFloat (f_lit 0.2))]]
                          [] (conversions st));;
  if String.eqb (material_mode ctx) "DIFFUSE" then
    for_each bpy_data_materials (fun mat =>
      if String.eqb (name_full mat) "Dots Stroke" || Z.eqb (users mat) 0 then mret tt
      else
        lift (info ctx [Lit "Writing placeholder for material '";
                        Val (PStr (name_full mat)); Lit "'"]);;
        params ← lift (get_dummy_material ctx (Some (name_full mat)));
        modify (fun st => Store (already_exported st) (materials st ++ [PDict params])
                                (media st) (conversions st)))
  else if String.eqb (material_mode ctx) "CONVERT" then
    for_each meshes (fun mesh =>
      match data_materials mesh with
      | None | Some [] => mret tt
      | Some mats =>
          lift (info ctx [Lit "Object '"; Val (PStr (object_name_full mesh));
                          Lit "' of type '"; Val (PStr (object_type mesh)); Lit "' has ";
                          Val (PInt (Z.of_nat (length mats))); Lit " materials."]);;
          for_each mats (export_material depth ctx)
      end)
  else mret tt.

(** A fresh [SceneWriter]: [self.already_exported = {}]. *)
Definition fresh : store := Store ∅ [] [] [].

End WithFloat.
End Materials.

(* --------------------------------------------------------------------- *)
(*  scene.py, textures.py: the world and the scene defaults               *)
(* --------------------------------------------------------------------- *)

Module World.
Section WithFloat.
Context `{FL : Float64}.
Import Py Bpy Scene.

(** [context.scene.world], as far as the translator reads it. *)
Record world := {
  world_use_nodes : bool;
  world_node_tree : option node_tree;
  world_color : pyval;
}.

(** The fields of [SceneWriter] that [make_misc] and [geometry] read besides
    those of [Scene.SceneWriter]. *)
Record Settings := {
  integrator : string;
  sampler : string;
  enable_background : bool;
  write_obj_files : bool;
  mesh_mode : string;
  filepath : string;
  directory : string;
}.

(** [world.node_tree.nodes]; the tree is there whenever it is used. *)
Definition nodes_of (w : option world) : node_tree :=
  match w with
  | Some w => match world_node_tree w with Some t => t | None => [] end
  | None => []
  end.

(** get node connected to a specific world input socket. *)
Definition get_world_input (depth : nat) (w : option world) (socket_name : string)
  : M (option node) :=
  let output_node_id := "World Output" in
  match w with
  | None => mret None
  | Some world =>
      if negb (world_use_nodes world) then mret None
      else
        match world_node_tree world with
        | None => mret None
        | Some t =>
            if negb (has_node t output_node_id) then mret None
            else
              output_node ← get_node t output_node_id;
              missing ←
                (if negb (has_input output_node socket_name) then mret true
                 else s ← input output_node socket_name; mret (negb (is_linked s)));
              if missing : bool then mret None
              else
                s ← input output_node socket_name;
                n ← Materials.linked_node t (follow_link depth t) s;
                mret (Some n)
        end
  end.

(** convert environment lighting. Constant emitter and envmaps are
    supported. *)
Definition convert_background (depth : nat) (ctx : SceneWriter) (w : option world) : M pyval :=
  try_except_NotImplementedError
    (surface_node ← get_world_input depth w "Surface";
     match surface_node with
     | Some surface_node =>
         if negb (has_input surface_node "Strength") then
           raise (NotImplementedError
                    [Lit "Expecting a material with a 'Strength' parameter for a background"])
         else
           s ← input surface_node "Strength";
           if is_linked s then
             raise (NotImplementedError
                      [Lit "Only default emitter 'Strength' value is supported"])
           else
             strength ← (s ← input surface_node "Strength"; get_default_value s);
             if eq_num strength (NInt 0) then
               info ctx [Lit "Ignoring envmap with zero strength."];;
               mret (PInt 0)
             else if String.eqb (bl_idname surface_node) "ShaderNodeBackground"
                     || String.eqb (bl_idname surface_node) "ShaderNodeEmission" then
               c ← (s ← input surface_node "Color";
                    Textures.convert_texture_node depth (nodes_of w) ctx s);
               mret (PDict [("type", PStr "background"); ("color", c)])
             else
               raise (NotImplementedError
                        [Lit "Only Background and Emission nodes are supported as final nodes for background export, got '";
                         Val (PStr (node_name surface_node)); Lit "'"])
     | None =>
         match w with
         | Some world => color (world_color world)
         | None => raise AttributeError
         end
     end)
    (fun err =>
       report "WARNING" ([Lit "Error while converting background: "] ++ err ++
                         [Lit ". Using default."]);;
       mret (PInt 5)).

(** [matrix.to_4x4()]: the matrix in the upper left corner of the 4x4
    identity. *)
Definition to_4x4 (rows : list (list pyval)) : list (list pyval) :=
  map (fun i =>
         map (fun j =>
                match rows !! i ≫= (fun row => row !! j) with
                | Some x => x
                | None => PFloat (if Nat.eqb i j then f_lit 1.0 else f_lit 0.0)
                end)
             (seq 0 4))
      (seq 0 4).

(** The rows of a host matrix. *)
Definition matrix_rows (matrix : pyval) : M (list (list pyval)) :=
  match matrix with
  | PArray rows => mapM (fun row => match row with
                                    | PArray l => mret l
                                    | _ => raise TypeError
                                    end) rows
  | _ => raise TypeError
  end.

Definition transform_matrix (matrix : pyval) : M (list (string * pyval)) :=
  rows ← matrix_rows matrix;
  let mat := if bool_decide (length rows = 4%nat) then rows else to_4x4 rows in
  mret [("matrix", PList (mjoin mat))].

(** Adds default values to make the scene complete.  [samples] is
    [context.scene.cycles.samples]. *)
Definition make_misc (depth : nat) (ctx : SceneWriter) (self : Settings) (samples : pyval)
    (w : option world) : M (list (string * pyval)) :=
  let params : list (string * pyval) := [] in
  let params := <["sampler" := PDict [("samples", samples)]]> params in
  let params :=
    if negb (String.eqb (sampler self) "none") then
      <["sampler" := PDict (dict_update [("samples", samples)]
                              [("type", PStr (sampler self))])]> params
    else params in
  let params :=
    if negb (String.eqb (integrator self) "none") then
      <["integrator" := PDict [("type", PStr (integrator self))]]> params
    else params in
  params ←
    (if enable_background self then
       b ← convert_background depth ctx w;
       mret (<["background" := b]> params)
     else mret (<["background" := PInt 5]> params));
  mret (<["accelerator" := PDict [("type", PStr "bbh")]]> params).

End WithFloat.
End World.

(* --------------------------------------------------------------------- *)
(*  geometry.py                                                           *)
(* --------------------------------------------------------------------- *)

Module Geometry.
Section WithFloat.
Context `{FL : Float64}.
Import Py Bpy Scene Materials World.

(** [path.endswith("/")]. *)
Fixpoint ends_with_slash (s : string) : bool :=
  match s with
  | EmptyString => false
  | String c EmptyString => Ascii.eqb c "/"
  | String _ r => ends_with_slash r
  end.

(** [os.path.join(a, b)], on POSIX paths. *)
Definition path_join (a b : string) : string :=
  if String.prefix "/" b then b
  else if String.eqb a "" || ends_with_slash a then a +:+ b
  else a +:+ "/" +:+ b.

(** [os.path.splitext] on a path: the extension is looked for in the last
    component. *)
Definition splitext_path (p : string) : string * string :=
  let base := Textures.basename p in
  let dir := String.substring 0 (String.length p - String.length base) p in
  (dir +:+ fst (Textures.splitext base), snd (Textures.splitext base)).

(** [v >= (3, 3, 0)] on version triples. *)
Definition version_ge (v w : Z * Z * Z) : bool :=
  let '(a, b, c) := v in
  let '(x, y, z) := w in
  Z.ltb x a || (Z.eqb a x && (Z.ltb y b || (Z.eqb b y && Z.leb z c))).

(** An object as [geometry] reads it: its name, which is unique among the
    objects, its world matrix and the influences of its constraints. *)
Record mesh_object := Mesh {
  mesh_name : string;
  matrix_world : pyval;
  constraint_influences : list pyval;
}.

(** What [geometry] asks of Blender apart from the selection: a call of
    one of the two OBJ exporters (the operator, the file it is told to
    write, whether it is told to write materials, and the objects selected
    at the time of the call, which are what it exports; the other arguments
    are the same constants in every call), and the assignments to an
    object's constraints and world matrix with the updates of the view
    layer. *)
Inductive host_call :=
  | ObjExport (operator filepath : string) (materials : bool) (selection : list string)
  | SetInfluence (object : string) (i : nat) (value : pyval)
  | MatrixIdentity (object : string)
  | SetMatrix (object : string) (matrix : pyval)
  | ViewLayerUpdate.

(** The state [geometry] works on: the writer's cache, the names of the
    selected objects ([ctx.context.selected_objects]), the directories that
    exist and the calls made so far. *)
Record host := Host {
  writer : store;
  selected : list string;
  folders : list string;
  calls : list host_call;
}.

Definition G (A : Type) : Type := host -> M A * host.

#[global] Instance G_ret : MRet G := fun A a h => (mret a, h).
#[global] Instance G_bind : MBind G := fun A B k m h =>
  match m h with
  | ((inl e, l), h') => ((inl e, l), h')
  | ((inr a, l), h') =>
      match k a h' with
      | ((r, l'), h'') => ((r, l ++ l'), h'')
      end
  end.

Definition lift_host {A} (m : M A) : G A := fun h => (m, h).
Definition get_host : G host := fun h => (mret h, h).
Definition modify_host (f : host -> host) : G unit := fun h => (mret tt, f h).

(** One more call. *)
Definition call (c : host -> host_call) : G unit :=
  modify_host (fun h => Host (writer h) (selected h) (folders h) (calls h ++ [c h])).

Fixpoint for_each_host {A} (l : list A) (body : A -> G unit) : G unit :=
  match l with
  | [] => mret tt
  | x :: r => body x;; for_each_host r body
  end.

(** [bpy.ops.object.select_all(action="DESELECT")] and
    [object.select_set(True)]. *)
Definition deselect_all (h : host) : host := Host (writer h) [] (folders h) (calls h).

Definition select (nm : string) (sel : list string) : list string :=
  if existsb (String.eqb nm) sel then sel else sel ++ [nm].

Definition select_set (nm : string) (h : host) : host :=
  Host (writer h) (select nm (selected h)) (folders h) (calls h).

(** [ctx.already_exported[k] = v]. *)
Definition remember (k : string) (v : pyval) (h : host) : host :=
  Host (Store (<[k := v]> (already_exported (writer h))) (materials (writer h))
              (media (writer h)) (conversions (writer h)))
       (selected h) (folders h) (calls h).

Definition obj_id (obj_name : string) : string :=
  "obj-" +:+ path_join "meshes" (obj_name +:+ ".obj").

(** Export meshes to "meshes/" and then point to them in the scene file.
    [version] is [bpy.app.version]. *)
Definition write_obj (ctx : SceneWriter) (self : Settings) (version : Z * Z * Z)
    (obj_name : string) : G (list (string * pyval)) :=
  let relative_path := path_join "meshes" (obj_name +:+ ".obj") in
  let obj_id := "obj-" +:+ relative_path in
  h ← get_host;
  (if bool_decide (is_Some (already_exported (writer h) !! obj_id)) then
     lift_host (report "WARNING" [Lit "Exporting OBJ file '"; Val (PStr relative_path);
                                  Lit "' again!"])
   else mret tt);;
  (if write_obj_files self then
     if version_ge version (3, 3, 0) then
       lift_host (info ctx [Lit "  Writing '"; Val (PStr relative_path);
                            Lit "' using C++ exporter."]);;
       call (fun h => ObjExport "wm.obj_export" (path_join (directory self) relative_path)
                        (negb (String.eqb (material_mode ctx) "OFF")) (selected h))
     else
       lift_host (info ctx [Lit "  Writing '"; Val (PStr relative_path);
                            Lit "' using legacy Python exporter."]);;
       call (fun h => ObjExport "export_scene.obj"
                        (path_join (directory self) relative_path)
                        (negb (String.eqb (material_mode ctx) "OFF")) (selected h))
   else mret tt);;
  let obj_params :=
    [("type", PStr "mesh"); ("name", PStr obj_name);
     ("filename", PStr ("meshes/" +:+ obj_name +:+ ".obj"));
     ("material", PStr "default"); ("vertex colorspace", PStr "srgb")] in
  modify_host (remember obj_id (PDict obj_params));;
  mret obj_params.

Definition write_meshes (ctx : SceneWriter) (self : Settings) (version : Z * Z * Z)
    (meshes : list mesh_object) (obj_name : string) : G (list (string * pyval)) :=
  h ← get_host;
  let viewport_selection := selected h in
  modify_host deselect_all;;
  for_each_host meshes (fun mesh => modify_host (select_set (mesh_name mesh)));;
  obj_json ← write_obj ctx self version obj_name;
  modify_host deselect_all;;
  for_each_host viewport_selection (fun ob => modify_host (select_set ob));;
  mret obj_json.

(** [for i, c in enumerate(object.constraints): c.influence = value(i)]. *)
Definition set_influences (object : mesh_object) (value : nat -> pyval -> pyval) : G unit :=
  for_each_host (imap (fun i c => (i, c)) (constraint_influences object))
    (fun ic => call (fun _ => SetInfluence (mesh_name object) (fst ic) (value (fst ic) (snd ic)))).

(** The loop of [export] over the objects.  The descriptor [write_meshes]
    returns is the object stored in the cache, so the transform assigned to
    it is in the cache too. *)
Fixpoint export_each (ctx : SceneWriter) (self : Settings) (version : Z * Z * Z)
    (objects : list mesh_object) : G (list (list (string * pyval))) :=
  match objects with
  | [] => mret []
  | object :: rest =>
      let to_world := matrix_world object in
      set_influences object (fun _ _ => PFloat (f_lit 0.0));;
      call (fun _ => MatrixIdentity (mesh_name object));;
      call (fun _ => ViewLayerUpdate);;
      params ← write_meshes ctx self version [object] (mesh_name object);
      transform ← lift_host (transform_matrix to_world);
      let params := <["transform" := PDict transform]> params in
      modify_host (remember (obj_id (mesh_name object)) (PDict params));;
      call (fun _ => SetMatrix (mesh_name object) to_world);;
      set_influences object (fun _ saved => saved);;
      call (fun _ => ViewLayerUpdate);;
      surfaces_json ← export_each ctx self version rest;
      mret (params :: surfaces_json)
  end.

Definition export (ctx : SceneWriter) (self : Settings) (version : Z * Z * Z)
    (objects : list mesh_object) : G (list (list (string * pyval))) :=
  h ← get_host;
  (if negb (existsb (String.eqb (directory self +:+ "/meshes")) (folders h)) then
     modify_host (fun h => Host (writer h) (selected h)
                                (folders h ++ [directory self +:+ "/meshes"]) (calls h))
   else mret tt);;
  if String.eqb (mesh_mode self) "SINGLE" then
    lift_host (info ctx [Lit "Exporting a single scene-wide OBJ file."]);;
    let obj_name := Textures.basename (fst (splitext_path (filepath self))) in
    d ← write_meshes ctx self version objects obj_name;
    mret [d]
  else
    lift_host (info ctx [Lit "Exporting each Blender object as a separate OBJ file."]);;
    export_each ctx self version objects.

End WithFloat.
End Geometry.

(* --------------------------------------------------------------------- *)
(*  Vocabulary of the specification                                       *)
(* --------------------------------------------------------------------- *)

Module Spec.
Section WithFloat.
Context `{FL : Float64}.
Import Py Bpy Scene.

(** [v] is a sequence with the items [l]. *)
Definition sequence (v : pyval) (l : list pyval) : Prop :=
  v = PTuple l \/ v = PList l \/ v = PArray l.

Definition numeric (l : list pyval) : Prop := Forall (fun x => is_number x = true) l.

Definition same_type (l : list pyval) : Prop :=
  forall x y, x ∈ l -> y ∈ l -> type_of x = type_of y.

(** The descriptor [d] has the type discriminant [ty]. *)
Definition has_type (d : list (string * pyval)) (ty : string) : Prop :=
  dict_lookup "type" d = Some (PStr ty).

(** The descriptor under the key [k] of [d] has the type [ty]. *)
Definition has_inner (d : list (string * pyval)) (k ty : string) : Prop :=
  exists inner, dict_lookup k d = Some (PDict inner) /\ has_type inner ty.

(** The order of the adapters as the specification words it, and as
    [cycles_surface_to_dict] builds it. *)
Definition two_sided_outermost (d : list (string * pyval)) : Prop :=
  has_type d "two sided" /\
  (has_inner d "both sides" "normal map" \/ has_inner d "both sides" "bump map").

Definition two_sided_innermost (d : list (string * pyval)) : Prop :=
  (has_type d "normal map" \/ has_type d "bump map") /\ has_inner d "nested" "two sided".

(** What [color] does with the items of a sequence. *)
Definition color_items (value : list pyval) : M pyval :=
  if existsb (fun x => negb (is_number_or_tuple x)) value then
    raise (ValueError [Lit "Unknown color entry: "; Val (PList value)])
  else if mixed_types value then
    raise (ValueError [Lit "Mixed types in color entry "; Val (PList value)])
  else
    v0 ← index value 0;
    if is_number v0 then
      if bool_decide (length value = 3%nat) || bool_decide (length value = 4%nat) then
        mret (PList (take 3 value))
      else if bool_decide (length value = 1%nat) then mret v0
      else
        raise (ValueError [Lit "Expected color items to be 1,3 or 4 got ";
                           Val (PInt (Z.of_nat (length value))); Lit ": "; Val (PList value)])
    else mret (PInt 0).

(** The reroute node that drives the socket [s], if one does. *)
Definition reroute_behind (t : node_tree) (s : socket) : option node :=
  match links s with
  | [] => None
  | l :: _ =>
      match find (fun n => String.eqb (node_name n) (from_node l)) t with
      | Some n => if String.eqb (bl_idname n) "NodeReroute" then Some n else None
      | None => None
      end
  end.

(** [s] is not driven by a reroute node: it is unlinked, or linked to a
    node of the tree of another kind. *)
Definition chain_end (t : node_tree) (s : socket) : Prop :=
  links s = [] \/
  exists l r n, links s = l :: r /\
                find (fun n => String.eqb (node_name n) (from_node l)) t = Some n /\
                String.eqb (bl_idname n) "NodeReroute" = false.

(** One hop of a chain: [s] is driven by a reroute node whose input is [s']. *)
Definition hop (t : node_tree) (s s' : socket) : Prop :=
  exists n, reroute_behind t s = Some n /\ inputs n !! 0%nat = Some s'.

(** [chain t k s s']: [k] reroute nodes lead from [s] back to [s']. *)
Inductive chain (t : node_tree) : nat -> socket -> socket -> Prop :=
  | chain_O s : chain t 0 s s
  | chain_S k s s1 s' : hop t s s1 -> chain t k s1 s' -> chain t (S k) s s'.

(** The statements of [convert_material] that precede the Volume test do
    not raise: the Surface input of the output node [out] is missing or
    not linked, or the node that drives it is converted. *)
Definition surface_converts (depth : nat) (ctx : SceneWriter) (b_mat : material)
    (out : node) : Prop :=
  Materials.output_linked out "Surface" = mret false \/
  exists ss sn mp,
    input out "Surface" = mret ss /\ is_linked ss = true /\
    result (Materials.linked_node (nodes b_mat) (follow_link depth (nodes b_mat)) ss) = inr sn /\
    result (Materials.cycles_surface_to_dict depth (nodes b_mat) ctx sn (Some (name_full b_mat)))
    = inr mp.

(** The material [m] is in a slot of one of the [meshes]. *)
Definition in_slot (meshes : list object) (m : material) : Prop :=
  exists mesh slots, mesh ∈ meshes /\ data_materials mesh = Some slots /\ Some m ∈ slots.


(** How a run of a statement of [export] ends, and the store it leaves. *)
Definition outcome {A} (x : M A * Materials.store) : exn + A := result (fst x).
Definition final {A} (x : M A * Materials.store) : Materials.store := snd x.

(** The input [nm] of [node] exists and its conversion returns. *)
Definition converts (conv : SceneWriter -> socket -> M pyval) (ctx : SceneWriter)
    (node : node) (nm : string) : Prop :=
  exists s v, input node nm = mret s /\ result (conv ctx s) = inr v.

(** The inputs that the two gated statements read exist, and those they
    convert are converted: W for the dimensionalities 1 and 4, Vector for
    every other dimensionality than 1 (converted when it is linked). *)
Definition gate_inputs (conv : SceneWriter -> socket -> M pyval) (ctx : SceneWriter)
    (node : node) (dims : Z) : Prop :=
  (dims = 1 \/ dims = 4 -> converts conv ctx node "W") /\
  (dims <> 1 ->
   exists s, input node "Vector" = mret s /\
             (is_linked s = true -> exists v, result (conv ctx s) = inr v)).

(** The attribute [a] of [node] is the string [s]. *)
Definition str_attr (node : node) (a s : string) : Prop := attr node a = mret (PStr s).

(** What the dimensionality gating says of the value [v] produced for a
    [node] whose declared dimensionality maps to [dims]. *)
Definition gated_by_dimensions (node : node) (dims : Z) (v : pyval) : Prop :=
  exists d, v = PDict d /\
    (dict_has "w" d = true <-> dims = 1 \/ dims = 4) /\
    (dict_has "vector" d = true <->
       dims <> 1 /\ exists s, input node "Vector" = mret s /\ is_linked s = true).

(** The capability flag that guards each converter of the texture dispatch
    table: the flag tested by the converter's first statement.  The image,
    environment, RGB, white noise, light path and vertex color converters
    test none. *)
Definition gates : list (string * (SceneWriter -> bool)) :=
  [("ShaderNodeBlackbody", enable_blackbody);
   ("ShaderNodeTexBrick", enable_brick);
   ("ShaderNodeClamp", enable_clamp);
   ("ShaderNodeTexChecker", enable_checker);
   ("ShaderNodeTexCoord", enable_coord);
   ("ShaderNodeMapping", enable_mapping);
   ("ShaderNodeFresnel", enable_fresnel);
   ("ShaderNodeLayerWeight", enable_layer_weight);
   ("ShaderNodeMixRGB", enable_mix_rgb);
   ("ShaderNodeMix", enable_mix_node);
   ("ShaderNodeTexMusgrave", enable_musgrave);
   ("ShaderNodeTexNoise", enable_noise);
   ("ShaderNodeTexVoronoi", enable_voronoi);
   ("ShaderNodeTexWave", enable_wave);
   ("ShaderNodeWavelength", enable_wavelength);
   ("ShaderNodeWireframe", enable_wireframe);
   ("ShaderNodeValToRGB", enable_color_ramp);
   ("ShaderNodeSeparateXYZ", enable_separate);
   ("ShaderNodeSeparateColor", enable_separate);
   ("ShaderNodeTexGradient", enable_gradient);
   ("ShaderNodeMath", enable_math)].

(** The two neutral substitutes: the scalar 0.5 and the dummy color. *)
Definition neutral_substitute (v : pyval) : Prop :=
  v = PFloat (f_lit 0.5) \/
  v = PList [PFloat (f_lit 0.0); PFloat (f_lit 1.0); PFloat (f_lit 0.3)].

(** The export loop, seen from the store.  [c0] is the cache the run
    started with.  [converted_once] holds whenever the loop is left, also by
    an exception; [emitted_once] holds between two iterations. *)
Record converted_once (c0 : gmap string pyval) (st : Materials.store) : Prop := {
  once_nodup : NoDup (Materials.conversions st);
  once_fresh : forall k, k ∈ Materials.conversions st -> c0 !! k = None;
  once_bound : (length (Materials.materials st) <= S (length (Materials.conversions st)))%nat;
}.

Record emitted_once (c0 : gmap string pyval) (st : Materials.store) : Prop := {
  emitted_converted : converted_once c0 st;
  emitted_grows : forall k, is_Some (c0 !! k) -> is_Some (Materials.already_exported st !! k);
  emitted_count : length (Materials.materials st) = S (length (Materials.conversions st));
  emitted_each : forall i k, Materials.conversions st !! i = Some k ->
    exists d, Materials.already_exported st !! k = Some d /\
              Materials.materials st !! S i = Some d;
}.

(** A statement keeps the loop's invariant: it returns with [emitted_once],
    or raises with [converted_once]. *)
Definition keeps_once (c0 : gmap string pyval) (x : Materials.X unit) : Prop :=
  forall st, emitted_once c0 st ->
    (outcome (x st) = inr tt /\ emitted_once c0 (final (x st))) \/
    (exists e, outcome (x st) = inl e /\ converted_once c0 (final (x st))).

(** A material that [export] does not skip as unused. *)
Definition used (mat : material) : bool :=
  negb (String.eqb (name_full mat) "Dots Stroke" || Z.eqb (users mat) 0).

(** The material every export starts with, and the placeholder that stands
    for a material that is not converted. *)
Definition default_material : pyval :=
  PDict [("type", PStr "diffuse"); ("name", PStr "default"); ("color", PFloat (f_lit 0.2))].

Definition placeholder (mat : material) : pyval :=
  PDict [("type", PStr "diffuse");
         ("color", PList [PFloat (f_lit 1.0); PFloat (f_lit 0.0); PFloat (f_lit 0.3)]);
         ("name", PStr (material_name (name_full mat)))].

(** The format an image is written in: [export_image] replaces the four
    formats of its conversion table. *)
Definition written_format (f : string) : string :=
  match find (fun kv => String.eqb (fst kv) f) Textures.convert_format with
  | Some kv => snd kv
  | None => f
  end.

(** How a run of a statement of [geometry] ends, and the host it leaves. *)
Definition returned {A} (x : M A * Geometry.host) : exn + A := result (fst x).
Definition host_after {A} (x : M A * Geometry.host) : Geometry.host := snd x.

(** The calls of the OBJ exporters among the calls made. *)
Definition is_export (c : Geometry.host_call) : bool :=
  match c with Geometry.ObjExport _ _ _ _ => true | _ => false end.

Definition exports (h : Geometry.host) : list Geometry.host_call :=
  List.filter is_export (Geometry.calls h).

(** The exporter that [write_obj] calls, and the descriptor it returns. *)
Definition exporter (version : Z * Z * Z) : string :=
  if Geometry.version_ge version (3, 3, 0) then "wm.obj_export" else "export_scene.obj".

Definition mesh_descriptor (obj_name : string) : list (string * pyval) :=
  [("type", PStr "mesh"); ("name", PStr obj_name);
   ("filename", PStr ("meshes/" +:+ obj_name +:+ ".obj"));
   ("material", PStr "default"); ("vertex colorspace", PStr "srgb")].

(** A statement returns [a] and leaves the host [h'], whatever it
    reports; it returns [a] and leaves a host with the property [P]. *)
Definition runs {A} (x : M A * Geometry.host) (a : A) (h' : Geometry.host) : Prop :=
  returned x = inr a /\ host_after x = h'.

Definition ends {A} (x : M A * Geometry.host) (a : A) (P : Geometry.host -> Prop) : Prop :=
  returned x = inr a /\ P (host_after x).

(** The host after more calls, and with another selection. *)
Definition called (l : list Geometry.host_call) (h : Geometry.host) : Geometry.host :=
  Geometry.Host (Geometry.writer h) (Geometry.selected h) (Geometry.folders h)
                (Geometry.calls h ++ l).

Definition reselected (sel : list string) (h : Geometry.host) : Geometry.host :=
  Geometry.Host (Geometry.writer h) sel (Geometry.folders h) (Geometry.calls h).

(** The file [write_obj] has the exporter write for a name. *)
Definition obj_file (self : World.Settings) (obj_name : string) : string :=
  Geometry.path_join (World.directory self)
    (Geometry.path_join "meshes" (obj_name +:+ ".obj")).

End WithFloat.
End Spec.

(* --------------------------------------------------------------------- *)
(*  Example scenes, with IEEE doubles                                     *)
(* --------------------------------------------------------------------- *)

Module Examples.
#[local] Existing Instance binary64.
Import Py Bpy Scene.

Definition num (x : PrimFloat.float) : pyval := PFloat x.

(** An unlinked socket with a default value, a linked one, a shader socket. *)
Definition socket_of (nm : string) (v : pyval) : socket := Socket nm (Some v) [].
Definition linked (nm : string) (v : pyval) (node out : string) : socket :=
  Socket nm (Some v) [Link node out].
Definition shader (nm : string) (l : list link) : socket := Socket nm None l.

Definition rgba (r g b a : PrimFloat.float) : pyval := PArray [num r; num g; num b; num a].
Definition xyz (x y z : PrimFloat.float) : pyval := PArray [num x; num y; num z].

(** The exporter's options as the add-on offers them by default, for the
    CONVERT material mode. *)
Definition ctx : SceneWriter := {|
  verbose := false; write_texture_files := false; material_mode := "CONVERT";
  glossy_mode := "rough conductor";
  use_normal_maps := true; use_bump_maps := true; force_two_sided := true;
  enable_blackbody := true; enable_brick := true; enable_checker := true;
  enable_clamp := true; enable_color_ramp := true; enable_coord := true;
  enable_fresnel := true; enable_gradient := true; enable_layer_weight := true;
  enable_mapping := true; enable_math := true; enable_musgrave := true;
  enable_mix_rgb := true; enable_mix_node := true; enable_noise := true;
  enable_separate := true; enable_voronoi := true; enable_wave := true;
  enable_wavelength := true; enable_wireframe := true |}.

(** The same with the mapping and noise nodes disabled. *)
Definition ctx_plain : SceneWriter := {|
  verbose := false; write_texture_files := false; material_mode := "CONVERT";
  glossy_mode := "rough conductor";
  use_normal_maps := true; use_bump_maps := true; force_two_sided := true;
  enable_blackbody := true; enable_brick := true; enable_checker := true;
  enable_clamp := true; enable_color_ramp := true; enable_coord := true;
  enable_fresnel := true; enable_gradient := true; enable_layer_weight := true;
  enable_mapping := false; enable_math := true; enable_musgrave := true;
  enable_mix_rgb := true; enable_mix_node := true; enable_noise := false;
  enable_separate := true; enable_voronoi := true; enable_wave := true;
  enable_wavelength := true; enable_wireframe := true |}.

Definition output_node (surface volume : list link) : node :=
  Node "Material Output" "ShaderNodeOutputMaterial"
    [shader "Surface" surface; shader "Volume" volume;
     socket_of "Displacement" (xyz 0 0 0)] [] None None.

(** A diffuse surface with a tangent-space normal map. *)
Definition normal_in : socket := linked "Normal" (xyz 0 0 0) "Normal Map" "Normal".

Definition diffuse : node :=
  Node "Diffuse BSDF" "ShaderNodeBsdfDiffuse"
    [socket_of "Color" (rgba 0.5 0.5 0.5 1); socket_of "Roughness" (num 0); normal_in]
    [] None None.

Definition normal_map : node :=
  Node "Normal Map" "ShaderNodeNormalMap"
    [socket_of "Strength" (num 1); socket_of "Color" (rgba 0.5 0.5 1 1)]
    [("space", PStr "TANGENT")] None None.

Definition bricks_tree : node_tree :=
  [output_node [Link "Diffuse BSDF" "BSDF"] []; diffuse; normal_map].

Definition bricks : material := Material "Bricks" 2 true bricks_tree (rgba 0.5 0.5 0.5 1).

(** The descriptor of the diffuse surface with a normal map. *)
Definition bricks_descriptor : list (string * pyval) :=
  [("type", PStr "normal map");
   ("normals", PList [num 0.5; num 0.5; num 1]);
   ("strength", num 1);
   ("name", PStr "Bricks");
   ("nested",
    PDict [("type", PStr "two sided");
           ("both sides",
            PDict [("type", PStr "diffuse");
                   ("color", PList [num 0.5; num 0.5; num 0.5]);
                   ("roughness", num 0)])])].

(** A diffuse surface whose Color holds two numbers. *)
Definition odd_color : socket := socket_of "Color" (PArray [num 0.5; num 0.5]).

Definition odd_tree : node_tree :=
  [output_node [Link "Diffuse BSDF" "BSDF"] [];
   Node "Diffuse BSDF" "ShaderNodeBsdfDiffuse"
     [odd_color; socket_of "Roughness" (num 0)] [] None None].

Definition odd : material := Material "Odd" 1 true odd_tree (rgba 0.5 0.5 0.5 1).

(** A surface of a kind that has no converter. *)
Definition toon_tree : node_tree :=
  [output_node [Link "Toon BSDF" "BSDF"] [];
   Node "Toon BSDF" "ShaderNodeBsdfToon" [socket_of "Color" (rgba 0.5 0.5 0.5 1)] [] None None].

Definition toon : material := Material "Toon" 1 true toon_tree (rgba 0.5 0.5 0.5 1).

(** An absorption node with unconnected Color and Density. *)
Definition smoke_color : socket := socket_of "Color" (rgba 0.5 0.5 0.5 1).
Definition smoke_density : socket := socket_of "Density" (num 1).

Definition absorption : node :=
  Node "Volume Absorption" "ShaderNodeVolumeAbsorption" [smoke_color; smoke_density]
    [] None None.

(** A diffuse surface filled with an absorbing medium, on the second slot
    of the second of two objects. *)
Definition haze_volume : socket := shader "Volume" [Link "Volume Absorption" "Volume"].

Definition haze_output : node :=
  Node "Material Output" "ShaderNodeOutputMaterial"
    [shader "Surface" [Link "Diffuse BSDF" "BSDF"]; haze_volume;
     socket_of "Displacement" (xyz 0 0 0)] [] None None.

Definition haze_tree : node_tree := [haze_output; diffuse; normal_map; absorption].

Definition haze : material := Material "Haze" 1 true haze_tree (rgba 0.5 0.5 0.5 1).

Definition room : object := Object "Room" "MESH" (Some [Some bricks; Some haze]).




(** Glass with the index of refraction 1. *)
Definition glass : node :=
  Node "Glass BSDF" "ShaderNodeBsdfGlass"
    [socket_of "Color" (rgba 1 1 1 1); socket_of "Roughness" (num 0); socket_of "IOR" (num 1)]
    [("distribution", PStr "BECKMANN")] None None.

(** A four-dimensional white noise, its Vector input not linked. *)
Definition white_noise : node :=
  Node "White Noise Texture" "ShaderNodeTexWhiteNoise"
    [socket_of "Vector" (xyz 0 0 0); socket_of "W" (num 0.5)]
    [("noise_dimensions", PStr "4D")] None None.

(** A three-dimensional noise whose Vector input is driven by the texture
    coordinates, a one-dimensional Voronoi texture and a four-dimensional
    Musgrave texture. *)
Definition coords : node :=
  Node "Texture Coordinate" "ShaderNodeTexCoord" [] [("object", PNone)] None None.

Definition clouds : node :=
  Node "Noise Texture" "ShaderNodeTexNoise"
    [linked "Vector" (xyz 0 0 0) "Texture Coordinate" "UV"; socket_of "W" (num 0);
     socket_of "Scale" (num 5); socket_of "Detail" (num 2); socket_of "Roughness" (num 0.5);
     socket_of "Lacunarity" (num 2); socket_of "Distortion" (num 0)]
    [("noise_dimensions", PStr "3D"); ("normalize", PBool true)] None None.

Definition cells : node :=
  Node "Voronoi Texture" "ShaderNodeTexVoronoi"
    [linked "Vector" (xyz 0 0 0) "Texture Coordinate" "UV"; socket_of "W" (num 0.25);
     socket_of "Scale" (num 5); socket_of "Smoothness" (num 1);
     socket_of "Randomness" (num 1)]
    [("voronoi_dimensions", PStr "1D"); ("feature", PStr "SMOOTH_F1");
     ("distance", PStr "EUCLIDEAN")] None None.

Definition ridges : node :=
  Node "Musgrave Texture" "ShaderNodeTexMusgrave"
    [socket_of "Vector" (xyz 0 0 0); socket_of "W" (num 0.5); socket_of "Scale" (num 5);
     socket_of "Detail" (num 2); socket_of "Dimension" (num 2);
     socket_of "Lacunarity" (num 2); socket_of "Offset" (num 0); socket_of "Gain" (num 1)]
    [("noise_dimensions", PStr "4D"); ("musgrave_type", PStr "RIDGED_MULTIFRACTAL")]
    None None.

(** A mapping node and a noise node, for the disabled kinds. *)
Definition mapping : node :=
  Node "Mapping" "ShaderNodeMapping"
    [socket_of "Vector" (xyz 0 0 0); socket_of "Location" (xyz 0 0 0);
     socket_of "Rotation" (xyz 0 0 0); socket_of "Scale" (xyz 1 1 1)]
    [("vector_type", PStr "POINT")] None None.

Definition noise : node :=
  Node "Noise Texture" "ShaderNodeTexNoise" [socket_of "Vector" (xyz 0 0 0)]
    [("noise_dimensions", PStr "3D")] None None.

(** Two reroute nodes in front of a diffuse node, and a reroute node that
    is its own input. *)
Definition via_a : socket := shader "Input" [Link "Reroute.001" "Output"].
Definition via_b : socket := shader "Input" [Link "Diffuse BSDF" "BSDF"].
Definition surface_in : socket := shader "Surface" [Link "Reroute" "Output"].

Definition rerouted_tree : node_tree :=
  [Node "Reroute" "NodeReroute" [via_a] [] None None;
   Node "Reroute.001" "NodeReroute" [via_b] [] None None;
   diffuse].

Definition loop_in : socket := shader "Input" [Link "Reroute" "Output"].

Definition loop_tree : node_tree := [Node "Reroute" "NodeReroute" [loop_in] [] None None].

(** An output socket in front of two reroute nodes, the second of which is
    its own input. *)
Definition lasso_in : socket := shader "Surface" [Link "Reroute.A" "Output"].
Definition lasso_a : socket := shader "Input" [Link "Reroute.B" "Output"].
Definition lasso_b : socket := shader "Input" [Link "Reroute.B" "Output"].

Definition lasso_tree : node_tree :=
  [Node "Reroute.A" "NodeReroute" [lasso_a] [] None None;
   Node "Reroute.B" "NodeReroute" [lasso_b] [] None None].

(** Two objects that share a material. *)
Definition cube : object := Object "Cube" "MESH" (Some [Some bricks]).
Definition sphere : object := Object "Sphere" "MESH" (Some [Some bricks; None]).

(** The options of [ctx] with another material mode and glossy mode. *)
Definition ctx_with (mode glossy : string) : SceneWriter := {|
  verbose := false; write_texture_files := false; material_mode := mode;
  glossy_mode := glossy;
  use_normal_maps := true; use_bump_maps := true; force_two_sided := true;
  enable_blackbody := true; enable_brick := true; enable_checker := true;
  enable_clamp := true; enable_color_ramp := true; enable_coord := true;
  enable_fresnel := true; enable_gradient := true; enable_layer_weight := true;
  enable_mapping := true; enable_math := true; enable_musgrave := true;
  enable_mix_rgb := true; enable_mix_node := true; enable_noise := true;
  enable_separate := true; enable_voronoi := true; enable_wave := true;
  enable_wavelength := true; enable_wireframe := true |}.

Definition ctx_diffuse : SceneWriter := ctx_with "DIFFUSE" "rough conductor".
Definition ctx_off : SceneWriter := ctx_with "OFF" "rough conductor".
Definition ctx_phong : SceneWriter := ctx_with "CONVERT" "phong".

(** A volume-only material: scattering on the Volume input. *)
Definition scatter : node :=
  Node "Volume Scatter" "ShaderNodeVolumeScatter"
    [socket_of "Color" (rgba 0.5 0.5 0.5 1); socket_of "Density" (num 1);
     socket_of "Anisotropy" (num 0)] [] None None.

Definition fog : material :=
  Material "Fog" 1 true [output_node [] [Link "Volume Scatter" "Volume"]; scatter]
    (rgba 0.5 0.5 0.5 1).

Definition fog_medium : list (string * pyval) :=
  [("name", PStr "Fog_volume"); ("type", PStr "homogeneous");
   ("albedo", PList [num 0.5; num 0.5; num 0.5]); ("total", num 1);
   ("real fraction", num 1);
   ("phase function", PDict [("type", PStr "hg"); ("g", num 0)])].

(** A material without nodes, one whose output node is not linked, and one
    that no object uses. *)
Definition plain : material := Material "Plain" 1 false [] (rgba 0.5 0.5 1 1).
Definition hollow : material :=
  Material "Hollow" 1 true [output_node [] []] (rgba 0.5 0.5 0.5 1).
Definition spare : material := Material "Spare" 0 true [] (rgba 0.5 0.5 0.5 1).

(** A glossy node of roughness 0, a mix shader with one branch, a math
    node with two operands and a Separate XYZ node. *)
Definition mirror : node :=
  Node "Glossy BSDF" "ShaderNodeBsdfGlossy"
    [socket_of "Color" (rgba 1 1 1 1); socket_of "Roughness" (num 0)]
    [("distribution", PStr "GGX")] None None.

Definition half_mix : node :=
  Node "Mix Shader" "ShaderNodeMixShader"
    [socket_of "Fac" (num 0.5); shader "Shader" [Link "Diffuse BSDF" "BSDF"];
     shader "Shader" []] [] None None.

Definition sum : node :=
  Node "Math" "ShaderNodeMath" [socket_of "Value" (num 0.5); socket_of "Value" (num 1)]
    [("operation", PStr "ADD"); ("use_clamp", PBool false)] None None.

Definition separate_xyz : node :=
  Node "Separate XYZ" "ShaderNodeSeparateXYZ" [socket_of "Vector" (xyz 0 0 0)]
    [] None None.

(** Two images: a TIFF scan and a DPX frame. *)
Definition scan : image := Image "scan.tif" "//textures/scan.tif" "TIFF" "sRGB".
Definition frame : image := Image "frame.dpx" "//frame.dpx" "DPX" "sRGB".

(** A world whose Surface is driven by a node of the given kind and
    strength, and the remaining settings of the exporter. *)
Definition sky_node (kind : string) (strength : pyval) : node :=
  Node "Background" kind
    [socket_of "Color" (rgba 0.5 0.5 1 1); socket_of "Strength" strength] [] None None.

Definition sky (kind : string) (strength : pyval) : World.world := {|
  World.world_use_nodes := true;
  World.world_node_tree :=
    Some [Node "World Output" "ShaderNodeOutputWorld"
            [shader "Surface" [Link "Background" "Background"]; shader "Volume" []]
            [] None None;
          sky_node kind strength];
  World.world_color := rgba 0 0 0 1 |}.

Definition settings : World.Settings := {|
  World.integrator := "path tracer mis"; World.sampler := "none";
  World.enable_background := true; World.write_obj_files := true;
  World.mesh_mode := "SEPARATE"; World.filepath := "/scenes/cornell/box.json";
  World.directory := "/scenes/cornell" |}.

(** Two objects of a scene, the first one moved and held by a constraint,
    and Blender with the camera selected. *)
Definition moved : pyval :=
  PArray [PArray [num 1; num 0; num 0; num 2];
          PArray [num 0; num 1; num 0; num 0];
          PArray [num 0; num 0; num 1; num 0.5];
          PArray [num 0; num 0; num 0; num 1]].

Definition unmoved : pyval :=
  PArray [PArray [num 1; num 0; num 0; num 0];
          PArray [num 0; num 1; num 0; num 0];
          PArray [num 0; num 0; num 1; num 0];
          PArray [num 0; num 0; num 0; num 1]].

Definition cube_mesh : Geometry.mesh_object :=
  Geometry.Mesh "Cube" moved [num 1].

Definition floor_mesh : Geometry.mesh_object :=
  Geometry.Mesh "Floor" unmoved [].

Definition blender : Geometry.host :=
  Geometry.Host Materials.fresh ["Camera"] ["/scenes/cornell"] [].

(** An image texture of the scan with the given extension mode, and a Mix
    node for colors with the sockets Blender gives it. *)
Definition photo (extension : string) : node :=
  Node "Image Texture" "ShaderNodeTexImage" [socket_of "Vector" (xyz 0 0 0)]
    [("interpolation", PStr "Linear"); ("projection", PStr "FLAT");
     ("projection_blend", num 0); ("extension", PStr extension)]
    (Some scan) None.

Definition blend (data_type : string) : node :=
  Node "Mix" "ShaderNodeMix"
    [socket_of "Factor" (num 0.5); socket_of "A" (rgba 1 0 0 1); socket_of "B" (rgba 0 0 1 1)]
    [("data_type", PStr data_type); ("blend_type", PStr "SOFT_LIGHT");
     ("clamp_factor", PBool true); ("clamp_result", PBool false)] None None.

Definition blend_rgb : node :=
  Node "Mix" "ShaderNodeMix"
    [socket_of "Fac" (num 0.5); socket_of "Color1" (rgba 1 0 0 1);
     socket_of "Color2" (rgba 0 0 1 1)]
    [("data_type", PStr "RGBA"); ("blend_type", PStr "SOFT_LIGHT");
     ("clamp_factor", PBool true); ("clamp_result", PBool false)] None None.

Definition settings_single : World.Settings := {|
  World.integrator := "path tracer mis"; World.sampler := "none";
  World.enable_background := true; World.write_obj_files := true;
  World.mesh_mode := "SINGLE"; World.filepath := "/scenes/cornell/box.json";
  World.directory := "/scenes/cornell" |}.

End Examples.

(* ===================================================================== *)
(*  Properties                                                            *)
(* ===================================================================== *)

Section Monad.
Context `{FL : Float64}.
Import Py.

Lemma bind_ret {A B} (a : A) (k : A -> M B) : (mret a ≫= k) = k a.
Proof.
  unfold mbind, M_bind, mret, M_ret, bind, ret. by destruct (k a).
Qed.

Lemma bind_raise {A B} (e : exn) (k : A -> M B) : (raise e ≫= k) = raise e.
Proof. reflexivity. Qed.

Lemma bind_inr {A B} (m : M A) (k : A -> M B) a l :
  m = (inr a, l) -> (m ≫= k) = (fst (k a), l ++ snd (k a)).
Proof.
  intros ->. unfold mbind, M_bind, bind. by destruct (k a).
Qed.

Lemma bind_inl {A B} (m : M A) (k : A -> M B) e l :
  m = (inl e, l) -> (m ≫= k) = (inl e, l).
Proof. by intros ->. Qed.

Lemma bind_inv_inr {A B} (m : M A) (k : A -> M B) b l :
  (m ≫= k) = (inr b, l) ->
  exists a l1 l2, m = (inr a, l1) /\ k a = (inr b, l2) /\ l = l1 ++ l2.
Proof.
  unfold mbind, M_bind, bind. destruct m as [[e|a] l1]; [done|].
  destruct (k a) as [r l2] eqn:E. intros [= -> <-]. eauto 6.
Qed.

Lemma result_bind_inr {A B} (m : M A) (k : A -> M B) a :
  result m = inr a -> result (m ≫= k) = result (k a).
Proof.
  destruct m as [r l]. simpl. intros ->.
  unfold mbind, M_bind, bind, result. by destruct (k a).
Qed.

Lemma result_bind_inl {A B} (m : M A) (k : A -> M B) e :
  result m = inl e -> result (m ≫= k) = inl e.
Proof. destruct m as [r l]. simpl. by intros ->. Qed.

Lemma result_bind_inv_inr {A B} (m : M A) (k : A -> M B) b :
  result (m ≫= k) = inr b -> exists a, result m = inr a /\ result (k a) = inr b.
Proof.
  destruct (m ≫= k) as [r l] eqn:E. simpl. intros ->.
  apply bind_inv_inr in E as (a & l1 & l2 & -> & Hk & _).
  exists a. by rewrite Hk.
Qed.

Lemma result_bind_inv_inl {A B} (m : M A) (k : A -> M B) e :
  result (m ≫= k) = inl e ->
  result m = inl e \/ exists a, result m = inr a /\ result (k a) = inl e.
Proof.
  destruct m as [[e'|a] l] eqn:E.
  - intros H. left. revert H. cbv [mbind M_bind bind result fst]. by intros [= ->].
  - rewrite (bind_inr _ _ _ _ eq_refl). simpl. intros H. right. exists a.
    split; [done|]. by destruct (k a).
Qed.

End Monad.

Section Access.
Context `{FL : Float64}.
Import Py Bpy Scene.

Lemma get_default_value_some s v :
  default_value s = Some v -> get_default_value s = mret v.
Proof. unfold get_default_value. by intros ->. Qed.

Lemma is_linked_nil s : links s = [] -> is_linked s = false.
Proof. unfold is_linked. intros ->. by rewrite bool_decide_eq_true_2. Qed.

Lemma is_linked_cons s l r : links s = l :: r -> is_linked s = true.
Proof. unfold is_linked. intros ->. by rewrite bool_decide_eq_false_2. Qed.

Lemma link0_cons s l r : links s = l :: r -> link0 s = mret l.
Proof. unfold link0, index. by intros ->. Qed.

Lemma result_ret {A} (a : A) : result (mret a : M A) = inr a.
Proof. reflexivity. Qed.

Lemma result_info ctx m : result (info ctx m) = inr tt.
Proof. unfold info. by destruct (verbose ctx). Qed.

Lemma result_info_then {B} ctx m (k : unit -> M B) :
  result (info ctx m ≫= k) = result (k tt).
Proof. by rewrite (result_bind_inr _ _ tt) by apply result_info. Qed.

Lemma result_warn_if (b : bool) lvl m :
  result (if b then report lvl m else mret tt) = inr tt.
Proof. by destruct b. Qed.

Lemma result_warn_if_then {B} (b : bool) lvl m (k : unit -> M B) :
  result ((if b then report lvl m else mret tt) ≫= k) = result (k tt).
Proof. by rewrite (result_bind_inr _ _ tt) by apply result_warn_if. Qed.

End Access.

(** Symbolic execution of a translated function from what the hypotheses
    say about its calls. *)
Ltac mrun_step :=
  match goal with
  | |- context [mret _ ≫= _] => rewrite bind_ret
  | |- context [Py.raise _ ≫= _] => rewrite bind_raise
  | H : ?m = mret _ |- context [?m] => rewrite H
  | H : ?m = Py.raise _ |- context [?m] => rewrite H
  | H : Bpy.default_value ?s = Some _ |- context [Bpy.get_default_value ?s] =>
      rewrite (get_default_value_some _ _ H)
  | H : Bpy.links ?s = [] |- context [Bpy.is_linked ?s] => rewrite (is_linked_nil _ H)
  | H : Bpy.is_linked ?s = _ |- context [Bpy.is_linked ?s] => rewrite H
  | H : Py.result ?m = inr _ |- context [Py.result (?m ≫= _)] =>
      rewrite (result_bind_inr _ _ _ H)
  | H : Py.result ?m = inl _ |- context [Py.result (?m ≫= _)] =>
      rewrite (result_bind_inl _ _ _ H)
  | |- context [Py.result (Scene.info _ _ ≫= _)] => rewrite result_info_then
  | |- context [Py.result ((if _ then Scene.report _ _ else mret tt) ≫= _)] =>
      rewrite result_warn_if_then
  | |- context [if true then _ else _] => cbv iota
  | |- context [if false then _ else _] => cbv iota
  | |- context [negb true] => cbn [negb]
  | |- context [negb false] => cbn [negb]
  end.

Ltac mrun := repeat mrun_step.

(* --------------------------------------------------------------------- *)
(*  The value normalizer: [SceneWriter.color]                             *)
(* --------------------------------------------------------------------- *)

Section Normalizer.
Context `{FL : Float64}.
Import Py Bpy Scene Spec.

Lemma color_sequence v l : sequence v l -> color v = color_items l.
Proof.
  intros [-> | [-> | ->]]; unfold color; cbn [is_number as_num py_list];
    by rewrite bind_ret.
Qed.

Lemma numeric_known l :
  numeric l -> existsb (fun x => negb (is_number_or_tuple x)) l = false.
Proof.
  induction 1 as [|x l Hx _ IH]; [done|].
  cbn [existsb]. unfold is_number_or_tuple at 1. by rewrite Hx, IH.
Qed.

Lemma tuples_known l :
  Forall (fun x => type_of x = TTuple) l ->
  existsb (fun x => negb (is_number_or_tuple x)) l = false.
Proof.
  induction 1 as [|x l Hx _ IH]; [done|].
  cbn [existsb]. unfold is_number_or_tuple at 1.
  rewrite Hx, IH. rewrite bool_decide_eq_true_2 by done. by rewrite orb_true_r.
Qed.

Lemma mixed_types_head x l :
  mixed_types (x :: l) = false -> forall y, y ∈ l -> type_of y = type_of x.
Proof.
  revert x. induction l as [|z l IH]; intros x H y Hy.
  - by apply elem_of_nil in Hy.
  - cbn [mixed_types] in H. apply orb_false_iff in H as [H1 H2].
    apply negb_false_iff, bool_decide_eq_true in H1.
    apply elem_of_cons in Hy as [-> | Hy]; [done|].
    rewrite H1. by apply IH.
Qed.

Lemma mixed_types_same l : mixed_types l = false -> same_type l.
Proof.
  destruct l as [|x l]; intros H a b Ha Hb.
  - by apply elem_of_nil in Ha.
  - pose proof (mixed_types_head _ _ H) as Hh.
    assert (forall y, y ∈ x :: l -> type_of y = type_of x) as Hall.
    { intros y [-> | Hy]%elem_of_cons; auto. }
    by rewrite (Hall a Ha), (Hall b Hb).
Qed.

Lemma same_type_mixed l : same_type l -> mixed_types l = false.
Proof.
  induction l as [|x [|y l] IH]; intros H; [done | done |].
  cbn [mixed_types]. apply orb_false_iff. split.
  - apply negb_false_iff, bool_decide_eq_true.
    apply H; rewrite !elem_of_cons; auto.
  - apply IH. intros a b Ha Hb. apply H; rewrite elem_of_cons; auto.
Qed.

End Normalizer.

Section NormalizerClaim.
Context `{FL : Float64}.
Import Py Bpy Scene Spec.

(** C8, as amended.  [color] returns a plain number as it is, the single
    item of a one-item sequence of numbers, the first three items of a
    sequence of three or four numbers of one type (the alpha channel is
    dropped); it raises [ValueError] for a sequence with items of different
    types, and raises ([ValueError], or [IndexError] when the sequence is
    empty) for a sequence of numbers of one type whose length is not 1, 3
    or 4.  A non-empty sequence of tuples is not an error: it gives 0,
    whatever its length. *)
Theorem color_normalizes :
  (forall v, is_number v = true -> color v = mret v) /\
  (forall v x, sequence v [x] -> is_number x = true -> color v = mret x) /\
  (forall v l, sequence v l -> numeric l -> same_type l ->
               length l = 3%nat \/ length l = 4%nat ->
               color v = mret (PList (take 3 l))) /\
  (forall v l, sequence v l -> ~ same_type l ->
               exists m, color v = raise (ValueError m)) /\
  (forall v l, sequence v l -> numeric l -> same_type l ->
               length l <> 1%nat -> length l <> 3%nat -> length l <> 4%nat ->
               exists e, color v = raise e) /\
  (forall v l, sequence v l -> l <> [] -> Forall (fun x => type_of x = TTuple) l ->
               color v = mret (PInt 0)).
Proof.
  repeat split.
  - intros v Hv. unfold color. by rewrite Hv.
  - intros v x Hs Hx. rewrite (color_sequence _ _ Hs). unfold color_items.
    cbn [existsb mixed_types]. unfold is_number_or_tuple. rewrite Hx. cbn.
    by rewrite Hx.
  - intros v l Hs Hn Ht Hlen. rewrite (color_sequence _ _ Hs). unfold color_items.
    rewrite (numeric_known _ Hn), (same_type_mixed _ Ht).
    destruct l as [|x l]; [by destruct Hlen|].
    apply Forall_cons in Hn as [Hx _].
    unfold index. cbn [lookup list_lookup]. rewrite bind_ret, Hx.
    destruct Hlen as [-> | ->]; reflexivity.
  - intros v l Hs Ht. rewrite (color_sequence _ _ Hs). unfold color_items.
    destruct (existsb _ l); [eauto|].
    destruct (mixed_types l) eqn:E; [eauto|].
    destruct Ht. by apply mixed_types_same.
  - intros v l Hs Hn Ht H1 H3 H4. rewrite (color_sequence _ _ Hs). unfold color_items.
    rewrite (numeric_known _ Hn), (same_type_mixed _ Ht).
    destruct l as [|x l]; [by eexists|].
    apply Forall_cons in Hn as [Hx _].
    unfold index. cbn [lookup list_lookup]. rewrite bind_ret, Hx.
    rewrite !bool_decide_eq_false_2 by done. by eexists.
  - intros v l Hs Hne Ht. rewrite (color_sequence _ _ Hs). unfold color_items.
    rewrite (tuples_known _ Ht).
    rewrite same_type_mixed.
    2:{ intros a b Ha Hb. rewrite Forall_forall in Ht.
        by rewrite (Ht a Ha), (Ht b Hb). }
    destruct l as [|x l]; [done|].
    apply Forall_cons in Ht as [Hx _].
    unfold index. cbn [lookup list_lookup]. rewrite bind_ret.
    destruct x; try discriminate Hx. reflexivity.
Qed.

End NormalizerClaim.

(* --------------------------------------------------------------------- *)
(*  Socket resolution: [SceneWriter.follow_link]                          *)
(* --------------------------------------------------------------------- *)

Section Resolver.
Context `{FL : Float64}.
Import Py Bpy Scene Spec.

Lemma follow_link_hop t s s1 depth :
  hop t s s1 -> follow_link (S depth) t s = follow_link depth t s1.
Proof.
  intros (n & Hn & Hs1). unfold reroute_behind in Hn.
  destruct (links s) as [|l r] eqn:El; [done|].
  destruct (find _ t) as [n'|] eqn:En; [|done].
  destruct (String.eqb (bl_idname n') "NodeReroute") eqn:Eb; [|done].
  injection Hn as ->.
  cbn [follow_link]. unfold is_linked, link0, index, get_node, input_at, index.
  rewrite El. cbn [lookup list_lookup bool_decide negb].
  rewrite bool_decide_eq_false_2 by done. cbn [negb].
  rewrite bind_ret, En, bind_ret, Eb, Hs1. by rewrite bind_ret.
Qed.

Lemma follow_link_end t s depth :
  chain_end t s -> follow_link (S depth) t s = mret s.
Proof.
  intros [El | (l & r & n & El & En & Eb)]; cbn [follow_link]; unfold is_linked.
  - by rewrite El.
  - rewrite El. rewrite bool_decide_eq_false_2 by done. cbn [negb].
    unfold link0, index, get_node. rewrite El. cbn [lookup list_lookup].
    by rewrite bind_ret, En, bind_ret, Eb.
Qed.

Lemma follow_link_chain t k s s' :
  chain t k s s' -> forall depth, follow_link (k + depth) t s = follow_link depth t s'.
Proof.
  induction 1 as [|k s s1 s' Hh _ IH]; intros depth; [done|].
  cbn [Nat.add]. by rewrite (follow_link_hop _ _ _ _ Hh).
Qed.

Lemma follow_link_too_deep t k s s' :
  chain t k s s' -> forall depth, (depth <= k)%nat -> follow_link depth t s = raise RecursionError.
Proof.
  induction 1 as [s|k s s1 s' Hh _ IH]; intros depth Hd.
  - by replace depth with 0%nat by lia.
  - destruct depth as [|depth]; [done|].
    rewrite (follow_link_hop _ _ _ _ Hh). apply IH. lia.
Qed.

Lemma follow_link_on_cycle t k c :
  chain t (S k) c c -> forall depth, follow_link depth t c = raise RecursionError.
Proof.
  intros Hc depth. induction (lt_wf depth) as [depth _ IH].
  destruct (decide (depth <= S k)%nat) as [Hle | Hgt].
  - by apply (follow_link_too_deep _ _ _ _ Hc).
  - replace depth with (S k + (depth - S k))%nat by lia.
    rewrite (follow_link_chain _ _ _ _ Hc). apply IH. lia.
Qed.

(** C9, as amended.  [follow_link] returns the first socket that is not
    driven by a reroute node whenever the chain of reroute nodes ends and
    the interpreter allows more nested calls than the chain is long.  When
    the chain is cyclic, that is, when it leads from the socket, after any
    number of reroute nodes, to a socket [c] from which reroute nodes lead
    back to [c], it returns nothing at any call depth: the only failure is
    the interpreter's [RecursionError]; the source has no cycle guard and
    no error of its own for a cycle.  The socket itself need not lie on
    the cycle. *)
Theorem follow_link_resolves :
  (forall t k s s', chain t k s s' -> chain_end t s' ->
     forall depth, (k < depth)%nat -> follow_link depth t s = mret s') /\
  (forall t j k s c, chain t j s c -> chain t (S k) c c ->
     forall depth, follow_link depth t s = raise RecursionError).
Proof.
  split.
  - intros t k s s' Hc He depth Hd.
    replace depth with (k + S (depth - S k))%nat by lia.
    rewrite (follow_link_chain _ _ _ _ Hc). by apply follow_link_end.
  - intros t j k s c Hs Hc depth.
    destruct (decide (depth <= j)%nat) as [Hle | Hgt].
    + by apply (follow_link_too_deep _ _ _ _ Hs).
    + replace depth with (j + (depth - j))%nat by lia.
      rewrite (follow_link_chain _ _ _ _ Hs). by eapply follow_link_on_cycle.
Qed.

End Resolver.

(* --------------------------------------------------------------------- *)
(*  Volume absorption                                                     *)
(* --------------------------------------------------------------------- *)

Section Absorption.
Context `{FL : Float64}.
Import Py Bpy Scene Spec Materials.

Lemma result_report lvl m : result (report lvl m) = inr tt.
Proof. reflexivity. Qed.

Lemma get_node_has_node t nm n : get_node t nm = mret n -> has_node t nm = true.
Proof.
  unfold get_node, has_node. destruct (find _ t) as [n'|] eqn:E; [|done].
  intros _. apply find_some in E as [Hin Hn]. apply existsb_exists. eauto.
Qed.

Lemma try_except_passes {A} (body : M A) (handler : msg -> M A) e :
  result body = inl e -> (forall m, e <> NotImplementedError m) ->
  result (try_except_NotImplementedError body handler) = inl e.
Proof.
  destruct body as [[e'|a] l]; simpl; [|done]. intros [= ->] He.
  destruct e; try done. by destruct (He m).
Qed.

(** [max] with the single float argument raises whatever [x] is. *)
Lemma absorption_total_raises x : absorption_total x = raise TypeError.
Proof.
  unfold absorption_total, py_max2.
  destruct (as_num x) as [n|] eqn:En; [|done].
  cbn [as_num]. rewrite bind_ret.
  assert (exists m, (if num_ltb n (NFloat (f_lit 0.0)) then PFloat (f_lit 0.0) else x) = m
                    /\ exists k, as_num m = Some k) as (m & -> & k & Hk).
  { destruct (num_ltb _ _); eauto. }
  unfold py_pow, float_pow. rewrite Hk. cbn [as_num].
  destruct k; cbn [to_float]; rewrite f_pow_range_half, bind_ret; reflexivity.
Qed.

Lemma absorption_raises ctx node c d v x xs :
  input node "Color" = mret c -> links c = [] -> default_value c = Some v ->
  input node "Density" = mret d -> links d = [] ->
  sequence v (x :: xs) ->
  convert_volume_absorption_node ctx node = raise TypeError.
Proof.
  intros Hc Hlc Hv Hd Hld Hs. unfold convert_volume_absorption_node.
  rewrite !Hc, Hd. unfold is_linked, get_default_value.
  rewrite !bind_ret, Hlc, Hv. cbn [bool_decide negb].
  rewrite bool_decide_eq_true_2 by done. cbn [negb].
  rewrite !bind_ret, Hld. rewrite bool_decide_eq_true_2 by done. cbn [negb].
  destruct Hs as [-> | [-> | ->]];
    repeat first [rewrite bind_ret | progress cbn [slice_all py_list mapM]];
    by rewrite absorption_total_raises.
Qed.

End Absorption.

(* --------------------------------------------------------------------- *)
(*  Statements of [export]                                                *)
(* --------------------------------------------------------------------- *)

Section Statements.
Context `{FL : Float64}.
Import Py Bpy Scene Spec Materials.

Lemma info_runs ctx m : exists l, info ctx m = (inr tt, l).
Proof. unfold info. destruct (verbose ctx); by eexists. Qed.

Lemma X_bind_inr {A B} (m : X A) (k : A -> X B) st a l st' :
  m st = ((inr a, l), st') ->
  (m ≫= k) st = ((fst (fst (k a st')), l ++ snd (fst (k a st'))), snd (k a st')).
Proof.
  intros H. unfold mbind, X_bind. rewrite H.
  by destruct (k a st') as [[r l'] st''].
Qed.

Lemma X_bind_inl {A B} (m : X A) (k : A -> X B) st e l st' :
  m st = ((inl e, l), st') -> (m ≫= k) st = ((inl e, l), st').
Proof. intros H. unfold mbind, X_bind. by rewrite H. Qed.

Lemma outcome_bind_inr {A B} (m : X A) (k : A -> X B) st a :
  outcome (m st) = inr a -> outcome ((m ≫= k) st) = outcome (k a (final (m st))).
Proof.
  destruct (m st) as [[r l] st'] eqn:E. unfold outcome, final. simpl. intros ->.
  by rewrite (X_bind_inr _ _ _ _ _ _ E).
Qed.

Lemma final_bind_inr {A B} (m : X A) (k : A -> X B) st a :
  outcome (m st) = inr a -> final ((m ≫= k) st) = final (k a (final (m st))).
Proof.
  destruct (m st) as [[r l] st'] eqn:E. unfold outcome, final. simpl. intros ->.
  by rewrite (X_bind_inr _ _ _ _ _ _ E).
Qed.

Lemma outcome_bind_inl {A B} (m : X A) (k : A -> X B) st e :
  outcome (m st) = inl e -> outcome ((m ≫= k) st) = inl e.
Proof.
  destruct (m st) as [[r l] st'] eqn:E. unfold outcome. simpl. intros ->.
  by rewrite (X_bind_inl _ _ _ _ _ _ E).
Qed.

Lemma final_bind_inl {A B} (m : X A) (k : A -> X B) st e :
  outcome (m st) = inl e -> final ((m ≫= k) st) = final (m st).
Proof.
  destruct (m st) as [[r l] st'] eqn:E. unfold outcome. simpl. intros ->.
  by rewrite (X_bind_inl _ _ _ _ _ _ E).
Qed.

Lemma outcome_lift {A} (m : M A) st : outcome (lift m st) = result m.
Proof. reflexivity. Qed.

Lemma final_lift {A} (m : M A) st : final (lift m st) = st.
Proof. reflexivity. Qed.

Lemma outcome_modify f st : outcome (modify f st) = inr tt.
Proof. reflexivity. Qed.

Lemma final_modify f st : final (modify f st) = f st.
Proof. reflexivity. Qed.

Lemma outcome_get st : outcome (get st) = inr st.
Proof. reflexivity. Qed.

Lemma final_get st : final (get st) = st.
Proof. reflexivity. Qed.

Lemma outcome_for_each_cons {A} (x : A) r (body : A -> X unit) st e :
  outcome (body x st) = inl e -> outcome (for_each (x :: r) body st) = inl e.
Proof. intros H. cbn [for_each]. by apply outcome_bind_inl. Qed.

Lemma outcome_info_then {B} ctx m (k : unit -> X B) st :
  outcome ((lift (info ctx m) ≫= k) st) = outcome (k tt st).
Proof. by rewrite (outcome_bind_inr _ _ _ tt) by apply result_info. Qed.

Lemma final_info_then {B} ctx m (k : unit -> X B) st :
  final ((lift (info ctx m) ≫= k) st) = final (k tt st).
Proof. by rewrite (final_bind_inr _ _ _ tt) by apply result_info. Qed.

Lemma outcome_modify_then {B} f (k : unit -> X B) st :
  outcome ((modify f ≫= k) st) = outcome (k tt (f st)).
Proof. by rewrite (outcome_bind_inr _ _ _ tt). Qed.

Lemma final_modify_then {B} f (k : unit -> X B) st :
  final ((modify f ≫= k) st) = final (k tt (f st)).
Proof. by rewrite (final_bind_inr _ _ _ tt). Qed.

Lemma outcome_get_then {B} (k : store -> X B) st :
  outcome ((get ≫= k) st) = outcome (k st st).
Proof. by rewrite (outcome_bind_inr _ _ _ st). Qed.

Lemma final_get_then {B} (k : store -> X B) st :
  final ((get ≫= k) st) = final (k st st).
Proof. by rewrite (final_bind_inr _ _ _ st). Qed.

Lemma input_has_input n nm s : input n nm = mret s -> has_input n nm = true.
Proof.
  unfold input, has_input. destruct (find _ (inputs n)) as [s'|] eqn:E; [|done].
  intros _. apply find_some in E as [Hin Hs]. apply existsb_exists. eauto.
Qed.

Lemma output_linked_input n nm s :
  input n nm = mret s -> output_linked n nm = mret (is_linked s).
Proof.
  intros H. unfold output_linked.
  by rewrite (input_has_input _ _ _ H), H, bind_ret.
Qed.

Lemma volume_converters_absorption :
  find (fun kv => String.eqb (fst kv) "ShaderNodeVolumeAbsorption") volume_converters
  = Some ("ShaderNodeVolumeAbsorption", convert_volume_absorption_node).
Proof. reflexivity. Qed.

End Statements.

Section AbsorptionClaim.
Context `{FL : Float64}.
Import Py Bpy Scene Spec Materials.

Lemma for_each_keeps {A} (l : list A) (body : A -> X unit) (I : store -> Prop)
    (E : exn -> Prop) :
  (forall x st, x ∈ l -> I st ->
     (outcome (body x st) = inr tt /\ I (final (body x st))) \/
     (exists e, E e /\ outcome (body x st) = inl e)) ->
  forall st, I st ->
    (outcome (for_each l body st) = inr tt /\ I (final (for_each l body st))) \/
    (exists e, E e /\ outcome (for_each l body st) = inl e).
Proof.
  induction l as [|x l IH]; intros Hbody st HI; [by left|].
  cbn [for_each].
  destruct (Hbody x st ltac:(left) HI) as [[Ho Hf] | (e & He & Ho)].
  - rewrite (outcome_bind_inr _ _ _ _ Ho), (final_bind_inr _ _ _ _ Ho).
    apply IH; [|done]. intros y st' Hy. apply Hbody. by right.
  - right. exists e. split; [done|]. by apply outcome_bind_inl.
Qed.

Lemma for_each_reaches {A} (l : list A) (body : A -> X unit) (I : store -> Prop)
    (E : exn -> Prop) x0 :
  x0 ∈ l ->
  (forall x st, x ∈ l -> I st ->
     (outcome (body x st) = inr tt /\ I (final (body x st))) \/
     (exists e, E e /\ outcome (body x st) = inl e)) ->
  (forall st, I st -> exists e, E e /\ outcome (body x0 st) = inl e) ->
  forall st, I st -> exists e, E e /\ outcome (for_each l body st) = inl e.
Proof.
  induction l as [|x l IH]; intros Hin Hbody H0 st HI; [by apply elem_of_nil in Hin|].
  cbn [for_each].
  destruct (Hbody x st ltac:(left) HI) as [[Ho Hf] | (e & He & Ho)].
  - apply elem_of_cons in Hin as [-> | Hin].
    + destruct (H0 st HI) as (e & _ & Ho'). congruence.
    + rewrite (outcome_bind_inr _ _ _ _ Ho).
      apply IH; [done| |done|done]. intros y st' Hy. apply Hbody. by right.
  - exists e. split; [done|]. by apply outcome_bind_inl.
Qed.

Lemma mat_id_inj m m' : mat_id m = mat_id m' -> name_full m = name_full m'.
Proof. unfold mat_id. by intros [=]. Qed.

Lemma export_material_other depth ctx k m st :
  mat_id m <> k -> already_exported st !! k = None ->
  (outcome (export_material depth ctx (Some m) st) = inr tt /\
   already_exported (final (export_material depth ctx (Some m) st)) !! k = None) \/
  (exists e, outcome (export_material depth ctx (Some m) st) = inl e /\
             result (convert_material depth ctx m) = inl e).
Proof.
  intros Hk HI. unfold export_material.
  destruct (_ || _).
  { left. by rewrite outcome_lift, final_lift, result_info. }
  rewrite outcome_get_then, final_get_then. destruct (bool_decide _).
  { left. by rewrite outcome_lift, final_lift, result_info. }
  rewrite outcome_info_then, final_info_then, outcome_modify_then, final_modify_then.
  destruct (result (convert_material depth ctx m)) as [e | [mp md]] eqn:Ec.
  - right. exists e. split; [|done]. apply outcome_bind_inl. by rewrite outcome_lift.
  - left.
    rewrite (outcome_bind_inr _ _ _ (mp, md)), (final_bind_inr _ _ _ (mp, md))
      by (by rewrite outcome_lift).
    rewrite final_lift.
    rewrite !outcome_modify_then, !final_modify_then.
    destruct md as [md|]; [destruct (truthy _)|];
      (split; [done|]); cbn [final snd modify already_exported mret X_ret];
      by rewrite lookup_insert_ne.
Qed.

(** C10.  A volume-absorption node with unconnected Color and Density
    inputs (the Color being the socket's sequence of channels) makes
    [convert_volume_absorption_node] raise [TypeError]: [max] is called
    with one float.  [convert_material] handles [NotImplementedError]
    only, so a material whose output node has this node on its Volume
    input raises the [TypeError] too, whatever its Surface is converted
    to.  [export] then does not return, wherever the material is among
    the slots of the meshes, and the exception it raises is this
    [TypeError] when the other materials are converted. *)
Theorem absorption_aborts_export depth ctx b_mat out vs vn c d v x xs :
  use_nodes b_mat = true ->
  get_node (nodes b_mat) "Material Output" = mret out ->
  surface_converts depth ctx b_mat out ->
  input out "Volume" = mret vs -> is_linked vs = true ->
  result (linked_node (nodes b_mat) (follow_link depth (nodes b_mat)) vs) = inr vn ->
  bl_idname vn = "ShaderNodeVolumeAbsorption" ->
  input vn "Color" = mret c -> links c = [] -> default_value c = Some v ->
  input vn "Density" = mret d -> links d = [] ->
  sequence v (x :: xs) ->
  convert_volume_absorption_node ctx vn = raise TypeError /\
  result (convert_material depth ctx b_mat) = inl TypeError /\
  (forall data meshes st,
     material_mode ctx = "CONVERT" ->
     name_full b_mat <> "Dots Stroke" -> users b_mat <> 0 ->
     already_exported st !! mat_id b_mat = None ->
     in_slot meshes b_mat ->
     (forall m, in_slot meshes m -> name_full m = name_full b_mat -> m = b_mat) ->
     (exists e, outcome (export depth ctx data meshes st) = inl e) /\
     ((forall m, in_slot meshes m -> name_full m <> name_full b_mat ->
         exists r, result (convert_material depth ctx m) = inr r) ->
      outcome (export depth ctx data meshes st) = inl TypeError)).
Proof.
  intros Hun Hout Hsurf Hvol Hl Hvn Hid Hc Hlc Hv Hd Hld Hs.
  assert (convert_volume_absorption_node ctx vn = raise TypeError) as Habs
    by eauto using absorption_raises.
  assert (result (convert_material depth ctx b_mat) = inl TypeError) as Hmat.
  { unfold convert_material. rewrite Hun. apply try_except_passes; [|done].
    unfold convert_material_body.
    rewrite (get_node_has_node _ _ _ Hout). cbn [negb].
    rewrite Hout, bind_ret.
    assert (forall mp : dict,
              result (volume ← output_linked out "Volume";
                      '(mat_params, media_params) ←
                        (if volume : bool then
                           volume_node ← (s ← input out "Volume";
                                          linked_node (nodes b_mat)
                                            (follow_link depth (nodes b_mat)) s);
                           let medium_name := name_full b_mat +:+ " volume" in
                           media_params ← cycles_volume_to_dict ctx volume_node
                                            (Some medium_name);
                           mret (<["interior medium" := PStr medium_name]> mp,
                                 Some media_params)
                         else mret (mp, None));
                      displacement ← output_linked out "Displacement";
                      (if displacement : bool then
                         report "WARNING"
                           [Lit "Material '"; Val (PStr (name_full b_mat));
                            Lit "': Displacement maps are not supported. Consider converting them to bump maps first"]
                       else mret tt);;
                      mret (mat_params, media_params)) = inl TypeError) as Hrest.
    { intros mp.
      rewrite (output_linked_input _ _ _ Hvol), Hl, bind_ret, Hvol, bind_ret.
      apply result_bind_inl. rewrite (result_bind_inr _ _ vn Hvn).
      apply result_bind_inl.
      unfold cycles_volume_to_dict. rewrite result_info_then, Hid.
      rewrite volume_converters_absorption, result_info_then.
      cbn [snd]. by rewrite Habs. }
    destruct Hsurf as [-> | (ss & sn & mp & Hss & Hls & Hsn & Hmp)].
    - rewrite !bind_ret. apply Hrest.
    - rewrite (output_linked_input _ _ _ Hss), Hls, bind_ret, Hss, bind_ret.
      rewrite (result_bind_inr _ _ mp) by (by rewrite (result_bind_inr _ _ sn)).
      apply Hrest. }
  split; [done|]. split; [done|].
  intros data meshes st Hmode Hname Husers Hcache (mesh0 & slots0 & Hmesh & Hdata & Hslot) Huniq.
  set (I := fun st : store => already_exported st !! mat_id b_mat = None).
  assert (forall st, I st ->
            outcome (export_material depth ctx (Some b_mat) st) = inl TypeError) as Hbad.
  { intros st' HI. unfold export_material.
    apply String.eqb_neq in Hname. rewrite Hname.
    apply Z.eqb_neq in Husers. rewrite Husers. cbn [orb].
    rewrite outcome_get_then. unfold I in HI. rewrite HI.
    rewrite bool_decide_eq_false_2 by (by intros [? ?]).
    rewrite outcome_info_then, outcome_modify_then.
    by apply outcome_bind_inl. }
  assert (forall E : exn -> Prop, E TypeError ->
            (forall m e, in_slot meshes m -> name_full m <> name_full b_mat ->
                         result (convert_material depth ctx m) = inl e -> E e) ->
            exists e, E e /\ outcome (export depth ctx data meshes st) = inl e) as Hgen.
  { intros E HE Hothers.
    unfold export. rewrite outcome_info_then, outcome_modify_then, Hmode.
    change (String.eqb "CONVERT" "DIFFUSE") with false.
    change (String.eqb "CONVERT" "CONVERT") with true. cbv iota.
    assert (forall mesh slots s st', mesh ∈ meshes -> data_materials mesh = Some slots ->
              s ∈ slots -> I st' ->
              (outcome (export_material depth ctx s st') = inr tt /\
               I (final (export_material depth ctx s st'))) \/
              (exists e, E e /\ outcome (export_material depth ctx s st') = inl e)) as Hstep.
    { intros mesh slots [m|] st' Hm Hd' Hs' HI; [|by left].
      destruct (String.eqb_spec (name_full m) (name_full b_mat)) as [Heq | Hne].
      - assert (m = b_mat) as -> by (apply Huniq; [by exists mesh, slots|done]).
        right. exists TypeError. split; [done|]. by apply Hbad.
      - destruct (export_material_other depth ctx (mat_id b_mat) m st') as [H | (e & Ho & Hr)];
          [by intros ?%mat_id_inj | done | by left |].
        right. exists e. split; [|done]. eapply Hothers; [|done|done]. by exists mesh, slots. }
    apply (for_each_reaches _ _ I E mesh0); [done| | |done].
    - intros mesh st' Hm HI. destruct (data_materials mesh) as [[|s slots]|] eqn:Hd';
        [by left | | by left].
      rewrite outcome_info_then, final_info_then.
      apply for_each_keeps; [|done]. intros s' st'' Hs'. by apply (Hstep mesh (s :: slots)).
    - intros st' HI. rewrite Hdata. destruct slots0 as [|s slots]; [by apply elem_of_nil in Hslot|].
      rewrite outcome_info_then.
      apply (for_each_reaches _ _ I E (Some b_mat)); [done| |by eauto|done].
      intros s' st'' Hs'. by apply (Hstep mesh0 (s :: slots)). }
  split.
  - destruct (Hgen (fun _ => True)) as (e & _ & He); by eauto.
  - intros Hconv.
    destruct (Hgen (fun e => e = TypeError)) as (e & -> & He); [done| |done].
    intros m e Hm Hne Hr. destruct (Hconv m Hm Hne) as [r Hr']. congruence.
Qed.

End AbsorptionClaim.

(* --------------------------------------------------------------------- *)
(*  Emission                                                              *)
(* --------------------------------------------------------------------- *)

Section EmissionClaim.
Context `{FL : Float64}.
Import Py Bpy Scene Spec Materials.


End EmissionClaim.

(* --------------------------------------------------------------------- *)
(*  Glass                                                                 *)
(* --------------------------------------------------------------------- *)

Section GlassClaim.
Context `{FL : Float64}.
Import Py Bpy Scene Spec Materials.

Lemma convert_texture_node_unlinked depth t ctx s v :
  links s = [] -> default_value s = Some v ->
  Textures.convert_texture_node (S depth) t ctx s = color v.
Proof.
  intros Hl Hv. cbn [Textures.convert_texture_node]. unfold is_linked, get_default_value.
  rewrite Hl, Hv. rewrite bool_decide_eq_true_2 by done. cbn [negb].
  by rewrite bind_ret.
Qed.

(** C5.  A glass node whose unconnected Roughness is 0 converts to a
    descriptor of type "thin dielectric" when its IOR equals 1.0 and
    "dielectric" otherwise; a glass node whose converted roughness is not
    zero and whose distribution is not SHARP converts to a "rough
    dielectric".  In all cases the descriptor carries the IOR, and the
    converted Color input as both reflectance and transmittance. *)
Theorem glass_dielectric depth t ctx node iors i rs cs c :
  input node "IOR" = mret iors -> default_value iors = Some (PFloat i) ->
  input node "Roughness" = mret rs ->
  input node "Color" = mret cs ->
  result (Textures.convert_texture_node (S depth) t ctx cs) = inr c ->
  (forall x,
     links rs = [] -> default_value rs = Some (PFloat x) -> f_eqb x (f_of_int 0) = true ->
     result (convert_glass_material (Textures.convert_texture_node (S depth) t) ctx node)
     = inr [("type", PStr (if f_eqb i (f_lit 1.0) then "thin dielectric" else "dielectric"));
            ("ior", PFloat i); ("reflectance", c); ("transmittance", c)]) /\
  (forall r dist mode,
     result (Textures.convert_texture_node (S depth) t ctx rs) = inr r -> truthy r = true ->
     attr node "distribution" = mret (PStr dist) -> dist <> "SHARP" ->
     table_get RoughnessMode (PStr dist) = mret mode ->
     result (convert_glass_material (Textures.convert_texture_node (S depth) t) ctx node)
     = inr [("type", PStr "rough dielectric"); ("roughness", r);
            ("distribution", PStr mode);
            ("ior", PFloat i); ("reflectance", c); ("transmittance", c)]).
Proof.
  intros Hior Hiv Hr Hc Hcol. split.
  - intros x Hl Hx Hzero.
    pose proof (convert_texture_node_unlinked depth t ctx _ _ Hl Hx) as Hrough.
    unfold color in Hrough. cbn [is_number as_num] in Hrough.
    unfold convert_glass_material, convert_input. mrun.
    cbn [truthy]. rewrite Hzero. mrun.
    unfold eq_num. cbn [as_num num_eqb to_float].
    by destruct (f_eqb i (f_lit 1.0)).
  - intros r dist mode Hrough Ht Hd Hsharp Hmode.
    apply String.eqb_neq in Hsharp.
    unfold convert_glass_material, convert_input. mrun.
    rewrite Ht. mrun. cbn [eq_str]. rewrite Hsharp. mrun.
    reflexivity.
Qed.

End GlassClaim.

(* --------------------------------------------------------------------- *)
(*  Procedural textures: dimensionality                                   *)
(* --------------------------------------------------------------------- *)

(** Inversion of a run that returned: one hypothesis per call. *)
Ltac minv H :=
  repeat (let a := fresh "a" in
          let Ha := fresh "Ha" in
          apply result_bind_inv_inr in H as (a & Ha & H); cbv beta in H).

Section Dimensions.
Context `{FL : Float64}.
Import Py Bpy Scene Spec Textures.

Lemma dict_has_insert k v (d : list (string * pyval)) : dict_has k (<[k := v]> d) = true.
Proof.
  unfold dict_has, insert, dict_insert.
  induction d as [|[k' v'] d IH]; cbn [dict_set dict_lookup].
  - by rewrite String.eqb_refl.
  - destruct (String.eqb k k') eqn:E; cbn [dict_lookup]; by rewrite E.
Qed.

Lemma dict_has_insert_ne k k' v (d : list (string * pyval)) :
  k <> k' -> dict_has k (<[k' := v]> d) = dict_has k d.
Proof.
  intros Hne. unfold dict_has, insert, dict_insert.
  induction d as [|[k'' v''] d IH]; cbn [dict_set dict_lookup].
  - apply String.eqb_neq in Hne. by rewrite Hne.
  - destruct (String.eqb k' k'') eqn:E; cbn [dict_lookup].
    + apply String.eqb_eq in E as <-. apply String.eqb_neq in Hne. by rewrite Hne.
    + destruct (String.eqb k k''); [done|]. apply IH.
Qed.

Lemma input_result n nm s : result (input n nm) = inr s -> input n nm = mret s.
Proof. unfold input. destruct (find _ _); by intros [= ->]. Qed.

Lemma with_vector_result conv ctx node params p :
  result (with_vector conv ctx node params) = inr p ->
  exists s, input node "Vector" = mret s /\
    ((is_linked s = true /\ exists v, p = <["vector" := v]> params) \/
     (is_linked s = false /\ p = params)).
Proof.
  unfold with_vector. intros H.
  apply result_bind_inv_inr in H as (s & Hs & H). cbv beta in H.
  apply input_result in Hs. exists s. split; [done|].
  destruct (is_linked s).
  - left. split; [done|]. minv H. injection H as <-. eauto.
  - right. by injection H as <-.
Qed.

Lemma with_w_and_vector_gates conv ctx node dims params p :
  dict_has "w" params = false -> dict_has "vector" params = false ->
  result (with_w_and_vector conv ctx node dims params) = inr p ->
  (dict_has "w" p = true <-> dims = 1 \/ dims = 4) /\
  (dict_has "vector" p = true <->
     dims <> 1 /\ exists s, input node "Vector" = mret s /\ is_linked s = true).
Proof.
  intros Hw Hv H. unfold with_w_and_vector in H.
  apply result_bind_inv_inr in H as (p1 & H1 & H). cbv beta in H.
  assert ((dict_has "w" p1 = true <-> dims = 1 \/ dims = 4) /\ dict_has "vector" p1 = false)
    as [Hw1 Hv1].
  { destruct (Z.eqb_spec dims 1) as [-> | Hn1]; cbn [orb] in H1.
    - minv H1. injection H1 as <-. rewrite dict_has_insert, dict_has_insert_ne by done.
      split; [|done]. split; auto.
    - destruct (Z.eqb_spec dims 4) as [-> | Hn4].
      + minv H1. injection H1 as <-. rewrite dict_has_insert, dict_has_insert_ne by done.
        split; [|done]. split; auto.
      + injection H1 as <-. rewrite Hw. split; [|done]. split; [done|]. intros [|]; done. }
  destruct (Z.eqb_spec dims 1) as [-> | Hn1]; cbn [negb] in H.
  - injection H as <-. split; [done|]. rewrite Hv1. split; [done|]. by intros [? _].
  - apply with_vector_result in H as (s & Hs & [[Hl [v ->]] | [Hl ->]]).
    + rewrite dict_has_insert, dict_has_insert_ne by done. split; [done|].
      split; eauto.
    + split; [done|]. rewrite Hv1. split; [done|].
      intros [_ (s' & Hs' & Hl')]. rewrite Hs in Hs'. injection Hs' as <-. congruence.
Qed.

End Dimensions.

Section DimensionsClaim.
Context `{FL : Float64}.
Import Py Bpy Scene Spec Textures.

Lemma convert_input_converts conv ctx node nm :
  converts conv ctx node nm -> exists v, result (convert_input conv ctx node nm) = inr v.
Proof.
  intros (s & v & Hs & Hv). exists v. unfold convert_input. by rewrite Hs, bind_ret.
Qed.

Lemma with_w_and_vector_returns conv ctx node dims params :
  gate_inputs conv ctx node dims ->
  exists p, result (with_w_and_vector conv ctx node dims params) = inr p.
Proof.
  intros [Hw Hv]. unfold with_w_and_vector.
  assert (exists p1, result (if Z.eqb dims 1 || Z.eqb dims 4
                             then w ← convert_input conv ctx node "W";
                                  mret (<["w" := w]> params)
                             else mret params) = inr p1) as [p1 H1].
  { destruct (Z.eqb_spec dims 1) as [-> | Hn1]; cbn [orb].
    - destruct (convert_input_converts _ _ _ _ (Hw (or_introl eq_refl))) as [w Hcw].
      eexists. by rewrite (result_bind_inr _ _ w Hcw).
    - destruct (Z.eqb_spec dims 4) as [-> | Hn4]; [|by eexists].
      destruct (convert_input_converts _ _ _ _ (Hw (or_intror eq_refl))) as [w Hcw].
      eexists. by rewrite (result_bind_inr _ _ w Hcw). }
  rewrite (result_bind_inr _ _ p1 H1).
  destruct (Z.eqb_spec dims 1) as [-> | Hn1]; cbn [negb]; [by eexists|].
  destruct (Hv Hn1) as (s & Hs & Hl). unfold with_vector. rewrite Hs, bind_ret.
  destruct (is_linked s); [|by eexists].
  destruct (Hl eq_refl) as [v Hcv]. eexists. by rewrite (result_bind_inr _ _ v Hcv).
Qed.

Ltac convert_all :=
  repeat match goal with
  | H : Forall _ (_ :: _) |- _ => apply Forall_cons in H as [? H]
  end;
  repeat match goal with
  | H : converts ?conv ?ctx ?node ?nm
    |- context [convert_input ?conv ?ctx ?node ?nm ≫= _] =>
      let v := fresh "v" in let Hv := fresh "Hv" in
      destruct (convert_input_converts _ _ _ _ H) as [v Hv];
      rewrite (result_bind_inr _ _ v Hv); clear H
  end.

(** C6.  An enabled noise, white noise, Voronoi or Musgrave converter
    returns a descriptor whenever the node has the attributes and inputs
    the converter reads and the conversion of these inputs returns, and
    whatever the conversion of the inputs does, the descriptor it returns
    has a "w" field exactly when the node's declared dimensionality maps
    to 1 or 4, and a "vector" field exactly when the dimensionality is not
    1 and the node's Vector input is linked. *)
Theorem dimensionality_gating conv ctx out a dims :
  table_get dimensions a = mret dims ->
  (attr (out_node out) "noise_dimensions" = mret a ->
   (forall v, result (convert_white_noise_texture_node conv ctx out) = inr v ->
              gated_by_dimensions (out_node out) dims v) /\
   (gate_inputs conv ctx (out_node out) dims ->
    exists v, result (convert_white_noise_texture_node conv ctx out) = inr v)) /\
  (attr (out_node out) "noise_dimensions" = mret a ->
   enable_noise ctx = true ->
   (forall v, result (convert_noise_texture_node conv ctx out) = inr v ->
              gated_by_dimensions (out_node out) dims v) /\
   (gate_inputs conv ctx (out_node out) dims ->
    Forall (converts conv ctx (out_node out))
           ["Scale"; "Detail"; "Roughness"; "Lacunarity"; "Distortion"] ->
    (exists n, attr (out_node out) "normalize" = mret n) ->
    exists v, result (convert_noise_texture_node conv ctx out) = inr v)) /\
  (attr (out_node out) "voronoi_dimensions" = mret a ->
   enable_voronoi ctx = true ->
   (forall v, result (convert_voronoi_texture_node conv ctx out) = inr v ->
              gated_by_dimensions (out_node out) dims v) /\
   (gate_inputs conv ctx (out_node out) dims ->
    Forall (converts conv ctx (out_node out)) ["Scale"; "Randomness"] ->
    forall feature distance,
      str_attr (out_node out) "feature" feature ->
      str_attr (out_node out) "distance" distance ->
      (replace_char "_" " " (lower feature) = "smooth f1" ->
       converts conv ctx (out_node out) "Smoothness") ->
      exists v, result (convert_voronoi_texture_node conv ctx out) = inr v)) /\
  (attr (out_node out) "noise_dimensions" = mret a ->
   enable_musgrave ctx = true ->
   (forall v, result (convert_musgrave_texture_node conv ctx out) = inr v ->
              gated_by_dimensions (out_node out) dims v) /\
   (gate_inputs conv ctx (out_node out) dims ->
    Forall (converts conv ctx (out_node out))
           ["Scale"; "Detail"; "Dimension"; "Lacunarity"; "Offset"; "Gain"] ->
    forall musgrave_type,
      str_attr (out_node out) "musgrave_type" musgrave_type ->
      exists v, result (convert_musgrave_texture_node conv ctx out) = inr v)).
Proof.
  intros Hdims. split; [|split; [|split]].
  - intros Ha. split.
    + intros v H. unfold convert_white_noise_texture_node in H.
      rewrite Ha, bind_ret, Hdims, bind_ret in H. minv H. injection H as <-.
      eexists. split; [done|].
      eapply with_w_and_vector_gates; [| |eassumption]; reflexivity.
    + intros Hg. unfold convert_white_noise_texture_node.
      rewrite Ha, bind_ret, Hdims, bind_ret.
      edestruct (with_w_and_vector_returns conv ctx (out_node out) dims) as [p Hp]; [done|].
      eexists. by rewrite (result_bind_inr _ _ p Hp).
  - intros Ha He. unfold convert_noise_texture_node. rewrite He. cbn [negb].
    rewrite Ha, bind_ret, Hdims, bind_ret. split.
    + intros v H. minv H. injection H as <-.
      eexists. split; [done|].
      eapply with_w_and_vector_gates; [| |eassumption]; reflexivity.
    + intros Hg Hin [n Hn]. convert_all. rewrite Hn, bind_ret.
      edestruct (with_w_and_vector_returns conv ctx (out_node out) dims) as [p Hp]; [done|].
      eexists. by rewrite (result_bind_inr _ _ p Hp).
  - intros Ha He. unfold convert_voronoi_texture_node. rewrite He. cbn [negb].
    rewrite Ha, bind_ret, Hdims, bind_ret. split.
    + intros v H. minv H. injection H as <-.
      eexists. split; [done|].
      match goal with
      | Hp : result (if String.eqb ?f "smooth f1" then _ else _) = inr _ |- _ =>
          destruct (String.eqb f "smooth f1"); [minv Hp|]; injection Hp as <-
      end.
      * eapply with_w_and_vector_gates; [| |eassumption];
          first [reflexivity | by rewrite dict_has_insert_ne].
      * eapply with_w_and_vector_gates; [| |eassumption]; reflexivity.
    + intros Hg Hin feature distance Hf Hd Hsm. convert_all.
      unfold str_attr in Hf, Hd. rewrite Hf, Hd. unfold str_lower. rewrite !bind_ret.
      destruct (String.eqb_spec (replace_char "_" " " (lower feature)) "smooth f1") as [E|_].
      * destruct (convert_input_converts _ _ _ _ (Hsm E)) as [sm Hcs].
        erewrite (result_bind_inr (_ ≫= _)) by (by rewrite (result_bind_inr _ _ sm Hcs)).
        edestruct (with_w_and_vector_returns conv ctx (out_node out) dims) as [p Hp]; [done|].
        eexists. by rewrite (result_bind_inr _ _ p Hp).
      * rewrite bind_ret.
        edestruct (with_w_and_vector_returns conv ctx (out_node out) dims) as [p Hp]; [done|].
        eexists. by rewrite (result_bind_inr _ _ p Hp).
  - intros Ha He. unfold convert_musgrave_texture_node. rewrite He. cbn [negb].
    rewrite Ha, bind_ret, Hdims, bind_ret. split.
    + intros v H. minv H. injection H as <-.
      eexists. split; [done|].
      eapply with_w_and_vector_gates; [| |eassumption]; reflexivity.
    + intros Hg Hin musgrave_type Hm.
      unfold str_attr in Hm. rewrite Hm. unfold str_lower. rewrite !bind_ret.
      convert_all.
      edestruct (with_w_and_vector_returns conv ctx (out_node out) dims) as [p Hp]; [done|].
      eexists. by rewrite (result_bind_inr _ _ p Hp).
Qed.

End DimensionsClaim.

(* --------------------------------------------------------------------- *)
(*  Capability flags                                                      *)
(* --------------------------------------------------------------------- *)

Section FlagsClaim.
Context `{FL : Float64}.
Import Py Bpy Scene Spec Textures.

Lemma dummy_color_value ctx :
  dummy_color ctx = mret (PList [PFloat (f_lit 0.0); PFloat (f_lit 1.0); PFloat (f_lit 0.3)]).
Proof. reflexivity. Qed.

Lemma mid_gray_value : color (PFloat (f_lit 0.5)) = mret (PFloat (f_lit 0.5)).
Proof. reflexivity. Qed.

(** C7, as amended.  For every kind of the dispatch table that a
    capability flag guards, except the mapping node, the converter of a
    disabled kind returns the scalar 0.5 or the dummy color: it does not
    fail, reports nothing and converts none of the node's inputs (it
    returns the same whatever [conv], the conversion of the inputs, would
    do).  The converter of a disabled mapping node returns [None]. *)
Theorem disabled_kind_substitute conv ctx out kind flag f :
  (kind, flag) ∈ gates -> flag ctx = false ->
  find (fun kv => String.eqb (fst kv) kind) (texture_converters conv) = Some (kind, f) ->
  if String.eqb kind "ShaderNodeMapping" then f ctx out = mret PNone
  else exists v, neutral_substitute v /\ f ctx out = mret v.
Proof.
  intros Hin Hflag Hfind. unfold gates in Hin.
  repeat (apply elem_of_cons in Hin as [[= -> ->] | Hin];
          [ cbv [find texture_converters fst String.eqb Ascii.eqb Bool.eqb] in Hfind;
            injection Hfind as <-; cbn [String.eqb Ascii.eqb Bool.eqb];
            first
              [ unfold convert_mapping_node; by rewrite Hflag
              | eexists; split;
                [ | cbv beta delta
                        [convert_blackbody_node convert_brick_texture_node convert_clamp_node
                         convert_checker_texture_node convert_coord_texture_node
                         convert_fresnel_node convert_layer_weight_node convert_mix_rgb_node
                         convert_mix_node convert_musgrave_texture_node
                         convert_noise_texture_node convert_voronoi_texture_node
                         convert_wave_texture_node convert_wavelength_node
                         convert_wireframe_texture_node convert_val_to_rgb_node
                         convert_separate_node convert_gradient_node convert_math_node];
                    rewrite Hflag; cbn [negb];
                    first [apply dummy_color_value | apply mid_gray_value] ];
                first [by left | by right] ]
          | ]).
  by apply elem_of_nil in Hin.
Qed.

End FlagsClaim.

(* --------------------------------------------------------------------- *)
(*  Two-sided and normal/bump adapters                                    *)
(* --------------------------------------------------------------------- *)

Section Adapters.
Context `{FL : Float64}.
Import Py Bpy Scene Spec Materials.

Lemma make_two_sided_result ctx bsdf d :
  force_two_sided ctx = true -> result (make_two_sided ctx bsdf) = inr d ->
  d = [("type", PStr "two sided"); ("both sides", PDict bsdf)].
Proof.
  unfold make_two_sided. intros -> H. minv H. by injection H as <-.
Qed.

Lemma diffuse_two_sided conv ctx node d :
  force_two_sided ctx = true -> result (convert_diffuse_material conv ctx node) = inr d ->
  exists bsdf, d = [("type", PStr "two sided"); ("both sides", PDict bsdf)].
Proof.
  unfold convert_diffuse_material. intros Hf H. minv H.
  eauto using make_two_sided_result.
Qed.

Lemma glossy_two_sided conv ctx node d :
  force_two_sided ctx = true -> result (convert_glossy_material conv ctx node) = inr d ->
  exists bsdf, d = [("type", PStr "two sided"); ("both sides", PDict bsdf)].
Proof.
  unfold convert_glossy_material. intros Hf H.
  apply result_bind_inv_inr in H as (r & _ & H). cbv beta in H.
  apply result_bind_inv_inr in H as (p & _ & H). cbv beta in H.
  eauto using make_two_sided_result.
Qed.

(** The converters that end with [make_two_sided]. *)
Lemma surface_two_sided t conv fl rec ctx node kind f d :
  kind ∈ ["ShaderNodeBsdfDiffuse"; "ShaderNodeBsdfGlossy"; "ShaderNodeBsdfAnisotropic"] ->
  find (fun kv => String.eqb (fst kv) kind) (surface_converters t conv fl rec) = Some (kind, f) ->
  force_two_sided ctx = true -> result (f ctx node) = inr d ->
  exists bsdf, d = [("type", PStr "two sided"); ("both sides", PDict bsdf)].
Proof.
  intros Hk Hf Hts H.
  repeat (apply elem_of_cons in Hk as [-> | Hk];
          [ cbv [find surface_converters fst String.eqb Ascii.eqb Bool.eqb] in Hf;
            injection Hf as <-; eauto using diffuse_two_sided, glossy_two_sided | ]).
  by apply elem_of_nil in Hk.
Qed.

Lemma surface_converters_kind t conv fl rec kind kv :
  find (fun kv => String.eqb (fst kv) kind) (surface_converters t conv fl rec) = Some kv ->
  fst kv = kind.
Proof. intros [_ H]%find_some. by apply String.eqb_eq in H. Qed.

(** The adapter stage on a two-sided descriptor. *)
Lemma wrap_two_sided t conv fl ctx node ns n name bsdf d :
  input node "Normal" = mret ns -> is_linked ns = true ->
  result (linked_node t fl ns) = inr n ->
  (bl_idname n = "ShaderNodeNormalMap" /\ use_normal_maps ctx = true) \/
  (bl_idname n = "ShaderNodeBump" /\ use_bump_maps ctx = true) ->
  result (wrap_with_bump_or_normal_map t conv fl ctx node
            (dict_update
               match name with
               | Some name => <["name" := PStr (material_name name)]> []
               | None => []
               end
               [("type", PStr "two sided"); ("both sides", PDict bsdf)])) = inr d ->
  two_sided_innermost d.
Proof.
  intros Hn Hl Hln Hkind. unfold wrap_with_bump_or_normal_map.
  assert (use_normal_maps ctx || use_bump_maps ctx = true) as ->.
  { destruct Hkind as [[_ ->] | [_ ->]]; [done | apply orb_true_r]. }
  rewrite (input_has_input _ _ _ Hn). cbn [andb]. mrun.
  destruct Hkind as [[Hid Hflag] | [Hid Hflag]]; rewrite Hid, Hflag;
    cbn [String.eqb Ascii.eqb Bool.eqb negb]; intros H; minv H;
    try (match type of H with
         | result (if ?b then _ else _) = _ => destruct b; [discriminate H|]
         end; minv H);
    destruct name;
    cbn [dict_update fold_left insert dict_insert dict_set dict_lookup dict_remove
         String.eqb Ascii.eqb Bool.eqb fst snd] in H;
    minv H; injection H as <-; (split; [|eexists; split]);
    first [by left | by right | reflexivity].
Qed.

End Adapters.

Section AdaptersClaim.
Context `{FL : Float64}.
Import Py Bpy Scene Spec Materials.

(** C1, as amended.  The two-sided adapter is applied by the diffuse and
    glossy converters themselves, the normal-map or bump-map adapter by
    [cycles_surface_to_dict] afterwards.  So for a diffuse or glossy node
    with the two-sided capability enabled and a normal-map or bump node
    (its capability enabled) on the Normal input, the descriptor returned
    has the normal-map or bump-map adapter as its outermost layer and the
    two-sided adapter immediately inside it, under "nested". *)
Theorem wrap_order depth t ctx node name ns n d :
  bl_idname node ∈ ["ShaderNodeBsdfDiffuse"; "ShaderNodeBsdfGlossy";
                    "ShaderNodeBsdfAnisotropic"] ->
  force_two_sided ctx = true ->
  input node "Normal" = mret ns -> is_linked ns = true ->
  result (linked_node t (follow_link depth t) ns) = inr n ->
  (bl_idname n = "ShaderNodeNormalMap" /\ use_normal_maps ctx = true) \/
  (bl_idname n = "ShaderNodeBump" /\ use_bump_maps ctx = true) ->
  result (cycles_surface_to_dict (S depth) t ctx node name) = inr d ->
  two_sided_innermost d.
Proof.
  intros Hkind Hts Hn Hl Hln Hnk H.
  cbn [cycles_surface_to_dict] in H. unfold surface_to_dict in H.
  apply result_bind_inv_inr in H as (p & Hp & H). cbv beta in H.
  destruct (find _ (surface_converters _ _ _ _)) as [[kind f]|] eqn:Hf; [|done].
  pose proof (surface_converters_kind _ _ _ _ _ _ Hf) as Hk. cbn [fst] in Hk. subst kind.
  rewrite result_info_then in Hp. cbn [snd] in Hp. minv Hp. injection Hp as <-.
  match goal with
  | Hd : result (f ctx node) = inr ?d0 |- _ =>
      destruct (surface_two_sided _ _ _ _ _ _ _ _ _ Hkind Hf Hts Hd) as [bsdf ->]
  end.
  by eapply wrap_two_sided.
Qed.

End AdaptersClaim.

(* --------------------------------------------------------------------- *)
(*  The named boundary: [convert_material]                                *)
(* --------------------------------------------------------------------- *)

Section Boundary.
Context `{FL : Float64}.
Import Py Bpy Scene Spec Materials.

Lemma get_dummy_material_value ctx name :
  get_dummy_material ctx (Some name) =
  mret [("type", PStr "diffuse");
        ("color", PList [PFloat (f_lit 1.0); PFloat (f_lit 0.0); PFloat (f_lit 0.3)]);
        ("name", PStr (material_name name))].
Proof. reflexivity. Qed.

Lemma color_items_not_unsupported l m :
  result (color_items l) <> inl (NotImplementedError m).
Proof.
  unfold color_items.
  destruct (existsb _ l); [done|]. destruct (mixed_types l); [done|].
  destruct l as [|x l]; [done|].
  unfold index. cbn [lookup list_lookup]. rewrite bind_ret.
  destruct (is_number x); [|done].
  destruct (_ || _); [done|]. by destruct (bool_decide _).
Qed.

Lemma color_not_unsupported v m : result (color v) <> inl (NotImplementedError m).
Proof.
  destruct v; unfold color; cbn [is_number as_num py_list];
    rewrite ?bind_ret, ?bind_raise; try done; apply color_items_not_unsupported.
Qed.

Lemma convert_material_not_unsupported depth ctx b_mat m :
  result (convert_material depth ctx b_mat) <> inl (NotImplementedError m).
Proof.
  unfold convert_material. destruct (use_nodes b_mat).
  - unfold try_except_NotImplementedError.
    by destruct (convert_material_body depth ctx b_mat) as [[[]|r] l].
  - rewrite get_dummy_material_value, bind_ret. intros H.
    apply result_bind_inv_inl in H as [H | (c & _ & H)]; [|done].
    by apply color_not_unsupported in H.
Qed.

Lemma outcome_bind_inv_inl {A B} (x : X A) (k : A -> X B) st e :
  outcome ((x ≫= k) st) = inl e ->
  outcome (x st) = inl e \/
  exists a, outcome (x st) = inr a /\ outcome (k a (final (x st))) = inl e.
Proof.
  destruct (outcome (x st)) as [e'|a] eqn:E.
  - rewrite (outcome_bind_inl _ _ _ _ E). intros [= ->]. auto.
  - rewrite (outcome_bind_inr _ _ _ _ E). eauto.
Qed.

Lemma for_each_not_unsupported {A} (l : list A) (body : A -> X unit) m :
  (forall x st, outcome (body x st) <> inl (NotImplementedError m)) ->
  forall st, outcome (for_each l body st) <> inl (NotImplementedError m).
Proof.
  intros Hbody. induction l as [|x l IH]; intros st; [done|].
  cbn [for_each]. intros [H | (a & _ & H)]%outcome_bind_inv_inl.
  - by apply Hbody in H.
  - by apply IH in H.
Qed.

Lemma export_material_not_unsupported depth ctx mat st m :
  outcome (export_material depth ctx mat st) <> inl (NotImplementedError m).
Proof.
  unfold export_material. destruct mat as [mat|]; [|done].
  destruct (_ || _).
  { rewrite outcome_lift, result_info. done. }
  rewrite outcome_get_then. destruct (bool_decide _).
  { rewrite outcome_lift, result_info. done. }
  rewrite outcome_info_then, outcome_modify_then.
  intros [H | ([mp md] & _ & H)]%outcome_bind_inv_inl.
  - rewrite outcome_lift in H. by apply convert_material_not_unsupported in H.
  - rewrite !outcome_modify_then in H. destruct md as [md|]; [|done].
    by destruct (truthy _).
Qed.

Lemma export_not_unsupported depth ctx data meshes st m :
  outcome (export depth ctx data meshes st) <> inl (NotImplementedError m).
Proof.
  unfold export. rewrite outcome_info_then, outcome_modify_then.
  destruct (String.eqb (material_mode ctx) "DIFFUSE").
  - apply for_each_not_unsupported. intros mat st'.
    destruct (_ || _); [done|].
    rewrite outcome_info_then, get_dummy_material_value.
    by intros [H | (a & _ & H)]%outcome_bind_inv_inl.
  - destruct (String.eqb (material_mode ctx) "CONVERT"); [|done].
    apply for_each_not_unsupported. intros mesh st'.
    destruct (data_materials mesh) as [[|mat mats]|]; [done| |done].
    rewrite outcome_info_then.
    apply for_each_not_unsupported. intros.
    apply export_material_not_unsupported.
Qed.

End Boundary.

Section BoundaryClaim.
Context `{FL : Float64}.
Import Py Bpy Scene Spec Materials.

(** C2, as amended.  [convert_material] handles [NotImplementedError] and
    nothing else.  When the conversion of a material that uses nodes raises
    [NotImplementedError] (an unsupported node kind or configuration, a
    missing mix or add branch, no output node), [convert_material] reports
    one warning and returns the dummy diffuse placeholder with the
    material's name; any other exception, the [ValueError] of the value
    normalizer among them, leaves [convert_material] as it was raised, and
    a result is returned unchanged.  Hence neither [convert_material] nor
    [export] ever raises [NotImplementedError]. *)
Theorem named_boundary depth ctx :
  (forall b_mat, use_nodes b_mat = true ->
     match convert_material_body depth ctx b_mat with
     | (inl (NotImplementedError e), l) =>
         convert_material depth ctx b_mat =
         (inr ([("type", PStr "diffuse");
                ("color", PList [PFloat (f_lit 1.0); PFloat (f_lit 0.0); PFloat (f_lit 0.3)]);
                ("name", PStr (material_name (name_full b_mat)))], None),
          l ++ [Report "WARNING"
                  ([Lit "Export of material '"; Val (PStr (name_full b_mat));
                    Lit "' failed: "] ++ e ++
                   [Lit ". Exporting a dummy material instead."])])
     | (inl e, l) => convert_material depth ctx b_mat = (inl e, l)
     | (inr r, l) => convert_material depth ctx b_mat = (inr r, l)
     end) /\
  (forall b_mat m,
     result (convert_material depth ctx b_mat) <> inl (NotImplementedError m)) /\
  (forall data meshes st m,
     outcome (export depth ctx data meshes st) <> inl (NotImplementedError m)).
Proof.
  split; [|split].
  - intros b_mat Hun. unfold convert_material. rewrite Hun.
    unfold try_except_NotImplementedError.
    by destruct (convert_material_body depth ctx b_mat) as [[[]|r] l].
  - intros. apply convert_material_not_unsupported.
  - intros. apply export_not_unsupported.
Qed.

End BoundaryClaim.

(* --------------------------------------------------------------------- *)
(*  The conversion cache: [export]                                        *)
(* --------------------------------------------------------------------- *)

Section Cache.
Context `{FL : Float64}.
Import Py Bpy Scene Spec Materials.

Lemma keeps_once_ret c0 : keeps_once c0 (mret tt).
Proof. intros st H. left. by split. Qed.

Lemma keeps_once_info c0 ctx m : keeps_once c0 (lift (info ctx m)).
Proof.
  intros st H. left. split; [|done].
  rewrite outcome_lift. apply result_info.
Qed.

Lemma keeps_once_info_then c0 ctx m x :
  keeps_once c0 x -> keeps_once c0 (lift (info ctx m);; x).
Proof.
  intros Hx st H. rewrite outcome_info_then, final_info_then. by apply Hx.
Qed.

Lemma keeps_once_for_each {A} c0 (l : list A) (body : A -> X unit) :
  (forall x, keeps_once c0 (body x)) -> keeps_once c0 (for_each l body).
Proof.
  intros Hbody. induction l as [|x l IH]; [apply keeps_once_ret|].
  intros st H. cbn [for_each].
  destruct (Hbody x st H) as [[Ho Hi] | (e & Ho & Hc)].
  - rewrite (outcome_bind_inr _ _ _ _ Ho), (final_bind_inr _ _ _ _ Ho). by apply IH.
  - right. exists e. by rewrite (outcome_bind_inl _ _ _ _ Ho), (final_bind_inl _ _ _ _ Ho).
Qed.

Lemma emitted_not_converted c0 st k :
  emitted_once c0 st -> already_exported st !! k = None -> k ∉ conversions st.
Proof.
  intros H Hk Hin. apply list_elem_of_lookup in Hin as [i Hi].
  destruct (emitted_each _ _ H _ _ Hi) as (d & Hd & _). congruence.
Qed.

Lemma emitted_fresh c0 st k :
  emitted_once c0 st -> already_exported st !! k = None -> c0 !! k = None.
Proof.
  intros H Hk. destruct (c0 !! k) eqn:E; [|done].
  destruct (emitted_grows _ _ H k) as [d Hd]; [by eexists|]. congruence.
Qed.

(** The store when [convert_material] is called for the key [k]. *)
Lemma once_called c0 st k :
  emitted_once c0 st -> already_exported st !! k = None ->
  converted_once c0
    (Store (already_exported st) (materials st) (media st) (conversions st ++ [k])).
Proof.
  intros H Hk. destruct (emitted_converted _ _ H) as [Hnd Hfr Hb].
  split; cbn [conversions materials].
  - apply NoDup_app. split; [done|]. split; [|apply NoDup_singleton].
    intros x Hx ->%list_elem_of_singleton. by eapply emitted_not_converted.
  - intros x [Hx | ->%list_elem_of_singleton]%elem_of_app; [by apply Hfr|].
    by eapply emitted_fresh.
  - rewrite length_app. cbn [length]. lia.
Qed.

(** The store after the descriptor [d] of the key [k] is cached and emitted. *)
Lemma once_stored c0 st k d media' :
  emitted_once c0 st -> already_exported st !! k = None ->
  emitted_once c0
    (Store (<[k := d]> (already_exported st)) (materials st ++ [d]) media'
           (conversions st ++ [k])).
Proof.
  intros H Hk. pose proof (once_called _ _ _ H Hk) as [Hnd Hfr _].
  split; [split|..]; cbn [conversions materials already_exported] in *; try done.
  - rewrite !length_app. cbn [length]. pose proof (emitted_count _ _ H). lia.
  - intros x Hx. destruct (decide (k = x)) as [<- | Hne].
    + rewrite lookup_insert_eq. by eexists.
    + rewrite lookup_insert_ne by done. by apply (emitted_grows _ _ H).
  - rewrite !length_app. cbn [length]. pose proof (emitted_count _ _ H). lia.
  - intros i x Hi. pose proof (emitted_count _ _ H) as Hc.
    destruct (decide (i < length (conversions st))%nat) as [Hlt | Hge].
    + rewrite lookup_app_l in Hi by done.
      destruct (emitted_each _ _ H _ _ Hi) as (d' & Hd' & Hm).
      exists d'. split.
      * rewrite lookup_insert_ne; [done|]. intros <-. congruence.
      * rewrite lookup_app_l; [done|]. lia.
    + rewrite lookup_app_r in Hi by lia.
      destruct (i - length (conversions st))%nat as [|j] eqn:Ej; [|by destruct j].
      injection Hi as <-. exists d. split; [apply lookup_insert_eq|].
      rewrite lookup_app_r by lia.
      replace (S i - length (materials st))%nat with 0%nat by lia. done.
Qed.

Lemma keeps_once_export_material c0 depth ctx mat :
  keeps_once c0 (export_material depth ctx mat).
Proof.
  destruct mat as [mat|]; [|apply keeps_once_ret].
  intros st H. unfold export_material.
  destruct (_ || _); [by apply keeps_once_info|].
  rewrite outcome_get_then, final_get_then.
  destruct (bool_decide (is_Some (already_exported st !! mat_id mat))) eqn:Ecache;
    [by apply keeps_once_info|].
  apply bool_decide_eq_false in Ecache.
  assert (already_exported st !! mat_id mat = None) as Hk.
  { destruct (already_exported st !! mat_id mat) eqn:E; [|done]. destruct Ecache. by eexists. }
  rewrite outcome_info_then, final_info_then, outcome_modify_then, final_modify_then.
  destruct (result (convert_material depth ctx mat)) as [e | [mp md]] eqn:Ec.
  - right. exists e.
    rewrite (outcome_bind_inl _ _ _ _ (Ec : outcome (lift _ _) = _)).
    rewrite (final_bind_inl _ _ _ _ (Ec : outcome (lift _ _) = _)).
    split; [done|]. rewrite final_lift. by apply once_called.
  - left.
    rewrite (outcome_bind_inr _ _ _ _ (Ec : outcome (lift _ _) = _)).
    rewrite (final_bind_inr _ _ _ _ (Ec : outcome (lift _ _) = _)).
    rewrite final_lift, !outcome_modify_then, !final_modify_then.
    cbn [already_exported materials media conversions].
    destruct md as [md|]; [destruct (truthy (PDict md))|];
      (split; [reflexivity|]); by apply once_stored.
Qed.

End Cache.

Section CacheClaim.
Context `{FL : Float64}.
Import Py Bpy Scene Spec Materials.

Lemma keeps_once_mesh c0 depth ctx (mesh : object) :
  keeps_once c0
    match data_materials mesh with
    | None | Some [] => mret tt
    | Some mats =>
        lift (info ctx [Lit "Object '"; Val (PStr (object_name_full mesh));
                        Lit "' of type '"; Val (PStr (object_type mesh)); Lit "' has ";
                        Val (PInt (Z.of_nat (length mats))); Lit " materials."]);;
        for_each mats (export_material depth ctx)
    end.
Proof.
  destruct (data_materials mesh) as [[|mat mats]|]; try apply keeps_once_ret.
  apply keeps_once_info_then, keeps_once_for_each.
  intros. apply keeps_once_export_material.
Qed.

(** C3.  In a run of [export] that converts materials, [convert_material]
    is called at most once for a key: the keys of the calls are pairwise
    different, and none of them was in the cache when the run started.  A
    material whose key is in the cache is skipped: the store is left as it
    is.  A used material whose key is not in the cache is converted, and
    when the conversion returns its descriptor is stored under the key and
    appended to the materials.  So the materials list never holds more
    than the default material and one descriptor per call, and when the
    run returns it holds, after the default material, exactly the cached
    descriptor of each converted key. *)
Theorem converts_at_most_once depth ctx data meshes st :
  material_mode ctx = "CONVERT" -> conversions st = [] ->
  let run := export depth ctx data meshes st in
  NoDup (conversions (final run)) /\
  (forall k, k ∈ conversions (final run) -> already_exported st !! k = None) /\
  (length (materials (final run)) <= S (length (conversions (final run))))%nat /\
  (outcome run = inr tt ->
     length (materials (final run)) = S (length (conversions (final run))) /\
     forall i k, conversions (final run) !! i = Some k ->
       exists d, already_exported (final run) !! k = Some d /\
                 materials (final run) !! S i = Some d) /\
  (forall mat st1, is_Some (already_exported st1 !! mat_id mat) ->
     outcome (export_material depth ctx (Some mat) st1) = inr tt /\
     final (export_material depth ctx (Some mat) st1) = st1) /\
  (forall mat st1,
     name_full mat <> "Dots Stroke" -> users mat <> 0 ->
     already_exported st1 !! mat_id mat = None ->
     conversions (final (export_material depth ctx (Some mat) st1))
     = conversions st1 ++ [mat_id mat] /\
     forall mp md, result (convert_material depth ctx mat) = inr (mp, md) ->
       already_exported (final (export_material depth ctx (Some mat) st1))
       = <[mat_id mat := PDict mp]> (already_exported st1) /\
       materials (final (export_material depth ctx (Some mat) st1))
       = materials st1 ++ [PDict mp]).
Proof.
  intros Hmode Hconv run.
  assert ((outcome run = inr tt /\ emitted_once (already_exported st) (final run)) \/
          (exists e, outcome run = inl e /\ converted_once (already_exported st) (final run)))
    as Hrun.
  { subst run. unfold export.
    rewrite outcome_info_then, final_info_then, outcome_modify_then, final_modify_then.
    rewrite Hmode.
    change (String.eqb "CONVERT" "DIFFUSE") with false.
    change (String.eqb "CONVERT" "CONVERT") with true. cbv iota.
    apply keeps_once_for_each; [intros; apply keeps_once_mesh|].
    rewrite Hconv. split; [split|..]; cbn [conversions materials already_exported length];
      try done.
    - apply NoDup_nil_2.
    - intros k Hk. by apply elem_of_nil in Hk. }
  assert (converted_once (already_exported st) (final run)) as [Hnd Hfr Hb].
  { destruct Hrun as [[_ H] | (e & _ & H)]; [apply H | done]. }
  split; [done|]. split; [done|]. split; [done|]. split; [|split].
  - intros Hr. destruct Hrun as [[_ H] | (e & He & _)]; [|congruence].
    split; [apply H|]. apply H.
  - intros mat st1 Hc. unfold export_material.
    destruct (_ || _).
    { split; [apply result_info | done]. }
    rewrite outcome_get_then, final_get_then, bool_decide_eq_true_2 by done.
    split; [apply result_info | done].
  - intros mat st1 Hname Husers Hk. unfold export_material.
    apply String.eqb_neq in Hname. apply Z.eqb_neq in Husers.
    rewrite Hname, Husers. cbn [orb].
    rewrite final_get_then, Hk, bool_decide_eq_false_2 by (by intros [? ?]).
    rewrite final_info_then, final_modify_then.
    destruct (result (convert_material depth ctx mat)) as [e | [mp' md']] eqn:Ec.
    + rewrite (final_bind_inl _ _ _ _ (Ec : outcome (lift _ _) = _)).
      split; [done|]. intros; congruence.
    + rewrite (final_bind_inr _ _ _ _ (Ec : outcome (lift _ _) = _)).
      rewrite final_lift, !final_modify_then.
      cbn [already_exported materials media conversions].
      destruct md' as [md'|]; [destruct (truthy (PDict md'))|];
        (split; [done|]); by intros ? ? [= <- <-].
Qed.

End CacheClaim.

(* ===================================================================== *)
(*  Further properties of the translated functions                        *)
(* ===================================================================== *)

(* --------------------------------------------------------------------- *)
(*  scene.py: names, colors, links, transforms                            *)
(* --------------------------------------------------------------------- *)

Section Writer.
Context `{FL : Float64}.
Import Py Bpy Scene Spec Textures.

Lemma replace_char_absent a b s :
  a <> b -> has_char a (replace_char a b s) = false.
Proof.
  intros Hne. induction s as [|c s IH]; [done|].
  cbn [replace_char has_char]. rewrite IH, orb_false_r.
  destruct (Ascii.eqb_spec c a) as [-> | Hc].
  - by apply Ascii.eqb_neq.
  - by apply Ascii.eqb_neq.
Qed.

Lemma replace_char_length a b s :
  String.length (replace_char a b s) = String.length s.
Proof. induction s as [|c s IH]; [done|]. cbn [replace_char String.length]. by rewrite IH. Qed.

Lemma replace_char_fixed a b s :
  has_char a s = false -> replace_char a b s = s.
Proof.
  induction s as [|c s IH]; [done|]. cbn [has_char replace_char].
  intros [Hc Hs]%orb_false_iff. by rewrite Hc, IH.
Qed.

(** X1.  The name under which a material is written has no space, is as
    long as the Blender name, and is left as it is by a second pass. *)
Theorem material_name_underscores b_name :
  has_char " " (material_name b_name) = false /\
  String.length (material_name b_name) = String.length b_name /\
  material_name (material_name b_name) = material_name b_name.
Proof.
  unfold material_name. split; [|split].
  - by apply replace_char_absent.
  - apply replace_char_length.
  - by apply replace_char_fixed, replace_char_absent.
Qed.

Lemma existsb_take {A} (f : A -> bool) n l :
  existsb f l = false -> existsb f (take n l) = false.
Proof.
  revert n. induction l as [|x l IH]; intros [|n]; try done.
  cbn [existsb take]. intros [-> H]%orb_false_iff. by rewrite IH.
Qed.

Lemma mixed_types_take n l : mixed_types l = false -> mixed_types (take n l) = false.
Proof.
  revert n. induction l as [|x [|y l] IH]; intros [|[|n]] H; try done.
  cbn [mixed_types] in H. apply orb_false_iff in H as [Hxy H].
  change (take (S (S n)) (x :: y :: l)) with (x :: take (S n) (y :: l)).
  specialize (IH (S n) H). cbn [take] in *. cbn [mixed_types]. by rewrite Hxy.
Qed.

Lemma index_result {A} (l : list A) i x : result (index l i) = inr x -> l !! i = Some x.
Proof. unfold index. destruct (l !! i); by intros [= ->]. Qed.

(** X2.  [color] is idempotent: what it returns, it returns unchanged. *)
Theorem color_idempotent v r : result (color v) = inr r -> color r = mret r.
Proof.
  unfold color at 1. destruct (is_number v) eqn:Hv.
  - intros [= <-]. unfold color. by rewrite Hv.
  - intros H. apply result_bind_inv_inr in H as (l & Hl & H). cbv beta in H.
    destruct (existsb _ l) eqn:Hk; [done|]. destruct (mixed_types l) eqn:Hm; [done|].
    apply result_bind_inv_inr in H as (v0 & H0 & H). cbv beta in H.
    apply index_result in H0.
    destruct (is_number v0) eqn:Hn0.
    + destruct (_ || _) eqn:Hlen.
      * injection H as <-. unfold color. cbn [is_number as_num py_list]. rewrite bind_ret.
        rewrite existsb_take, mixed_types_take by done.
        destruct l as [|x0 [|x1 [|x2 l]]]; try done.
        injection H0 as ->. unfold index. cbn [take lookup list_lookup length].
        rewrite bind_ret, Hn0. reflexivity.
      * destruct (bool_decide (length l = 1%nat)); [|done].
        injection H as <-. unfold color. by rewrite Hn0.
    + injection H as <-. reflexivity.
Qed.

Lemma link0_result s l : result (link0 s) = inr l -> link0 s = mret l.
Proof. unfold link0, index. destruct (_ !! _); by intros [= ->]. Qed.

Lemma get_node_result t nm n : result (get_node t nm) = inr n -> get_node t nm = mret n.
Proof. unfold get_node. destruct (find _ _); by intros [= ->]. Qed.

(** X3.  The socket [follow_link] returns is not driven by a reroute node:
    following it again, at any call depth that allows one call, returns
    it. *)
Theorem follow_link_stable depth t s s' :
  result (follow_link depth t s) = inr s' ->
  forall depth', follow_link (S depth') t s' = mret s'.
Proof.
  revert s. induction depth as [|depth IH]; intros s H depth'; [done|].
  cbn [follow_link] in H. destruct (is_linked s) eqn:Hl.
  - apply result_bind_inv_inr in H as (l & Hl0 & H). cbv beta in H.
    apply result_bind_inv_inr in H as (n & Hn & H). cbv beta in H.
    destruct (String.eqb (bl_idname n) "NodeReroute") eqn:Hb.
    + apply result_bind_inv_inr in H as (s1 & Hs1 & H). by eapply IH.
    + injection H as <-. cbn [follow_link].
      by rewrite Hl, (link0_result _ _ Hl0), bind_ret, (get_node_result _ _ _ Hn), bind_ret, Hb.
  - injection H as <-. cbn [follow_link]. by rewrite Hl.
Qed.


(** X4.  The transform list of [LRS_matrix] is always in the order scale,
    rotation about x, y and z, translation; each of the three parts is
    there exactly when the component differs from the identity, and the
    scale and translate entries hold the component as it was given. *)
Theorem LRS_matrix_order ctx loc rot sca ps :
  result (LRS_matrix ctx loc rot sca) = inr ps ->
  exists (bs br bl : bool) vs dx dy dz vl,
    result (differs_from sca 1) = inr bs /\
    result (differs_from rot 0) = inr br /\
    result (differs_from loc 0) = inr bl /\
    (bs = true -> result (slice_all sca) = inr vs) /\
    (bl = true -> result (slice_all loc) = inr vl) /\
    ps = PList ((if bs then [PDict [("scale", vs)]] else []) ++
                (if br then [PDict [("rotate", PTuple [dx; PInt 1; PInt 0; PInt 0])];
                             PDict [("rotate", PTuple [dy; PInt 0; PInt 1; PInt 0])];
                             PDict [("rotate", PTuple [dz; PInt 0; PInt 0; PInt 1])]]
                 else []) ++
                (if bl then [PDict [("translate", vl)]] else [])).
Proof.
  unfold LRS_matrix. intros H. minv H. injection H as <-.
  exists a2, a4, a6.
  destruct a2, a4, a6; minv Ha3; minv Ha5; minv Ha7;
    injection Ha3 as <-; injection Ha5 as <-; injection Ha7 as <-.
  all: first [do 5 eexists | eexists; exists PNone, PNone, PNone; eexists].
  all: repeat (split; [first [eassumption | by intros _; eassumption | by intros [=]]|]).
  all: reflexivity.
  Unshelve. all: exact PNone.
Qed.

End Writer.

(* --------------------------------------------------------------------- *)
(*  materials.py: names, placeholders, modes                              *)
(* --------------------------------------------------------------------- *)

Section Naming.
Context `{FL : Float64}.
Import Py Bpy Scene Spec Materials.

Lemma try_except_inv_inr {A} (body : M A) (handler : msg -> M A) x :
  result (try_except_NotImplementedError body handler) = inr x ->
  result body = inr x \/
  exists m, result body = inl (NotImplementedError m) /\ result (handler m) = inr x.
Proof.
  destruct body as [[e|a] l]; [|by left].
  destruct e; try done. unfold try_except_NotImplementedError, result.
  destruct (handler m) as [r l'] eqn:E. simpl. intros ->. right. exists m. by rewrite E.
Qed.

Lemma dict_lookup_insert k v (d : list (string * pyval)) :
  dict_lookup k (<[k := v]> d) = Some v.
Proof.
  unfold insert, dict_insert.
  induction d as [|[k' v'] d IH]; cbn [dict_set dict_lookup].
  - by rewrite String.eqb_refl.
  - destruct (String.eqb k k') eqn:E; cbn [dict_lookup]; by rewrite E.
Qed.

Lemma dict_lookup_insert_ne k k' v (d : list (string * pyval)) :
  k <> k' -> dict_lookup k (<[k' := v]> d) = dict_lookup k d.
Proof.
  intros Hne. unfold insert, dict_insert.
  induction d as [|[k'' v''] d IH]; cbn [dict_set dict_lookup].
  - apply String.eqb_neq in Hne. by rewrite Hne.
  - destruct (String.eqb k' k'') eqn:E; cbn [dict_lookup].
    + apply String.eqb_eq in E as <-. apply String.eqb_neq in Hne. by rewrite Hne.
    + destruct (String.eqb k k''); [done|]. apply IH.
Qed.

Lemma dict_lookup_update_absent k (d e : list (string * pyval)) :
  dict_lookup k e = None -> dict_lookup k (dict_update d e) = dict_lookup k d.
Proof.
  unfold dict_update. revert d. induction e as [|[k' v'] e IH]; intros d; [done|].
  cbn [dict_lookup fold_left fst snd]. destruct (String.eqb k k') eqn:E; [done|].
  intros H. rewrite (IH _ H). apply (dict_lookup_insert_ne k k' v' d).
  by apply String.eqb_neq.
Qed.

Lemma has_char_app c a b :
  Textures.has_char c (a +:+ b) = Textures.has_char c a || Textures.has_char c b.
Proof.
  induction a as [|x a IH]; [done|].
  simpl. by rewrite IH, orb_assoc.
Qed.

Lemma volume_converter_unnamed ctx node kv d :
  find (fun kv => String.eqb (fst kv) (bl_idname node)) volume_converters = Some kv ->
  result (snd kv ctx node) = inr d -> dict_lookup "name" d = None.
Proof.
  cbn [find volume_converters fst].
  destruct (String.eqb "ShaderNodeVolumeScatter" (bl_idname node)).
  { intros [= <-]. cbn [snd]. unfold convert_volume_scatter_node. intros H. minv H.
    destruct a0; [done|]. minv H. by injection H as <-. }
  destruct (String.eqb "ShaderNodeVolumeAbsorption" (bl_idname node)).
  { intros [= <-]. cbn [snd]. unfold convert_volume_absorption_node. intros H. minv H.
    destruct a0; [done|]. minv H. by injection H as <-. }
  destruct (String.eqb "ShaderNodeVolumePrincipled" (bl_idname node)); [|done].
  intros [= <-]. cbn [snd]. unfold convert_volume_vdb_node. intros H. minv H.
  destruct a1; [done|]. minv H. by injection H as <-.
Qed.

Lemma volume_named ctx node n d :
  result (cycles_volume_to_dict ctx node (Some n)) = inr d ->
  dict_lookup "name" d = Some (PStr (material_name n)).
Proof.
  unfold cycles_volume_to_dict. rewrite result_info_then.
  destruct (find _ volume_converters) as [kv|] eqn:Hf; [|done].
  rewrite result_info_then. intros H. minv H. injection H as <-.
  pose proof (volume_converter_unnamed _ _ _ _ Hf Ha) as Hn.
  by rewrite (dict_lookup_update_absent _ _ _ Hn).
Qed.

Lemma volume_name_differs n :
  material_name (n +:+ " volume") <> n +:+ " volume".
Proof.
  intros H. apply (f_equal (Textures.has_char " ")) in H.
  unfold material_name in H. rewrite replace_char_absent in H by done.
  rewrite has_char_app in H. cbn [Textures.has_char Ascii.eqb Bool.eqb] in H.
  by rewrite orb_true_r in H.
Qed.


(** X5.  When [convert_material] returns a medium, the material refers to
    it as "<name> volume" while the medium itself is named by
    [material_name], which turns the space into an underscore: the
    reference under "interior medium" is never the medium's "name". *)
Theorem interior_medium_dangles depth ctx b_mat mat medium :
  result (convert_material depth ctx b_mat) = inr (mat, Some medium) ->
  dict_lookup "interior medium" mat = Some (PStr (name_full b_mat +:+ " volume")) /\
  dict_lookup "name" medium = Some (PStr (material_name (name_full b_mat +:+ " volume"))) /\
  material_name (name_full b_mat +:+ " volume") <> name_full b_mat +:+ " volume".
Proof.
  unfold convert_material. destruct (use_nodes b_mat).
  2:{ rewrite get_dummy_material_value, bind_ret. intros H. minv H. done. }
  intros [H | (m & _ & H)]%try_except_inv_inr.
  2:{ minv H. done. }
  unfold convert_material_body in H. destruct (negb _); [done|].
  minv H. destruct a3 as [mp md]. minv H. injection H as -> ->.
  destruct a2; [|done]. minv Ha3. injection Ha3 as <- <-.
  split; [apply dict_lookup_insert|]. split; [by eapply volume_named|].
  apply volume_name_differs.
Qed.

(** X6.  A material that does not use nodes is exported as the diffuse
    placeholder whose color is replaced by the material's viewport color,
    normalized by [color]; nothing is reported and there is no medium. *)
Theorem plain_material_color depth ctx b_mat c :
  use_nodes b_mat = false -> color (diffuse_color b_mat) = mret c ->
  convert_material depth ctx b_mat =
  mret ([("type", PStr "diffuse"); ("color", c);
         ("name", PStr (material_name (name_full b_mat)))], None).
Proof.
  intros Hn Hc. unfold convert_material.
  by rewrite Hn, get_dummy_material_value, bind_ret, Hc, bind_ret.
Qed.

(** X7.  A node material whose output node has neither Surface nor Volume
    linked is exported as a transparent material that carries no name. *)
Theorem unlinked_output_is_unnamed depth ctx b_mat out :
  use_nodes b_mat = true ->
  get_node (nodes b_mat) "Material Output" = mret out ->
  output_linked out "Surface" = mret false ->
  output_linked out "Volume" = mret false ->
  result (convert_material depth ctx b_mat) = inr ([("type", PStr "transparent")], None).
Proof.
  intros Hn Hout Hs Hv. unfold convert_material. rewrite Hn.
  assert (result (convert_material_body depth ctx b_mat)
          = inr ([("type", PStr "transparent")], None)) as Hb.
  { unfold convert_material_body.
    rewrite (get_node_has_node _ _ _ Hout). cbn [negb].
    rewrite Hout, bind_ret, Hs, !bind_ret, Hv, !bind_ret.
    destruct (output_linked out "Displacement") as [[e|b] l] eqn:Hd.
    - exfalso. revert Hd. unfold output_linked.
      destruct (has_input out "Displacement") eqn:Hi; [|done].
      unfold has_input, input in *. apply existsb_exists in Hi as (x & Hin & Hx).
      destruct (find _ _) eqn:Hf; [done|].
      by rewrite (find_none _ _ Hf x Hin) in Hx.
    - rewrite (result_bind_inr _ _ b) by done. by rewrite result_warn_if_then. }
  unfold try_except_NotImplementedError, result in *.
  destruct (convert_material_body depth ctx b_mat) as [[e|r] l]; [done|]. done.
Qed.

End Naming.

Section Modes.
Context `{FL : Float64}.
Import Py Bpy Scene Spec Materials.

Lemma outcome_ret_then {A B} (a : A) (k : A -> X B) st :
  outcome ((lift (mret a) ≫= k) st) = outcome (k a st).
Proof. by rewrite (outcome_bind_inr _ _ _ a). Qed.

Lemma final_ret_then {A B} (a : A) (k : A -> X B) st :
  final ((lift (mret a) ≫= k) st) = final (k a st).
Proof. by rewrite (final_bind_inr _ _ _ a). Qed.

Lemma placeholders_loop ctx (data : list material) st :
  let run := for_each data (fun mat =>
      if String.eqb (name_full mat) "Dots Stroke" || Z.eqb (users mat) 0 then mret tt
      else
        lift (info ctx [Lit "Writing placeholder for material '";
                        Val (PStr (name_full mat)); Lit "'"]);;
        params ← lift (get_dummy_material ctx (Some (name_full mat)));
        modify (fun st => Store (already_exported st) (materials st ++ [PDict params])
                                (media st) (conversions st))) st in
  outcome run = inr tt /\
  final run = Store (already_exported st)
                    (materials st ++ map placeholder (List.filter used data))
                    (media st) (conversions st).
Proof.
  cbv zeta. revert st. induction data as [|mat data IH]; intros st.
  - cbn [for_each List.filter map]. rewrite app_nil_r. by destruct st.
  - cbn [for_each List.filter]. unfold used at 1.
    destruct (_ || _) eqn:Hu; cbn [negb].
    + rewrite (outcome_bind_inr _ _ _ tt), (final_bind_inr _ _ _ tt) by done. apply IH.
    + assert (forall st0,
        let body := (lift (info ctx [Lit "Writing placeholder for material '";
                                     Val (PStr (name_full mat)); Lit "'"]);;
                     params ← lift (get_dummy_material ctx (Some (name_full mat)));
                     modify (fun st => Store (already_exported st)
                                             (materials st ++ [PDict params])
                                             (media st) (conversions st))) st0 in
        outcome body = inr tt /\
        final body = Store (already_exported st0) (materials st0 ++ [placeholder mat])
                           (media st0) (conversions st0)) as Hbody.
      { intros st0. cbv zeta. rewrite outcome_info_then, final_info_then.
        rewrite get_dummy_material_value.
        by rewrite outcome_ret_then, final_ret_then. }
      destruct (Hbody st) as [Ho Hf].
      rewrite (outcome_bind_inr _ _ _ tt Ho), (final_bind_inr _ _ _ tt Ho).
      rewrite Hf. destruct (IH (Store (already_exported st) (materials st ++ [placeholder mat])
                                  (media st) (conversions st))) as [Ho' Hf'].
      split; [done|]. rewrite Hf'. cbn [already_exported materials media conversions map].
      by rewrite <- app_assoc.
Qed.

(** X8.  In the mode DIFFUSE, [export] cannot fail; it returns the default
    material followed by one placeholder for every material of
    [bpy.data.materials] that is in use, in their order, and no medium; it
    converts nothing and leaves the cache as it was. *)
Theorem export_placeholders depth ctx data meshes st :
  material_mode ctx = "DIFFUSE" ->
  outcome (export depth ctx data meshes st) = inr tt /\
  final (export depth ctx data meshes st) =
  Store (already_exported st) (default_material :: map placeholder (List.filter used data))
        [] (conversions st).
Proof.
  intros Hmode. unfold export.
  rewrite outcome_info_then, final_info_then, outcome_modify_then, final_modify_then, Hmode.
  change (String.eqb "DIFFUSE" "DIFFUSE") with true. cbv iota.
  apply (placeholders_loop ctx data).
Qed.

(** X9.  In a mode that is neither DIFFUSE nor CONVERT, [export] returns
    the default material alone and no medium, whatever the scene holds. *)
Theorem export_default_only depth ctx data meshes st :
  material_mode ctx <> "DIFFUSE" -> material_mode ctx <> "CONVERT" ->
  outcome (export depth ctx data meshes st) = inr tt /\
  final (export depth ctx data meshes st) =
  Store (already_exported st) [default_material] [] (conversions st).
Proof.
  intros Hd%String.eqb_neq Hc%String.eqb_neq. unfold export.
  rewrite outcome_info_then, final_info_then, outcome_modify_then, final_modify_then.
  by rewrite Hd, Hc.
Qed.

End Modes.

Section Glossy.
Context `{FL : Float64}.
Import Py Bpy Scene Spec Materials.

(** X11.  In the glossy modes blinn-phong and phong, an unconnected
    Roughness whose fourth power is zero makes the glossy converter divide
    by zero: it raises [ZeroDivisionError], and so does
    [cycles_surface_to_dict] on a glossy or anisotropic node. *)
Theorem phong_zero_roughness depth t ctx node name rs x :
  glossy_mode ctx = "blinn-phong" \/ glossy_mode ctx = "phong" ->
  input node "Roughness" = mret rs -> links rs = [] -> default_value rs = Some (PFloat x) ->
  f_eqb (f_mul (f_pow x (f_of_int 2)) (f_pow x (f_of_int 2))) (f_of_int 0) = true ->
  result (convert_glossy_material (Textures.convert_texture_node (S depth) t) ctx node)
  = inl ZeroDivisionError /\
  (bl_idname node = "ShaderNodeBsdfGlossy" \/ bl_idname node = "ShaderNodeBsdfAnisotropic" ->
   result (cycles_surface_to_dict (S (S depth)) t ctx node name) = inl ZeroDivisionError).
Proof.
  intros Hmode Hr Hl Hv Hz.
  assert (result (convert_glossy_material (Textures.convert_texture_node (S depth) t) ctx node)
          = inl ZeroDivisionError) as Hg.
  { pose proof (convert_texture_node_unlinked depth t ctx _ _ Hl Hv) as Hc.
    unfold color in Hc. cbn [is_number as_num] in Hc.
    unfold convert_glossy_material, Materials.convert_input. mrun.
    apply result_bind_inl.
    assert (f_pow_range x (f_of_int 2) = false) as Hp.
    { destruct (f_pow_range x (f_of_int 2)) eqn:E; [|done].
      apply f_pow_range_square in E. congruence. }
    destruct Hmode as [-> | ->]; cbn [String.eqb Ascii.eqb Bool.eqb orb]; mrun;
      cbn [py_pow as_num to_float]; unfold float_pow; rewrite Hp; mrun;
      unfold roughness_to_blinn_exponent; cbn [py_mul as_num arith to_float]; mrun;
      cbn [py_div as_num num_eqb to_float]; rewrite Hz; reflexivity. }
  split; [done|]. intros Hk.
  cbn [cycles_surface_to_dict]. unfold surface_to_dict.
  apply result_bind_inl.
  destruct Hk as [-> | ->]; cbn [find surface_converters fst snd String.eqb Ascii.eqb Bool.eqb];
    rewrite result_info_then; by apply result_bind_inl.
Qed.

(** X13.  The mix and the add shader are converted only when their second
    and third input are both linked; otherwise each raises
    [NotImplementedError] with its own message, before anything is
    converted. *)
Theorem mix_needs_both t conv fl rec ctx node s1 s2 :
  inputs node !! 1%nat = Some s1 -> inputs node !! 2%nat = Some s2 ->
  is_linked s1 && is_linked s2 = false ->
  convert_mix_material t conv fl rec ctx node =
    raise (NotImplementedError [Lit "Mix shader is not linked to two materials"]) /\
  convert_add_material t fl rec ctx node =
    raise (NotImplementedError [Lit "Add shader is not linked to two materials"]).
Proof.
  intros H1 H2 Hl.
  assert (missing_branch node = mret true) as Hm.
  { unfold missing_branch, input_at, index. rewrite H1, H2, !bind_ret.
    destruct (is_linked s1); [|done]. cbn [negb andb] in *. by rewrite Hl. }
  unfold convert_mix_material, convert_add_material. by rewrite Hm, !bind_ret.
Qed.

End Glossy.

Section Wrapper.
Context `{FL : Float64}.
Import Py Bpy Scene Spec Materials.

Lemma dict_remove_absent k (d : list (string * pyval)) :
  dict_lookup k d = None -> dict_remove k d = d.
Proof.
  induction d as [|[k' v'] d IH]; [done|]. cbn [dict_lookup dict_remove].
  destruct (String.eqb k k'); [done|]. intros H. by rewrite IH.
Qed.

Lemma wrap_keeps_name t conv fl ctx node nested w :
  result (wrap_with_bump_or_normal_map t conv fl ctx node nested) = inr w ->
  dict_lookup "name" w = dict_lookup "name" nested.
Proof.
  unfold wrap_with_bump_or_normal_map. intros H.
  apply result_bind_inv_inr in H as (linked & _ & H). cbv beta in H.
  destruct linked; [|by injection H as <-].
  apply result_bind_inv_inr in H as (n & _ & H). cbv beta in H.
  destruct (String.eqb (bl_idname n) "ShaderNodeNormalMap").
  - destruct (negb (use_normal_maps ctx)); [by injection H as <-|].
    minv H. destruct (negb (eq_str a "TANGENT")); [done|]. minv H.
    destruct (dict_lookup "name" nested) as [nm|]; minv H; by injection H as <-.
  - destruct (String.eqb (bl_idname n) "ShaderNodeBump"); [|done].
    destruct (negb (use_bump_maps ctx)); [by injection H as <-|].
    minv H.
    destruct (dict_lookup "name" nested) as [nm|]; minv H; by injection H as <-.
Qed.

(** X12.  [wrap_with_bump_or_normal_map] returns the descriptor it was
    given, or a normal-map or bump-map wrapper around it; the wrapper takes
    the descriptor's name, if it has one, and nests the descriptor with the
    name removed. *)
Theorem wrapper_takes_name t conv fl ctx node nested w :
  result (wrap_with_bump_or_normal_map t conv fl ctx node nested) = inr w ->
  w = nested \/
  ((has_type w "normal map" \/ has_type w "bump map") /\
   dict_lookup "nested" w = Some (PDict (dict_remove "name" nested)) /\
   dict_lookup "name" w = dict_lookup "name" nested).
Proof.
  unfold wrap_with_bump_or_normal_map. intros H.
  apply result_bind_inv_inr in H as (linked & _ & H). cbv beta in H.
  destruct linked; [|injection H as <-; by left].
  apply result_bind_inv_inr in H as (n & _ & H). cbv beta in H.
  destruct (String.eqb (bl_idname n) "ShaderNodeNormalMap").
  - destruct (negb (use_normal_maps ctx)); [injection H as <-; by left|].
    minv H. destruct (negb (eq_str a "TANGENT")); [done|]. minv H.
    right. destruct (dict_lookup "name" nested) as [nm|] eqn:E;
      minv H; injection H as <-; rewrite ?(dict_remove_absent _ _ E);
      (split; [by left|]); by split.
  - destruct (String.eqb (bl_idname n) "ShaderNodeBump"); [|done].
    destruct (negb (use_bump_maps ctx)); [injection H as <-; by left|].
    minv H.
    right. destruct (dict_lookup "name" nested) as [nm|] eqn:E;
      minv H; injection H as <-; rewrite ?(dict_remove_absent _ _ E);
      (split; [by right|]); by split.
Qed.
End Wrapper.

(** Inversion of a run that returned, through its branches. *)
Ltac minv_all :=
  repeat match goal with
  | H : Py.result (_ ≫= _) = inr _ |- _ =>
      let a := fresh "a" in
      let Ha := fresh "Ha" in
      apply result_bind_inv_inr in H as (a & Ha & H); cbv beta in H
  | H : Py.result (if true then _ else _) = inr _ |- _ => cbv iota in H
  | H : Py.result (if false then _ else _) = inr _ |- _ => cbv iota in H
  | H : Py.result (if ?b then _ else _) = inr _ |- _ =>
      first [is_var b; destruct b | destruct b eqn:?]
  | H : Py.result (mret _) = inr _ |- _ =>
      injection H as H; first [discriminate H | subst]
  | H : Py.result (Py.raise _) = inr _ |- _ => discriminate H
  end.

Section Named.
Context `{FL : Float64}.
Import Py Bpy Scene Spec Materials.

Lemma make_two_sided_unnamed ctx bsdf d :
  dict_lookup "name" bsdf = None ->
  result (make_two_sided ctx bsdf) = inr d -> dict_lookup "name" d = None.
Proof. unfold make_two_sided. intros Hn H. by minv_all. Qed.

Lemma diffuse_unnamed conv ctx node d :
  result (convert_diffuse_material conv ctx node) = inr d -> dict_lookup "name" d = None.
Proof.
  unfold convert_diffuse_material. intros H.
  apply result_bind_inv_inr in H as (c & _ & H). cbv beta in H.
  apply result_bind_inv_inr in H as (r & _ & H). cbv beta in H.
  eapply make_two_sided_unnamed; [|exact H]. reflexivity.
Qed.

Lemma glossy_unnamed conv ctx node d :
  result (convert_glossy_material conv ctx node) = inr d -> dict_lookup "name" d = None.
Proof.
  unfold convert_glossy_material. intros H.
  apply result_bind_inv_inr in H as (r & _ & H). cbv beta in H.
  apply result_bind_inv_inr in H as (p & Hp & H). cbv beta in H.
  eapply make_two_sided_unnamed; [|exact H]. clear H.
  minv_all; reflexivity.
Qed.

Lemma glass_unnamed conv ctx node d :
  result (convert_glass_material conv ctx node) = inr d -> dict_lookup "name" d = None.
Proof. unfold convert_glass_material. intros H. minv_all; reflexivity. Qed.

Lemma emission_unnamed ctx node d :
  result (convert_emission_material ctx node) = inr d -> dict_lookup "name" d = None.
Proof. unfold convert_emission_material. intros H. minv_all; reflexivity. Qed.

Lemma transparent_unnamed conv ctx node d :
  result (convert_transparent_material conv ctx node) = inr d -> dict_lookup "name" d = None.
Proof. unfold convert_transparent_material. intros H. minv_all; reflexivity. Qed.

Lemma mix_unnamed t conv fl rec ctx node d :
  result (convert_mix_material t conv fl rec ctx node) = inr d -> dict_lookup "name" d = None.
Proof. unfold convert_mix_material. intros H. minv_all; reflexivity. Qed.

Lemma add_unnamed t fl rec ctx node d :
  result (convert_add_material t fl rec ctx node) = inr d -> dict_lookup "name" d = None.
Proof. unfold convert_add_material. intros H. minv_all; reflexivity. Qed.

Lemma surface_converter_unnamed t conv fl rec ctx node kv d :
  find (fun kv => String.eqb (fst kv) (bl_idname node)) (surface_converters t conv fl rec)
  = Some kv ->
  result (snd kv ctx node) = inr d -> dict_lookup "name" d = None.
Proof.
  cbn [find surface_converters fst].
  destruct (String.eqb "ShaderNodeBsdfDiffuse" (bl_idname node));
    [intros [= <-]; apply diffuse_unnamed|].
  destruct (String.eqb "ShaderNodeBsdfGlossy" (bl_idname node));
    [intros [= <-]; apply glossy_unnamed|].
  destruct (String.eqb "ShaderNodeBsdfAnisotropic" (bl_idname node));
    [intros [= <-]; apply glossy_unnamed|].
  destruct (String.eqb "ShaderNodeBsdfGlass" (bl_idname node));
    [intros [= <-]; apply glass_unnamed|].
  destruct (String.eqb "ShaderNodeMixShader" (bl_idname node));
    [intros [= <-]; apply mix_unnamed|].
  destruct (String.eqb "ShaderNodeAddShader" (bl_idname node));
    [intros [= <-]; apply add_unnamed|].
  destruct (String.eqb "ShaderNodeEmission" (bl_idname node));
    [intros [= <-]; apply emission_unnamed|].
  destruct (String.eqb "ShaderNodeBsdfTransparent" (bl_idname node)); [|done].
  intros [= <-]. apply transparent_unnamed.
Qed.

(** X10.  Whatever the kind of the surface node and whatever wraps it,
    the descriptor that [cycles_surface_to_dict] returns for a material
    name carries, at its outermost level, that name as [material_name]
    writes it. *)
Theorem surface_named depth t ctx node n d :
  result (cycles_surface_to_dict depth t ctx node (Some n)) = inr d ->
  dict_lookup "name" d = Some (PStr (material_name n)).
Proof.
  destruct depth as [|depth]; [done|].
  cbn [cycles_surface_to_dict]. unfold surface_to_dict. intros H.
  apply result_bind_inv_inr in H as (p & Hp & H). cbv beta in H.
  assert (dict_lookup "name" p = Some (PStr (material_name n))) as Hn.
  { destruct (find _ (surface_converters _ _ _ _)) as [kv|] eqn:Hf; [|done].
    rewrite result_info_then in Hp.
    apply result_bind_inv_inr in Hp as (d0 & Hd0 & Hp). cbv beta in Hp.
    minv Hp. injection Hp as <-.
    by rewrite (dict_lookup_update_absent _ _ _ (surface_converter_unnamed _ _ _ _ _ _ _ _ Hf Hd0)). }
  by rewrite (wrap_keeps_name _ _ _ _ _ _ _ H).
Qed.

End Named.

(* --------------------------------------------------------------------- *)
(*  The world: background and scene defaults                              *)
(* --------------------------------------------------------------------- *)

Section Backgrounds.
Context `{FL : Float64}.
Import Py Bpy Scene Spec Materials World.

Lemma try_except_returns {A} (body : M A) (handler : msg -> M A) x :
  result body = inr x -> result (try_except_NotImplementedError body handler) = inr x.
Proof. destruct body as [[e|a] l]; [done|]. by intros [= ->]. Qed.

Lemma try_except_never {A} (body : M A) (handler : msg -> M A) m :
  (forall e, result (handler e) <> inl (NotImplementedError m)) ->
  result (try_except_NotImplementedError body handler) <> inl (NotImplementedError m).
Proof.
  intros Hh. destruct body as [[e|a] l]; [|done]. destruct e; try done.
  unfold try_except_NotImplementedError, result. specialize (Hh m0).
  destruct (handler m0) as [r l']. done.
Qed.

(** X16.  For a world whose Surface is driven by a node with an
    unconnected Strength, [convert_background] tests the strength before
    the node's kind: with strength 0 it returns 0 whatever the node is;
    with another strength and a node that is neither a Background nor an
    Emission node it reports one warning and returns the default 5. *)
Theorem background_strength_first depth ctx w node s v :
  get_world_input depth w "Surface" = mret (Some node) ->
  input node "Strength" = mret s -> links s = [] -> default_value s = Some v ->
  (eq_num v (NInt 0) = true -> result (convert_background depth ctx w) = inr (PInt 0)) /\
  (eq_num v (NInt 0) = false ->
   bl_idname node <> "ShaderNodeBackground" -> bl_idname node <> "ShaderNodeEmission" ->
   convert_background depth ctx w =
   (inr (PInt 5),
    [Report "WARNING"
       [Lit "Error while converting background: ";
        Lit "Only Background and Emission nodes are supported as final nodes for background export, got '";
        Val (PStr (node_name node)); Lit "'"; Lit ". Using default."]])).
Proof.
  intros Hw Hs Hl Hv. unfold convert_background.
  rewrite Hw, bind_ret, (input_has_input _ _ _ Hs). cbn [negb]. mrun.
  split.
  - intros ->. by rewrite try_except_returns with (x := PInt 0) by apply result_info_then.
  - intros -> Hb%String.eqb_neq He%String.eqb_neq. rewrite Hb, He. reflexivity.
Qed.

(** X17.  A Background or Emission node with a strength other than 0
    gives the background descriptor with the converted Color alone: the
    strength is not written and does not scale the color. *)
Theorem background_drops_strength depth ctx w node s v cs c :
  get_world_input depth w "Surface" = mret (Some node) ->
  input node "Strength" = mret s -> links s = [] -> default_value s = Some v ->
  eq_num v (NInt 0) = false ->
  bl_idname node = "ShaderNodeBackground" \/ bl_idname node = "ShaderNodeEmission" ->
  input node "Color" = mret cs ->
  result (Textures.convert_texture_node depth (nodes_of w) ctx cs) = inr c ->
  result (convert_background depth ctx w)
  = inr (PDict [("type", PStr "background"); ("color", c)]).
Proof.
  intros Hw Hs Hl Hv Hz Hk Hc Hconv. unfold convert_background.
  apply try_except_returns.
  rewrite Hw, bind_ret, (input_has_input _ _ _ Hs). cbn [negb]. mrun.
  rewrite Hz.
  assert (String.eqb (bl_idname node) "ShaderNodeBackground"
          || String.eqb (bl_idname node) "ShaderNodeEmission" = true) as ->.
  { destruct Hk as [-> | ->]; reflexivity. }
  by mrun.
Qed.

(** X18.  [convert_background] handles every [NotImplementedError]
    itself, so neither it nor [make_misc] raises one; with backgrounds
    enabled and no world in the scene, both raise [AttributeError]. *)
Theorem background_boundary depth ctx self samples :
  (forall w m, result (convert_background depth ctx w) <> inl (NotImplementedError m)) /\
  (forall w m, result (make_misc depth ctx self samples w) <> inl (NotImplementedError m)) /\
  result (convert_background depth ctx None) = inl AttributeError /\
  (enable_background self = true ->
   result (make_misc depth ctx self samples None) = inl AttributeError).
Proof.
  assert (forall w m, result (convert_background depth ctx w) <> inl (NotImplementedError m))
    as Hb.
  { intros w m. apply try_except_never. intros e. done. }
  split; [done|]. split; [|split; [done|]].
  - intros w m. unfold make_misc. destruct (enable_background self); [|done].
    intros [H | (p & _ & H)]%result_bind_inv_inl; [|done].
    apply result_bind_inv_inl in H as [H | (b & _ & H)]; [by apply Hb in H | done].
  - intros He. unfold make_misc. rewrite He. by apply result_bind_inl, result_bind_inl.
Qed.

(** X19.  [make_misc] always writes the sampler with its sample count,
    the background and the accelerator "bbh", in this order; the sampler
    has a type and the integrator is written exactly when the setting is
    not "none"; with backgrounds disabled the background is 5. *)
Theorem make_misc_keys depth ctx self samples w d :
  result (make_misc depth ctx self samples w) = inr d ->
  exists b,
    d = [("sampler", PDict (("samples", samples) ::
                            if String.eqb (sampler self) "none" then []
                            else [("type", PStr (sampler self))]))] ++
        (if String.eqb (integrator self) "none" then []
         else [("integrator", PDict [("type", PStr (integrator self))])]) ++
        [("background", b); ("accelerator", PDict [("type", PStr "bbh")])] /\
    (if enable_background self then result (convert_background depth ctx w) = inr b
     else b = PInt 5).
Proof.
  unfold make_misc. intros H.
  apply result_bind_inv_inr in H as (p & Hp & H). cbv beta in H. injection H as <-.
  destruct (enable_background self).
  - apply result_bind_inv_inr in Hp as (b & Hb & Hp). cbv beta in Hp. injection Hp as <-.
    exists b. split; [|done].
    destruct (String.eqb (sampler self) "none"), (String.eqb (integrator self) "none");
      reflexivity.
  - injection Hp as <-. exists (PInt 5). split; [|done].
    destruct (String.eqb (sampler self) "none"), (String.eqb (integrator self) "none");
      reflexivity.
Qed.

End Backgrounds.


(* --------------------------------------------------------------------- *)
(*  textures.py: operands, separate nodes, image paths                    *)
(* --------------------------------------------------------------------- *)

Section Nodes.
Context `{FL : Float64}.
Import Py Bpy Scene Spec Textures.

(** X14.  An enabled math node converts to a descriptor with the operands
    "a", "b" and "c" for its first, second and third input, as far as the
    node has them; inputs after the third are not converted. *)
Theorem math_operands conv ctx out v :
  enable_math ctx = true ->
  result (convert_math_node conv ctx out) = inr v ->
  exists d, v = PDict d /\
    dict_has "a" d = Nat.ltb 0 (length (inputs (out_node out))) /\
    dict_has "b" d = Nat.ltb 1 (length (inputs (out_node out))) /\
    dict_has "c" d = Nat.ltb 2 (length (inputs (out_node out))) /\
    length d = (3 + min 3 (length (inputs (out_node out))))%nat.
Proof.
  unfold convert_math_node. intros -> H. cbn [negb] in H.
  destruct (inputs (out_node out)) as [|i0 [|i1 [|i2 rest]]];
    cbn [length Nat.ltb Nat.leb] in H; minv_all; eexists; (split; [reflexivity|]);
    repeat split.
Qed.

Lemma input_missing n nm : has_input n nm = false -> input n nm = raise KeyError.
Proof.
  unfold has_input, input. intros H.
  destruct (find _ (inputs n)) as [s|] eqn:E; [|done].
  apply find_some in E as [Hin Hs].
  assert (existsb (fun s => String.eqb (name s) nm) (inputs n) = true) as Hex
    by (apply existsb_exists; eauto).
  congruence.
Qed.

(** X22.  An enabled separate node is converted from its input named
    "Color" only: on a node that has none, such as a Separate XYZ node with
    its "Vector" input, the converter raises [KeyError]; the alternative
    "Vector" of the source is never read. *)
Theorem separate_needs_color conv ctx out :
  enable_separate ctx = true -> has_input (out_node out) "Color" = false ->
  convert_separate_node conv ctx out = raise KeyError.
Proof.
  intros Hf Hc. unfold convert_separate_node. rewrite Hf. cbn [negb].
  by rewrite (input_missing _ _ Hc).
Qed.

(** X15.  The path [export_image] returns is "textures/", a stem and the
    extension that [texture_exts] holds for the format the image is
    written in.  For an image in the format CINEON or DPX that format is
    "EXR", which [texture_exts] does not hold: the lookup raises
    [KeyError]. *)
Theorem export_image_path ctx image :
  (forall p, result (export_image ctx (Some image)) = inr p ->
     exists stem ext,
       table_get texture_exts (PStr (written_format (file_format image))) = mret ext /\
       p = "textures/" +:+ stem +:+ ext) /\
  (file_format image = "CINEON" \/ file_format image = "DPX" ->
   result (export_image ctx (Some image)) = inl KeyError).
Proof.
  split.
  - intros p H. unfold export_image in H.
    apply result_bind_inv_inr in H as (f & Hf & H). cbv beta in H.
    assert (f = written_format (file_format image)) as ->.
    { unfold written_format. destruct (find _ convert_format) as [kv|].
      - rewrite result_info_then in Hf. by injection Hf as <-.
      - by injection Hf as <-. }
    apply result_bind_inv_inr in H as (nm & Hn & H). cbv beta in H. injection H as <-.
    assert (forall ext : string,
              result (table_get texture_exts
                        (PStr (written_format (file_format image)))) = inr ext ->
              table_get texture_exts (PStr (written_format (file_format image)))
              = mret ext) as Ht.
    { intros ext. unfold table_get. destruct (find _ texture_exts); by intros [= ->]. }
    destruct (_ && _); apply result_bind_inv_inr in Hn as (ext & He & Hn);
      injection Hn as <-; eexists _, ext; (split; [by apply Ht|]); reflexivity.
  - intros Hf. unfold export_image.
    destruct Hf as [-> | ->]; cbn [find convert_format fst snd String.eqb Ascii.eqb Bool.eqb];
      rewrite (result_bind_inr _ _ "EXR") by (by rewrite result_info_then);
      apply result_bind_inl; by destruct (_ && _).
Qed.

End Nodes.

(* --------------------------------------------------------------------- *)
(*  textures.py: what the image and the mix converters ask of a node      *)
(* --------------------------------------------------------------------- *)

Section Images.
Context `{FL : Float64}.
Import Py Bpy Scene Spec Textures.

Lemma table_get_inv {A} (table : list (string * A)) v x :
  result (table_get table v) = inr x ->
  exists s, v = PStr s /\ (s, x) ∈ table.
Proof.
  destruct v; try done. cbn [table_get].
  destruct (find _ table) as [[k y]|] eqn:E; [|done].
  intros [= <-]. apply find_some in E as [Hin Hk]. cbn [fst] in Hk.
  apply String.eqb_eq in Hk as <-.
  exists k. split; [done|]. by apply list_elem_of_In.
Qed.

(** X27.  The image texture converter returns only for an extension mode
    of its table and for the outputs Color and Alpha: the descriptor then
    has the same mode under "wrap mode x" and "wrap mode y" (repeat, CLAMP
    or black) and the output under "output".  For another extension mode,
    such as MIRROR, it does not return. *)
Theorem image_wrap_modes rec ctx out p :
  result (convert_image_texture_node rec ctx out) = inr p ->
  exists d ext mode,
    p = PDict d /\
    attr (out_node out) "extension" = mret (PStr ext) /\
    (ext, mode) ∈ [("REPEAT", "repeat"); ("EXTEND", "CLAMP"); ("CLIP", "black")] /\
    dict_lookup "wrap mode x" d = Some (PStr mode) /\
    dict_lookup "wrap mode y" d = Some (PStr mode) /\
    (out_name out = "Color" /\ dict_lookup "output" d = Some (PStr "color") \/
     out_name out = "Alpha" /\ dict_lookup "output" d = Some (PStr "alpha")).
Proof.
  unfold convert_image_texture_node. cbv zeta. intros H.
  apply result_bind_inv_inr in H as (filename & _ & H). cbv beta in H.
  apply result_bind_inv_inr in H as (interpolation & _ & H). cbv beta in H.
  apply result_bind_inv_inr in H as (projection & _ & H). cbv beta in H.
  apply result_bind_inv_inr in H as (blend & _ & H). cbv beta in H.
  apply result_bind_inv_inr in H as (cs & _ & H). cbv beta in H.
  apply result_bind_inv_inr in H as (params & Hp & H). cbv beta in H.
  apply result_bind_inv_inr in H as (params' & Ho & H). cbv beta in H.
  apply result_bind_inv_inr in H as (extension & He & H). cbv beta in H.
  apply result_bind_inv_inr in H as ([] & _ & H). cbv beta in H.
  apply result_bind_inv_inr in H as (mode & Hm & H). cbv beta in H.
  apply result_bind_inv_inr in H as (d & Hv & H). cbv beta in H.
  injection H as <-.
  apply table_get_inv in Hm as (ext & -> & Hm).
  exists d, ext, mode. split; [done|].
  split.
  { unfold attr in *. destruct (dict_lookup "extension" _); [|done]. by injection He as ->. }
  split; [done|].
  assert (forall k, k <> "vector" ->
            dict_lookup k d =
            dict_lookup k (<["wrap mode y" := PStr mode]>
                             (<["wrap mode x" := PStr mode]> params'))) as Hd.
  { intros k Hk. apply with_vector_result in Hv as (s & _ & [[_ [v ->]] | [_ ->]]); [|done].
    by rewrite dict_lookup_insert_ne. }
  rewrite !Hd by done.
  split; [by rewrite dict_lookup_insert_ne, dict_lookup_insert|].
  split; [by rewrite dict_lookup_insert|].
  rewrite !dict_lookup_insert_ne by done.
  destruct (String.eqb_spec (out_name out) "Color") as [Hc|_].
  - left. split; [done|]. injection Ho as <-. apply dict_lookup_insert.
  - destruct (String.eqb_spec (out_name out) "Alpha") as [Ha|_]; [|done].
    right. split; [done|]. injection Ho as <-. apply dict_lookup_insert.
Qed.
Lemma convert_input_has_input rec ctx node nm v :
  result (convert_input rec ctx node nm) = inr v -> has_input node nm = true.
Proof.
  unfold convert_input. intros H. apply result_bind_inv_inr in H as (s & Hs & _).
  by apply input_result, input_has_input in Hs.
Qed.

(** X28.  An enabled [convert_mix_node] refuses a data type other than
    RGBA and FLOAT before it reads an input, and it returns only for a node
    with inputs named "Fac", "Color1" and "Color2"; what it returns then is
    a "mix" descriptor with these seven keys. *)
Theorem mix_node_requires rec ctx out :
  enable_mix_node ctx = true ->
  (forall dt, attr (out_node out) "data_type" = mret dt ->
     eq_str dt "RGBA" = false -> eq_str dt "FLOAT" = false ->
     result (convert_mix_node rec ctx out) =
     inl (NotImplementedError
            [Lit "Only Color and Float mix nodes are currently supported in Darts"])) /\
  (forall p, result (convert_mix_node rec ctx out) = inr p ->
     has_input (out_node out) "Fac" = true /\
     has_input (out_node out) "Color1" = true /\
     has_input (out_node out) "Color2" = true /\
     exists blend clamp_factor clamp_result factor a b,
       p = PDict [("type", PStr "mix"); ("blend type", PStr blend);
                  ("clamp factor", clamp_factor); ("clamp result", clamp_result);
                  ("factor", factor); ("a", a); ("b", b)]).
Proof.
  intros He. unfold convert_mix_node. rewrite He. cbn [negb]. cbv zeta. split.
  - intros dt -> H1 H2. rewrite bind_ret, H1, H2. reflexivity.
  - intros p H.
    apply result_bind_inv_inr in H as (dt & _ & H). cbv beta in H.
    destruct (_ && _); [done|].
    apply result_bind_inv_inr in H as (blend & _ & H). cbv beta in H.
    apply result_bind_inv_inr in H as (cf & _ & H). cbv beta in H.
    apply result_bind_inv_inr in H as (cr & _ & H). cbv beta in H.
    apply result_bind_inv_inr in H as (f & Hf & H). cbv beta in H.
    apply result_bind_inv_inr in H as (a & Ha & H). cbv beta in H.
    apply result_bind_inv_inr in H as (b & Hb & H). cbv beta in H.
    injection H as <-.
    apply convert_input_has_input in Hf, Ha, Hb. eauto 12.
Qed.

End Images.

(* --------------------------------------------------------------------- *)
(*  geometry.py: the OBJ files and the selection                          *)
(* --------------------------------------------------------------------- *)

Section Meshes.
Context `{FL : Float64}.
Import Py Bpy Scene Spec Materials World.
Import Geometry.

Lemma returned_bind_inr {A B} (m : G A) (k : A -> G B) h a :
  returned (m h) = inr a ->
  returned ((m ≫= k) h) = returned (k a (host_after (m h))) /\
  host_after ((m ≫= k) h) = host_after (k a (host_after (m h))).
Proof.
  destruct (m h) as [[r l] h'] eqn:E. unfold returned, host_after, result. simpl. intros ->.
  unfold mbind, G_bind. rewrite E. by destruct (k a h') as [[r' l'] h''].
Qed.


Lemma runs_bind {A B} (m : G A) (k : A -> G B) h a h1 b h2 :
  runs (m h) a h1 -> runs (k a h1) b h2 -> runs ((m ≫= k) h) b h2.
Proof.
  intros [Hr Hh] [Hk Hh2]. destruct (returned_bind_inr m k h a Hr) as [E1 E2].
  split; [by rewrite E1, Hh | by rewrite E2, Hh].
Qed.

Lemma runs_ret {A} (a : A) h : runs ((mret a : G A) h) a h.
Proof. done. Qed.

Lemma runs_get h : runs (get_host h) h h.
Proof. done. Qed.

Lemma runs_modify f h : runs (modify_host f h) tt (f h).
Proof. done. Qed.

Lemma runs_call c h : runs (call c h) tt (called [c h] h).
Proof. done. Qed.

Lemma runs_info ctx m h : runs (lift_host (info ctx m) h) tt h.
Proof. split; [apply result_info|done]. Qed.

Lemma runs_report lvl m h : runs (lift_host (report lvl m) h) tt h.
Proof. done. Qed.

Lemma runs_lift {A} (m : M A) a h : result m = inr a -> runs (lift_host m h) a h.
Proof. by split. Qed.

Lemma called_nil h : called [] h = h.
Proof. unfold called. rewrite app_nil_r. by destruct h. Qed.

Lemma called_called l l' h : called l' (called l h) = called (l ++ l') h.
Proof. unfold called. cbn [writer selected folders calls]. by rewrite app_assoc. Qed.

Lemma exports_called l h : exports (called l h) = exports h ++ List.filter is_export l.
Proof. unfold exports, called. cbn [calls]. apply List.filter_app. Qed.

Lemma exports_remember k v h : exports (remember k v h) = exports h.
Proof. reflexivity. Qed.

Lemma exports_reselected sel h : exports (reselected sel h) = exports h.
Proof. reflexivity. Qed.

Lemma runs_for_each_select {A} (f : A -> string) (l : list A) h :
  runs (for_each_host l (fun x => modify_host (select_set (f x))) h) tt
       (reselected (foldl (fun sel nm => select nm sel) (selected h) (map f l)) h).
Proof.
  revert h. induction l as [|x l IH]; intros h; [by destruct h|].
  cbn [for_each_host map foldl]. eapply runs_bind; [apply runs_modify|].
  apply (IH (select_set (f x) h)).
Qed.

Lemma runs_for_each_call {A} (c : A -> host_call) (l : list A) h :
  runs (for_each_host l (fun x => call (fun _ => c x)) h) tt (called (map c l) h).
Proof.
  revert h. induction l as [|x l IH]; intros h.
  - cbn [for_each_host map]. rewrite called_nil. apply runs_ret.
  - cbn [for_each_host map]. eapply runs_bind; [apply runs_call|].
    specialize (IH (called [c x] h)). by rewrite called_called in IH.
Qed.

Lemma select_new nm sel : nm ∉ sel -> select nm sel = sel ++ [nm].
Proof.
  intros Hn. unfold select. destruct (existsb _ sel) eqn:E; [|done].
  apply existsb_exists in E as (x & Hx & ->%String.eqb_eq). by apply list_elem_of_In in Hx.
Qed.

Lemma foldl_select acc l :
  NoDup (acc ++ l) -> foldl (fun sel nm => select nm sel) acc l = acc ++ l.
Proof.
  revert acc. induction l as [|x l IH]; intros acc Hnd; [by rewrite app_nil_r|].
  cbn [foldl]. rewrite select_new.
  - rewrite IH; rewrite <- app_assoc; done.
  - apply NoDup_app in Hnd as (_ & Hd & _). intros Hx. apply (Hd x Hx). left.
Qed.

Lemma restored sel : NoDup sel -> foldl (fun sel nm => select nm sel) [] sel = sel.
Proof. intros H. by rewrite (foldl_select [] sel). Qed.

Lemma runs_exporter ctx self version relative_path h :
  runs ((if write_obj_files self then
           if version_ge version (3, 3, 0) then
             lift_host (info ctx [Lit "  Writing '"; Val (PStr relative_path);
                                  Lit "' using C++ exporter."]);;
             call (fun h => ObjExport "wm.obj_export"
                              (path_join (directory self) relative_path)
                              (negb (String.eqb (material_mode ctx) "OFF")) (selected h))
           else
             lift_host (info ctx [Lit "  Writing '"; Val (PStr relative_path);
                                  Lit "' using legacy Python exporter."]);;
             call (fun h => ObjExport "export_scene.obj"
                              (path_join (directory self) relative_path)
                              (negb (String.eqb (material_mode ctx) "OFF")) (selected h))
         else mret tt) h) tt
       (called (if write_obj_files self then
                  [ObjExport (exporter version) (path_join (directory self) relative_path)
                     (negb (String.eqb (material_mode ctx) "OFF")) (selected h)]
                else []) h).
Proof.
  destruct (write_obj_files self).
  - unfold exporter. destruct (version_ge version (3, 3, 0));
      (eapply runs_bind; [apply runs_info | apply runs_call]).
  - rewrite called_nil. apply runs_ret.
Qed.

Lemma runs_write_obj ctx self version obj_name h :
  runs (write_obj ctx self version obj_name h) (mesh_descriptor obj_name)
       (remember (obj_id obj_name) (PDict (mesh_descriptor obj_name))
          (called (if write_obj_files self then
                     [ObjExport (exporter version) (obj_file self obj_name)
                        (negb (String.eqb (material_mode ctx) "OFF")) (selected h)]
                   else []) h)).
Proof.
  unfold write_obj. cbv zeta. eapply runs_bind; [apply runs_get|].
  eapply runs_bind.
  { destruct (bool_decide _); [apply runs_report | apply runs_ret]. }
  eapply runs_bind; [apply runs_exporter|].
  eapply runs_bind; [apply runs_modify | apply runs_ret].
Qed.

Lemma reports_bind {A B} (m : G A) (k : A -> G B) h a l h' :
  m h = ((inr a, l), h') -> reports (fst ((m ≫= k) h)) = l ++ reports (fst (k a h')).
Proof.
  intros E. unfold mbind, G_bind. rewrite E. by destruct (k a h') as [[r' l'] h''].
Qed.

(** X20.  [write_obj] does not skip a mesh it has exported before: a
    second call for the same name returns the same descriptor, reports one
    warning first, calls the exporter once more when files are written, and
    leaves the cache as the first call left it. *)
Theorem write_obj_again ctx self version obj_name h :
  let first := write_obj ctx self version obj_name h in
  let second := write_obj ctx self version obj_name (host_after first) in
  returned second = returned first /\
  writer (host_after second) = writer (host_after first) /\
  (exists l, reports (fst second) =
     Report "WARNING" [Lit "Exporting OBJ file '";
                       Val (PStr (path_join "meshes" (obj_name +:+ ".obj")));
                       Lit "' again!"] :: l) /\
  length (exports (host_after second)) =
  (length (exports (host_after first)) + if write_obj_files self then 1 else 0)%nat.
Proof.
  cbv zeta.
  destruct (runs_write_obj ctx self version obj_name h) as [Hr1 Hh1].
  rewrite Hh1.
  match goal with |- context [write_obj _ _ _ _ ?h1] => set (h1' := h1) end.
  destruct (runs_write_obj ctx self version obj_name h1') as [Hr2 Hh2].
  split; [by rewrite Hr1, Hr2|]. rewrite Hh2.
  split.
  { unfold h1', remember, called.
    cbn [writer already_exported materials media conversions].
    by rewrite insert_insert_eq. }
  split.
  { unfold write_obj. cbv zeta.
    rewrite (reports_bind _ _ _ _ _ _ (eq_refl : get_host h1' = ((inr h1', []), h1'))).
    assert (bool_decide (is_Some (already_exported (writer h1')
              !! ("obj-" +:+ path_join "meshes" (obj_name +:+ ".obj")))) = true) as ->.
    { apply bool_decide_eq_true_2. unfold h1', remember, obj_id.
      cbn [writer already_exported]. rewrite lookup_insert_eq. eauto. }
    cbn [app].
    erewrite reports_bind by reflexivity. cbn [app]. eauto. }
  rewrite exports_remember, exports_called, length_app.
  f_equal. by destruct (write_obj_files self).
Qed.

(** X21.  [write_obj] writes the cache under a key that starts with
    "obj-": the entry of every material, whose key starts with "mat-", and
    the result lists of the material export are as they were. *)
Theorem write_obj_keeps_materials ctx self version obj_name h mat :
  let st := writer h in
  let st' := writer (host_after (write_obj ctx self version obj_name h)) in
  already_exported st' !! mat_id mat = already_exported st !! mat_id mat /\
  materials st' = materials st /\ media st' = media st /\
  conversions st' = conversions st.
Proof.
  cbv zeta. destruct (runs_write_obj ctx self version obj_name h) as [_ ->].
  unfold remember, called. cbn [writer already_exported materials media conversions].
  split; [|done]. by apply lookup_insert_ne.
Qed.

Lemma ends_bind {A B} (m : G A) (k : A -> G B) h a h1 b P :
  runs (m h) a h1 -> ends (k a h1) b P -> ends ((m ≫= k) h) b P.
Proof.
  intros [Hr Hh] [Hk HP]. destruct (returned_bind_inr m k h a Hr) as [E1 E2].
  split; [by rewrite E1, Hh | by rewrite E2, Hh].
Qed.

Lemma ends_bind_ends {A B} (m : G A) (k : A -> G B) h a b (P Q : host -> Prop) :
  ends (m h) a Q -> (forall h', Q h' -> ends (k a h') b P) -> ends ((m ≫= k) h) b P.
Proof.
  intros [Hr HQ] Hk. destruct (returned_bind_inr m k h a Hr) as [E1 E2].
  destruct (Hk _ HQ) as [Hb HP]. split; [by rewrite E1 | by rewrite E2].
Qed.

Lemma map_imap {A B C} (f : nat -> A -> B) (g : B -> C) (l : list A) :
  map g (imap f l) = imap (fun i x => g (f i x)) l.
Proof.
  revert f. induction l as [|x l IH]; intros f; [done|].
  cbn [imap map]. by rewrite IH.
Qed.

Lemma runs_set_influences object value h :
  runs (set_influences object value h) tt
       (called (imap (fun i c => SetInfluence (mesh_name object) i (value i c))
                     (constraint_influences object)) h).
Proof.
  unfold set_influences.
  pose proof (runs_for_each_call
                (fun ic : nat * pyval =>
                   SetInfluence (mesh_name object) (fst ic) (value (fst ic) (snd ic)))
                (imap (fun i c => (i, c)) (constraint_influences object)) h) as H.
  by rewrite map_imap in H.
Qed.

Lemma runs_write_meshes ctx self version meshes obj_name h :
  runs (write_meshes ctx self version meshes obj_name h) (mesh_descriptor obj_name)
       (reselected (foldl (fun sel nm => select nm sel) [] (selected h))
          (remember (obj_id obj_name) (PDict (mesh_descriptor obj_name))
             (called (if write_obj_files self then
                        [ObjExport (exporter version) (obj_file self obj_name)
                           (negb (String.eqb (material_mode ctx) "OFF"))
                           (foldl (fun sel nm => select nm sel) [] (map mesh_name meshes))]
                      else []) h))).
Proof.
  unfold write_meshes. cbv zeta. eapply runs_bind; [apply runs_get|].
  eapply runs_bind; [apply runs_modify|].
  eapply runs_bind; [apply (runs_for_each_select mesh_name)|].
  eapply runs_bind; [apply runs_write_obj|].
  eapply runs_bind; [apply runs_modify|].
  eapply runs_bind; [apply (runs_for_each_select id)|].
  rewrite map_id. apply runs_ret.
Qed.

Lemma write_meshes_run_selection ctx self version meshes obj_name h :
  NoDup (selected h) -> NoDup (map mesh_name meshes) ->
  returned (write_meshes ctx self version meshes obj_name h) = inr (mesh_descriptor obj_name) /\
  selected (host_after (write_meshes ctx self version meshes obj_name h)) = selected h /\
  exports (host_after (write_meshes ctx self version meshes obj_name h)) =
  exports h ++
  if write_obj_files self then
    [ObjExport (exporter version) (obj_file self obj_name)
       (negb (String.eqb (material_mode ctx) "OFF")) (map mesh_name meshes)]
  else [].
Proof.
  intros Hs Hm.
  destruct (runs_write_meshes ctx self version meshes obj_name h) as [-> ->].
  split; [done|]. split; [by apply restored|].
  rewrite exports_reselected, exports_remember, exports_called, (restored _ Hm).
  by destruct (write_obj_files self).
Qed.

(** X23.  [write_meshes] has the exporter write exactly the meshes it is
    given, and then restores the selection it found: for a selection and
    meshes without repetition, the selection is afterwards what it was and
    the one exporter call (if files are written) was made with the given
    meshes selected. *)
Theorem write_meshes_selection ctx self version meshes obj_name h :
  NoDup (selected h) -> NoDup (map mesh_name meshes) ->
  let r := write_meshes ctx self version meshes obj_name h in
  returned r = inr (mesh_descriptor obj_name) /\
  selected (host_after r) = selected h /\
  exports (host_after r) =
  exports h ++
  if write_obj_files self then
    [ObjExport (exporter version) (obj_file self obj_name)
       (negb (String.eqb (material_mode ctx) "OFF")) (map mesh_name meshes)]
  else [].
Proof.
  intros Hs Hm. cbv zeta.
  destruct (runs_write_meshes ctx self version meshes obj_name h) as [-> ->].
  split; [done|]. split; [by apply restored|].
  rewrite exports_reselected, exports_remember, exports_called, (restored _ Hm).
  by destruct (write_obj_files self).
Qed.

Lemma no_export_imap {A} (f : nat -> A -> host_call) (l : list A) :
  (forall i x, is_export (f i x) = false) -> List.filter is_export (imap f l) = [].
Proof.
  revert f. induction l as [|x l IH]; intros f Hf; [done|].
  cbn [imap List.filter]. rewrite Hf. apply IH. intros i y. apply Hf.
Qed.

Lemma export_each_ends ctx self version objects ts h :
  NoDup (selected h) ->
  Forall2 (fun obj t => result (transform_matrix (matrix_world obj)) = inr t) objects ts ->
  ends (export_each ctx self version objects h)
       (zip_with (fun obj t => <["transform" := PDict t]> (mesh_descriptor (mesh_name obj)))
                 objects ts)
       (fun h' =>
          selected h' = selected h /\
          exports h' =
          exports h ++
          if write_obj_files self then
            map (fun obj => ObjExport (exporter version) (obj_file self (mesh_name obj))
                              (negb (String.eqb (material_mode ctx) "OFF")) [mesh_name obj])
                objects
          else []).
Proof.
  intros Hs Hts. revert h Hs.
  induction Hts as [|obj t objects ts Ht _ IH]; intros h Hs.
  - split; [done|]. cbn [export_each host_after snd map].
    split; [done|]. destruct (write_obj_files self); by rewrite app_nil_r.
  - cbn [export_each zip_with]. cbv zeta.
    eapply ends_bind; [apply runs_set_influences|].
    eapply ends_bind; [apply runs_call|].
    eapply ends_bind; [apply runs_call|].
    eapply ends_bind; [apply runs_write_meshes|].
    eapply ends_bind; [apply (runs_lift _ _ _ Ht)|].
    eapply ends_bind; [apply runs_modify|].
    eapply ends_bind; [apply runs_call|].
    eapply ends_bind; [apply runs_set_influences|].
    eapply ends_bind; [apply runs_call|].
    eapply ends_bind_ends.
    { apply IH. cbn [selected called remember reselected]. by rewrite restored. }
    intros h' (Hsel & Hexp). split; [done|].
    change (selected h' = selected h /\
            exports h' = exports h ++
              if write_obj_files self then
                map (fun obj => ObjExport (exporter version) (obj_file self (mesh_name obj))
                                  (negb (String.eqb (material_mode ctx) "OFF"))
                                  [mesh_name obj]) (obj :: objects)
              else []).
    rewrite Hsel, Hexp. cbn [selected called remember reselected].
    rewrite (restored _ Hs). split; [done|].
    rewrite ?exports_called, ?exports_remember, ?exports_reselected, ?exports_remember,
            ?exports_called.
    rewrite !no_export_imap by done. cbn [List.filter is_export app].
    rewrite !app_nil_r. destruct (write_obj_files self); cbn [List.filter is_export map app];
      by rewrite <- ?app_assoc, ?app_nil_r.
Qed.

Lemma runs_folder self h :
  runs ((if negb (existsb (String.eqb (directory self +:+ "/meshes")) (folders h)) then
           modify_host (fun h => Host (writer h) (selected h)
                                      (folders h ++ [directory self +:+ "/meshes"])
                                      (calls h))
         else mret tt) h) tt
       (Host (writer h) (selected h)
             (if negb (existsb (String.eqb (directory self +:+ "/meshes")) (folders h))
              then folders h ++ [directory self +:+ "/meshes"] else folders h)
             (calls h)).
Proof. destruct (negb _); [apply runs_modify | destruct h; apply runs_ret]. Qed.

(** X24.  Unless the mesh mode is SINGLE, [export] returns one descriptor
    per object, in their order: the mesh descriptor of the object's name
    with the flattened world matrix under "transform"; each object is
    written to a file of its own, with that object alone selected, and the
    selection is afterwards what it was. *)
Theorem export_separate ctx self version objects ts h :
  mesh_mode self <> "SINGLE" -> NoDup (selected h) ->
  Forall2 (fun obj t => result (transform_matrix (matrix_world obj)) = inr t) objects ts ->
  let r := Geometry.export ctx self version objects h in
  returned r =
  inr (zip_with (fun obj t => <["transform" := PDict t]> (mesh_descriptor (mesh_name obj)))
                objects ts) /\
  selected (host_after r) = selected h /\
  exports (host_after r) =
  exports h ++
  if write_obj_files self then
    map (fun obj => ObjExport (exporter version) (obj_file self (mesh_name obj))
                      (negb (String.eqb (material_mode ctx) "OFF")) [mesh_name obj])
        objects
  else [].
Proof.
  intros Hmode%String.eqb_neq Hs Hts. cbv zeta.
  assert (ends (Geometry.export ctx self version objects h)
            (zip_with (fun obj t => <["transform" := PDict t]>
                                      (mesh_descriptor (mesh_name obj))) objects ts)
            (fun h' => selected h' = selected h /\
               exports h' = exports h ++
               if write_obj_files self then
                 map (fun obj => ObjExport (exporter version) (obj_file self (mesh_name obj))
                                   (negb (String.eqb (material_mode ctx) "OFF"))
                                   [mesh_name obj]) objects
               else [])) as [Hr Hh]; [|done].
  unfold Geometry.export. eapply ends_bind; [apply runs_get|].
  eapply ends_bind; [apply runs_folder|].
  rewrite Hmode. eapply ends_bind; [apply runs_info|].
  match goal with |- ends (export_each _ _ _ _ ?h1) _ _ =>
    exact (export_each_ends ctx self version objects ts h1 Hs Hts) end.
Qed.

(** X25.  In the mesh mode SINGLE, [export] returns one descriptor whatever
    the number of objects, named after the scene file without directory and
    extension and without a transform; the exporter is called once (if
    files are written), with all the objects selected, and the selection is
    afterwards what it was. *)
Theorem export_single ctx self version objects h :
  mesh_mode self = "SINGLE" -> NoDup (selected h) -> NoDup (map mesh_name objects) ->
  let r := Geometry.export ctx self version objects h in
  let obj_name := Textures.basename (fst (splitext_path (filepath self))) in
  returned r = inr [mesh_descriptor obj_name] /\
  selected (host_after r) = selected h /\
  exports (host_after r) =
  exports h ++
  if write_obj_files self then
    [ObjExport (exporter version) (obj_file self obj_name)
       (negb (String.eqb (material_mode ctx) "OFF")) (map mesh_name objects)]
  else [].
Proof.
  intros Hmode Hs Hm. cbv zeta.
  set (obj_name := Textures.basename (fst (splitext_path (filepath self)))).
  set (h1 := Host (writer h) (selected h)
                  (if negb (existsb (String.eqb (directory self +:+ "/meshes")) (folders h))
                   then folders h ++ [directory self +:+ "/meshes"] else folders h)
                  (calls h)).
  assert (ends (Geometry.export ctx self version objects h) [mesh_descriptor obj_name]
            (fun h' => h' = host_after (write_meshes ctx self version objects obj_name h1)))
    as [Hr Hh].
  { unfold Geometry.export. eapply ends_bind; [apply runs_get|].
    eapply ends_bind; [apply runs_folder|].
    rewrite Hmode. cbn [String.eqb Ascii.eqb Bool.eqb]. eapply ends_bind; [apply runs_info|].
    cbv zeta. fold obj_name. fold h1.
    destruct (runs_write_meshes ctx self version objects obj_name h1) as [Hr Hh].
    eapply ends_bind; [split; [exact Hr | reflexivity]|]. by split. }
  split; [done|]. rewrite Hh.
  destruct (write_meshes_run_selection ctx self version objects obj_name h1 Hs Hm)
    as (_ & Hsel & Hexp).
  by split.
Qed.

End Meshes.

(* --------------------------------------------------------------------- *)
(*  scene.py: the matrix of a transform                                   *)
(* --------------------------------------------------------------------- *)

Section Transforms.
Context `{FL : Float64}.
Import Py Bpy Scene Spec World.

Lemma matrix_rows_array rows :
  matrix_rows (PArray (map PArray rows)) = mret rows.
Proof.
  unfold matrix_rows. induction rows as [|r rows IH]; [done|].
  cbn [map mapM]. by rewrite bind_ret, IH, bind_ret.
Qed.

Lemma mjoin_lookup {A} (n : nat) (rows : list (list A)) i j :
  Forall (fun r => length r = n) rows -> (j < n)%nat ->
  mjoin rows !! (n * i + j)%nat = rows !! i ≫= (fun row => row !! j).
Proof.
  intros Hrows Hj. revert i. induction Hrows as [|r rows Hr _ IH]; intros i.
  - by rewrite !lookup_nil.
  - cbn [mjoin list_join]. destruct i as [|i].
    + rewrite Nat.mul_0_r, Nat.add_0_l. cbn [lookup list_lookup mbind option_bind].
      apply lookup_app_l. lia.
    + rewrite lookup_app_r by lia.
      replace (n * S i + j - length r)%nat with (n * i + j)%nat by lia.
      apply IH.
Qed.

Lemma to_4x4_rows rows : Forall (fun r => length r = 4%nat) (to_4x4 rows).
Proof. unfold to_4x4. cbn [seq map]. repeat constructor. Qed.

Lemma to_4x4_lookup rows i j :
  (i < 4)%nat -> (j < 4)%nat ->
  to_4x4 rows !! i ≫= (fun row => row !! j) =
  Some (match rows !! i ≫= (fun row => row !! j) with
        | Some x => x
        | None => PFloat (if Nat.eqb i j then f_lit 1.0 else f_lit 0.0)
        end).
Proof.
  intros Hi Hj. unfold to_4x4.
  destruct i as [|[|[|[|i]]]]; [| | | |lia];
    (destruct j as [|[|[|[|j]]]]; [| | | |lia]); reflexivity.
Qed.

(** X26.  [transform_matrix] writes a matrix row by row, as 16 numbers.
    For a 4x4 and for a 3x3 matrix, item [4 i + j] of the list under
    "matrix" is the entry in row [i] and column [j], and where a 3x3 matrix
    has none it is the entry of the identity: the added row and column are
    0, 0, 0, 1. *)
Theorem transform_matrix_row_major rows :
  length rows = 3%nat \/ length rows = 4%nat ->
  Forall (fun r => length r = length rows) rows ->
  exists l,
    result (transform_matrix (PArray (map PArray rows))) = inr [("matrix", PList l)] /\
    length l = 16%nat /\
    forall i j, (i < 4)%nat -> (j < 4)%nat ->
      l !! (4 * i + j)%nat =
      Some (match rows !! i ≫= (fun row => row !! j) with
            | Some x => x
            | None => PFloat (if Nat.eqb i j then f_lit 1.0 else f_lit 0.0)
            end).
Proof.
  intros Hn Hrows. unfold transform_matrix.
  rewrite matrix_rows_array, bind_ret. cbv zeta.
  eexists. split; [reflexivity|].
  destruct (bool_decide (length rows = 4%nat)) eqn:H4.
  - apply bool_decide_eq_true_1 in H4. rewrite H4 in Hrows. split.
    + destruct rows as [|r0 [|r1 [|r2 [|r3 [|? ?]]]]]; try done.
      repeat match goal with H : Forall _ (_ :: _) |- _ => apply Forall_cons in H as [? H] end.
      cbn [mjoin list_join]. rewrite !length_app. cbn [length]. lia.
    + intros i j Hi Hj. rewrite (mjoin_lookup 4 rows i j Hrows Hj).
      destruct (lookup_lt_is_Some_2 rows i ltac:(lia)) as [r Hr].
      rewrite Hr. cbn [mbind option_bind].
      pose proof (proj1 (Forall_lookup _ _) Hrows i r Hr) as Hlen. cbv beta in Hlen.
      destruct (lookup_lt_is_Some_2 r j ltac:(lia)) as [x Hx]. by rewrite Hx.
  - split; [reflexivity|]. intros i j Hi Hj.
    rewrite (mjoin_lookup 4 _ i j (to_4x4_rows rows) Hj). by apply to_4x4_lookup.
Qed.

End Transforms.

(* ===================================================================== *)
(*  The properties on the example scenes                                  *)
(* ===================================================================== *)

#[local] Existing Instance binary64.

Section OnExamples.
Import Py Bpy Scene Spec Textures Materials Examples.

(** The amended C8 on the color (0.5, 0.5, 1, 1): the alpha is dropped. *)
Lemma color_normalizes_witness :
  sequence (rgba 0.5 0.5 1 1) [num 0.5; num 0.5; num 1; num 1] /\
  color (rgba 0.5 0.5 1 1) = mret (PList [num 0.5; num 0.5; num 1]).
Proof.
  split; [by right; right|].
  apply (proj1 (proj2 (proj2 color_normalizes)) (rgba 0.5 0.5 1 1)
           [num 0.5; num 0.5; num 1; num 1]).
  - by right; right.
  - by repeat constructor.
  - intros x y Hx Hy.
    repeat (apply elem_of_cons in Hx as [-> | Hx]); try (by apply elem_of_nil in Hx);
    repeat (apply elem_of_cons in Hy as [-> | Hy]); try (by apply elem_of_nil in Hy);
    reflexivity.
  - by right.
Defined.

(** C8 fails on a sequence of two tuples: its length is not 1, 3 or 4 and
    its items have one type, yet [color] returns 0. *)
Lemma color_of_tuples_is_zero :
  length [PTuple [PInt 1; PInt 2]; PTuple [PInt 3; PInt 4]] = 2%nat /\
  color (PList [PTuple [PInt 1; PInt 2]; PTuple [PInt 3; PInt 4]]) = mret (PInt 0).
Proof. split; reflexivity. Qed.

(** The amended C9 on two reroute nodes in front of a diffuse node, and on
    an output socket whose reroute nodes end in a cycle that the socket is
    not on. *)
Lemma follow_link_resolves_witness :
  (chain rerouted_tree 2 surface_in via_b /\ chain_end rerouted_tree via_b /\
   follow_link 3 rerouted_tree surface_in = mret via_b) /\
  (chain lasso_tree 2 lasso_in lasso_b /\ chain lasso_tree 1 lasso_b lasso_b /\
   forall depth, follow_link depth lasso_tree lasso_in = raise RecursionError).
Proof.
  assert (chain rerouted_tree 2 surface_in via_b) as Hc.
  { eapply chain_S; [eexists; split; reflexivity|].
    eapply chain_S; [eexists; split; reflexivity|]. apply chain_O. }
  assert (chain_end rerouted_tree via_b) as He.
  { right. do 3 eexists. repeat split; reflexivity. }
  assert (chain lasso_tree 2 lasso_in lasso_b) as Hl.
  { eapply chain_S; [eexists; split; reflexivity|].
    eapply chain_S; [eexists; split; reflexivity|]. apply chain_O. }
  assert (chain lasso_tree 1 lasso_b lasso_b) as Hb.
  { eapply chain_S; [eexists; split; reflexivity|]. apply chain_O. }
  split.
  - split; [done|]. split; [done|].
    apply (proj1 follow_link_resolves rerouted_tree 2%nat surface_in via_b Hc He 3%nat). lia.
  - split; [done|]. split; [done|].
    exact (proj2 follow_link_resolves lasso_tree 2%nat 0%nat lasso_in lasso_b Hl Hb).
Defined.

(** C9 fails on a reroute node that is its own input: at every call depth
    the interpreter's [RecursionError] is all there is. *)
Lemma follow_link_cycle_overflows :
  chain loop_tree 1 loop_in loop_in /\
  forall depth, follow_link depth loop_tree loop_in = raise RecursionError.
Proof.
  split.
  - eapply chain_S; [eexists; split; reflexivity|]. apply chain_O.
  - induction depth as [|depth IH]; [reflexivity|].
    rewrite (follow_link_hop loop_tree loop_in loop_in); [done|].
    eexists; split; reflexivity.
Qed.

Lemma bricks_converted :
  cycles_surface_to_dict 5 bricks_tree ctx diffuse (Some "Bricks") = mret bricks_descriptor.
Proof. reflexivity. Qed.

(** The amended C1 on it. *)
Lemma wrap_order_witness :
  force_two_sided ctx = true /\ use_normal_maps ctx = true /\
  input diffuse "Normal" = mret normal_in /\ is_linked normal_in = true /\
  result (linked_node bricks_tree (follow_link 4 bricks_tree) normal_in) = inr normal_map /\
  two_sided_innermost bricks_descriptor.
Proof.
  assert (result (linked_node bricks_tree (follow_link 4 bricks_tree) normal_in)
          = inr normal_map) as Hn by reflexivity.
  split; [reflexivity|]. split; [reflexivity|]. split; [reflexivity|].
  split; [reflexivity|]. split; [exact Hn|].
  apply (wrap_order 4 bricks_tree ctx diffuse (Some "Bricks") normal_in normal_map
           bricks_descriptor).
  - apply elem_of_cons. by left.
  - reflexivity.
  - reflexivity.
  - reflexivity.
  - exact Hn.
  - left. split; reflexivity.
  - by rewrite bricks_converted.
Defined.

(** C1 fails on it: with the two-sided capability and normal maps enabled
    and a normal map on the Normal input, the outermost layer is the
    normal-map adapter, not the two-sided one. *)
Lemma wrap_order_is_reversed :
  force_two_sided ctx = true /\ use_normal_maps ctx = true /\
  result (linked_node bricks_tree (follow_link 4 bricks_tree) normal_in) = inr normal_map /\
  cycles_surface_to_dict 5 bricks_tree ctx diffuse (Some "Bricks") = mret bricks_descriptor /\
  ~ two_sided_outermost bricks_descriptor.
Proof.
  split; [reflexivity|]. split; [reflexivity|].
  split; [reflexivity|]. split; [apply bricks_converted|].
  intros [H _]. discriminate H.
Qed.

(** The amended C2 on a surface of an unsupported kind. *)
Lemma named_boundary_witness :
  use_nodes toon = true /\
  convert_material 5 ctx toon =
  (inr ([("type", PStr "diffuse");
         ("color", PList [PFloat (f_lit 1.0); PFloat (f_lit 0.0); PFloat (f_lit 0.3)]);
         ("name", PStr "Toon")], None),
   [Report "WARNING"
      [Lit "Export of material '"; Val (PStr "Toon"); Lit "' failed: ";
       Lit "Node type: "; Val (PStr "ShaderNodeBsdfToon"); Lit " is not supported in Darts";
       Lit ". Exporting a dummy material instead."]]).
Proof.
  split; [reflexivity|].
  pose proof (proj1 (named_boundary 5 ctx) toon eq_refl) as H.
  exact H.
Defined.

(** C2 fails on a color of two numbers: the value normalizer raises
    [ValueError], and [convert_material] raises it too instead of
    returning the placeholder. *)
Lemma value_error_escapes :
  use_nodes odd = true /\
  input (Node "Diffuse BSDF" "ShaderNodeBsdfDiffuse"
           [odd_color; socket_of "Roughness" (num 0)] [] None None) "Color" = mret odd_color /\
  convert_material 5 ctx odd =
  raise (ValueError [Lit "Expected color items to be 1,3 or 4 got "; Val (PInt 2);
                     Lit ": "; Val (PList [num 0.5; num 0.5])]).
Proof.
  split; [reflexivity|]. split; reflexivity.
Qed.

(** C3 on two objects that share a material: one call, two descriptors. *)
Lemma converts_at_most_once_witness :
  material_mode ctx = "CONVERT" /\ conversions fresh = [] /\
  conversions (final (export 5 ctx [] [cube; sphere] fresh)) = ["mat-Bricks"] /\
  NoDup (conversions (final (export 5 ctx [] [cube; sphere] fresh))).
Proof.
  split; [reflexivity|]. split; [reflexivity|]. split; [reflexivity|].
  exact (proj1 (converts_at_most_once 5 ctx [] [cube; sphere] fresh eq_refl eq_refl)).
Defined.



(** C5 on a glass of index 1. *)
Lemma glass_dielectric_witness :
  input glass "IOR" = mret (socket_of "IOR" (num 1)) /\
  input glass "Roughness" = mret (socket_of "Roughness" (num 0)) /\
  f_eqb (0%float : float64) (f_of_int 0) = true /\
  result (convert_glass_material (Textures.convert_texture_node 1 []) ctx glass)
  = inr [("type", PStr "thin dielectric"); ("ior", num 1);
         ("reflectance", PList [num 1; num 1; num 1]);
         ("transmittance", PList [num 1; num 1; num 1])].
Proof.
  split; [reflexivity|]. split; [reflexivity|]. split; [reflexivity|].
  exact (proj1 (glass_dielectric 0 [] ctx glass (socket_of "IOR" (num 1)) 1%float
                  (socket_of "Roughness" (num 0)) (socket_of "Color" (rgba 1 1 1 1))
                  (PList [num 1; num 1; num 1]) eq_refl eq_refl eq_refl eq_refl eq_refl)
           0%float eq_refl eq_refl eq_refl).
Defined.

Ltac input_converts := do 2 eexists; split; reflexivity.

(** C6 on a four-dimensional white noise without a linked Vector, a
    three-dimensional noise with a linked Vector, a one-dimensional Voronoi
    texture with a linked Vector and a four-dimensional Musgrave texture:
    each is converted, "w" is there for the dimensionalities 4 and 1 and
    "vector" for the noise alone. *)
Lemma dimensionality_gating_witness :
  (gate_inputs (Textures.convert_texture_node 2 []) ctx white_noise 4 /\
   exists v,
     result (convert_white_noise_texture_node (Textures.convert_texture_node 2 []) ctx
               (OutSocket white_noise "Value")) = inr v /\
     gated_by_dimensions white_noise 4 v) /\
  (gate_inputs (Textures.convert_texture_node 2 [coords]) ctx clouds 3 /\
   exists v,
     result (convert_noise_texture_node (Textures.convert_texture_node 2 [coords]) ctx
               (OutSocket clouds "Fac")) = inr v /\
     gated_by_dimensions clouds 3 v) /\
  (gate_inputs (Textures.convert_texture_node 2 [coords]) ctx cells 1 /\
   exists v,
     result (convert_voronoi_texture_node (Textures.convert_texture_node 2 [coords]) ctx
               (OutSocket cells "Distance")) = inr v /\
     gated_by_dimensions cells 1 v) /\
  (gate_inputs (Textures.convert_texture_node 2 []) ctx ridges 4 /\
   exists v,
     result (convert_musgrave_texture_node (Textures.convert_texture_node 2 []) ctx
               (OutSocket ridges "Fac")) = inr v /\
     gated_by_dimensions ridges 4 v).
Proof.
  assert (gate_inputs (Textures.convert_texture_node 2 []) ctx white_noise 4) as G1.
  { split; [intros _; input_converts|].
    intros _. eexists. split; [reflexivity|]. intros H. discriminate H. }
  assert (gate_inputs (Textures.convert_texture_node 2 [coords]) ctx clouds 3) as G2.
  { split; [intros [H | H]; discriminate H|].
    intros _. eexists. split; [reflexivity|]. intros _. eexists. reflexivity. }
  assert (gate_inputs (Textures.convert_texture_node 2 [coords]) ctx cells 1) as G3.
  { split; [intros _; input_converts|]. intros H. by destruct H. }
  assert (gate_inputs (Textures.convert_texture_node 2 []) ctx ridges 4) as G4.
  { split; [intros _; input_converts|].
    intros _. eexists. split; [reflexivity|]. intros H. discriminate H. }
  split; [|split; [|split]]; (split; [done|]).
  - destruct (proj1 (dimensionality_gating (Textures.convert_texture_node 2 []) ctx
                       (OutSocket white_noise "Value") (PStr "4D") 4 eq_refl) eq_refl)
      as [Hg Hr].
    destruct (Hr G1) as [v Hv]. exists v. split; [exact Hv | exact (Hg v Hv)].
  - destruct (proj1 (proj2 (dimensionality_gating (Textures.convert_texture_node 2 [coords])
                              ctx (OutSocket clouds "Fac") (PStr "3D") 3 eq_refl))
                eq_refl eq_refl) as [Hg Hr].
    destruct Hr as [v Hv];
      [exact G2 | repeat constructor; input_converts | by eexists |].
    exists v. split; [exact Hv | exact (Hg v Hv)].
  - destruct (proj1 (proj2 (proj2 (dimensionality_gating
                                     (Textures.convert_texture_node 2 [coords]) ctx
                                     (OutSocket cells "Distance") (PStr "1D") 1 eq_refl)))
                eq_refl eq_refl) as [Hg Hr].
    destruct (Hr G3 ltac:(repeat constructor; input_converts) "SMOOTH_F1" "EUCLIDEAN"
                eq_refl eq_refl ltac:(intros _; input_converts)) as [v Hv].
    exists v. split; [exact Hv | exact (Hg v Hv)].
  - destruct (proj2 (proj2 (proj2 (dimensionality_gating
                                     (Textures.convert_texture_node 2 []) ctx
                                     (OutSocket ridges "Fac") (PStr "4D") 4 eq_refl)))
                eq_refl eq_refl) as [Hg Hr].
    destruct (Hr G4 ltac:(repeat constructor; input_converts) "RIDGED_MULTIFRACTAL" eq_refl)
      as [v Hv].
    exists v. split; [exact Hv | exact (Hg v Hv)].
Defined.

(** What the four converters return on these nodes. *)
Lemma procedural_values :
  result (convert_noise_texture_node (Textures.convert_texture_node 2 [coords]) ctx
            (OutSocket clouds "Fac"))
  = inr (PDict [("type", PStr "noise"); ("scale", num 5); ("detail", num 2);
                ("roughness", num 0.5); ("lacunarity", num 2); ("distortion", num 0);
                ("dimensions", PInt 3); ("normalize", PBool true); ("output", PStr "float");
                ("vector", PDict [("type", PStr "coord"); ("coordinate", PStr "uv")])]) /\
  result (convert_voronoi_texture_node (Textures.convert_texture_node 2 [coords]) ctx
            (OutSocket cells "Distance"))
  = inr (PDict [("type", PStr "voronoi"); ("scale", num 5); ("randomness", num 1);
                ("dimensions", PInt 1); ("feature", PStr "smooth f1");
                ("distance", PStr "euclidean"); ("output", PStr "distance");
                ("smoothness", num 1); ("w", num 0.25)]) /\
  result (convert_musgrave_texture_node (Textures.convert_texture_node 2 []) ctx
            (OutSocket ridges "Fac"))
  = inr (PDict [("type", PStr "musgrave"); ("fractal type", PStr "ridged multifractal");
                ("scale", num 5); ("detail", num 2); ("dimension", num 2);
                ("lacunarity", num 2); ("offset", num 0); ("gain", num 1);
                ("dimensions", PInt 4); ("w", num 0.5)]).
Proof. split; [reflexivity|]. split; reflexivity. Qed.

(** The amended C7 on a disabled noise node. *)
Lemma disabled_kind_substitute_witness :
  ("ShaderNodeTexNoise", enable_noise) ∈ gates /\ enable_noise ctx_plain = false /\
  exists v, neutral_substitute v /\
    convert_noise_texture_node (Textures.convert_texture_node 1 []) ctx_plain
      (OutSocket noise "Fac") = mret v.
Proof.
  assert (("ShaderNodeTexNoise", enable_noise) ∈ gates) as Hin.
  { unfold gates. rewrite !elem_of_cons. tauto. }
  split; [done|]. split; [reflexivity|].
  exact (disabled_kind_substitute (Textures.convert_texture_node 1 []) ctx_plain
           (OutSocket noise "Fac") "ShaderNodeTexNoise" enable_noise _ Hin eq_refl eq_refl).
Defined.

(** C7 fails on a disabled mapping node: it returns [None], which is
    neither the scalar 0.5 nor the dummy color. *)
Lemma disabled_mapping_is_none :
  ("ShaderNodeMapping", enable_mapping) ∈ gates /\ enable_mapping ctx_plain = false /\
  convert_mapping_node (Textures.convert_texture_node 1 []) ctx_plain
    (OutSocket mapping "Vector") = mret PNone /\
  ~ neutral_substitute PNone.
Proof.
  split; [unfold gates; rewrite !elem_of_cons; tauto|].
  split; [reflexivity|]. split; [reflexivity|]. by intros [H | H].
Qed.

(** C10 on a material with a diffuse surface and an absorption node on
    its Volume input, in the second slot of the second object. *)
Lemma absorption_aborts_export_witness :
  use_nodes haze = true /\
  get_node (nodes haze) "Material Output" = mret haze_output /\
  surface_converts 5 ctx haze haze_output /\
  result (linked_node (nodes haze) (follow_link 5 (nodes haze)) haze_volume) = inr absorption /\
  in_slot [cube; room] haze /\
  convert_volume_absorption_node ctx absorption = raise TypeError /\
  result (convert_material 5 ctx haze) = inl TypeError /\
  outcome (export 5 ctx [] [cube; room] fresh) = inl TypeError.
Proof.
  assert (surface_converts 5 ctx haze haze_output) as Hsurf.
  { right. do 3 eexists. repeat split; reflexivity. }
  assert (in_slot [cube; room] haze) as Hin.
  { exists room, [Some bricks; Some haze].
    split; [by right; left|]. split; [reflexivity|]. by right; left. }
  pose proof (absorption_aborts_export 5 ctx haze haze_output haze_volume absorption
                smoke_color smoke_density (rgba 0.5 0.5 0.5 1) (num 0.5)
                [num 0.5; num 0.5; num 1]
                eq_refl eq_refl Hsurf eq_refl eq_refl eq_refl eq_refl eq_refl eq_refl
                eq_refl eq_refl eq_refl (or_intror (or_intror eq_refl))) as (H1 & H2 & H3).
  split; [reflexivity|]. split; [reflexivity|]. split; [exact Hsurf|].
  split; [reflexivity|]. split; [exact Hin|]. split; [exact H1|]. split; [exact H2|].
  assert (forall m, in_slot [cube; room] m -> m = bricks \/ m = haze) as Hall.
  { intros m (mesh & slots & Hm & Hd & Hs).
    apply elem_of_cons in Hm as [-> | Hm].
    - injection Hd as <-. apply list_elem_of_singleton in Hs. injection Hs as ->. by left.
    - apply list_elem_of_singleton in Hm as ->. injection Hd as <-.
      apply elem_of_cons in Hs as [Hs | Hs]; [injection Hs as ->; by left|].
      apply list_elem_of_singleton in Hs. injection Hs as ->. by right. }
  apply (H3 [] [cube; room] fresh); [reflexivity | done | done | apply lookup_empty | exact Hin | |].
  - intros m [-> | ->]%Hall Hn; [discriminate Hn | done].
  - intros m [-> | ->]%Hall Hn; [|done]. eexists. reflexivity.
Defined.

End OnExamples.

Section OnMoreExamples.
Import Py Bpy Scene Spec Textures Materials World Examples.

(** X2 on the color (0.5, 0.5, 1, 1). *)
Lemma color_idempotent_witness :
  result (color (rgba 0.5 0.5 1 1)) = inr (PList [num 0.5; num 0.5; num 1]) /\
  color (PList [num 0.5; num 0.5; num 1]) = mret (PList [num 0.5; num 0.5; num 1]).
Proof.
  split; [reflexivity|].
  exact (color_idempotent (rgba 0.5 0.5 1 1) (PList [num 0.5; num 0.5; num 1]) eq_refl).
Defined.

(** X3 on the two reroute nodes in front of a diffuse node. *)
Lemma follow_link_stable_witness :
  result (follow_link 3 rerouted_tree surface_in) = inr via_b /\
  follow_link 1 rerouted_tree via_b = mret via_b.
Proof.
  split; [reflexivity|].
  exact (follow_link_stable 3 rerouted_tree surface_in via_b eq_refl 0%nat).
Defined.

(** X4 on a translation by (1, 0, 0) without rotation and scale. *)
Lemma LRS_matrix_order_witness :
  result (LRS_matrix ctx (xyz 1 0 0) (xyz 0 0 0) (xyz 1 1 1))
  = inr (PList [PDict [("translate", PTuple [num 1; num 0; num 0])]]) /\
  exists (bs br bl : bool) vs dx dy dz vl,
    result (differs_from (xyz 1 1 1) 1) = inr bs /\
    result (differs_from (xyz 0 0 0) 0) = inr br /\
    result (differs_from (xyz 1 0 0) 0) = inr bl /\
    (bs = true -> result (slice_all (xyz 1 1 1)) = inr vs) /\
    (bl = true -> result (slice_all (xyz 1 0 0)) = inr vl) /\
    PList [PDict [("translate", PTuple [num 1; num 0; num 0])]] =
    PList ((if bs then [PDict [("scale", vs)]] else []) ++
           (if br then [PDict [("rotate", PTuple [dx; PInt 1; PInt 0; PInt 0])];
                        PDict [("rotate", PTuple [dy; PInt 0; PInt 1; PInt 0])];
                        PDict [("rotate", PTuple [dz; PInt 0; PInt 0; PInt 1])]]
            else []) ++
           (if bl then [PDict [("translate", vl)]] else [])).
Proof.
  split; [reflexivity|].
  exact (LRS_matrix_order ctx (xyz 1 0 0) (xyz 0 0 0) (xyz 1 1 1) _ eq_refl).
Defined.

(** X5 on the scattering volume. *)
Lemma interior_medium_dangles_witness :
  result (convert_material 5 ctx fog)
  = inr ([("type", PStr "transparent"); ("interior medium", PStr "Fog volume")],
         Some fog_medium) /\
  dict_lookup "name" fog_medium = Some (PStr "Fog_volume") /\
  "Fog_volume" <> "Fog volume".
Proof.
  split; [reflexivity|].
  exact (proj2 (interior_medium_dangles 5 ctx fog _ fog_medium eq_refl)).
Defined.

(** X6 on a material without nodes. *)
Lemma plain_material_color_witness :
  use_nodes plain = false /\
  color (diffuse_color plain) = mret (PList [num 0.5; num 0.5; num 1]) /\
  convert_material 5 ctx plain =
  mret ([("type", PStr "diffuse"); ("color", PList [num 0.5; num 0.5; num 1]);
         ("name", PStr "Plain")], None).
Proof.
  split; [reflexivity|]. split; [reflexivity|].
  exact (plain_material_color 5 ctx plain _ eq_refl eq_refl).
Defined.

(** X7 on a material whose output node has no link. *)
Lemma unlinked_output_is_unnamed_witness :
  use_nodes hollow = true /\
  get_node (nodes hollow) "Material Output" = mret (output_node [] []) /\
  output_linked (output_node [] []) "Surface" = mret false /\
  output_linked (output_node [] []) "Volume" = mret false /\
  result (convert_material 5 ctx hollow) = inr ([("type", PStr "transparent")], None).
Proof.
  split; [reflexivity|]. split; [reflexivity|]. split; [reflexivity|]. split; [reflexivity|].
  exact (unlinked_output_is_unnamed 5 ctx hollow (output_node [] [])
           eq_refl eq_refl eq_refl eq_refl).
Defined.

(** X8 on three materials, one of them unused. *)
Lemma export_placeholders_witness :
  material_mode ctx_diffuse = "DIFFUSE" /\
  outcome (export 5 ctx_diffuse [bricks; spare; plain] [cube] fresh) = inr tt /\
  final (export 5 ctx_diffuse [bricks; spare; plain] [cube] fresh) =
  Store ∅ [default_material; placeholder bricks; placeholder plain] [] [].
Proof.
  split; [reflexivity|].
  exact (export_placeholders 5 ctx_diffuse [bricks; spare; plain] [cube] fresh eq_refl).
Defined.

(** X9 with the materials switched off. *)
Lemma export_default_only_witness :
  material_mode ctx_off <> "DIFFUSE" /\ material_mode ctx_off <> "CONVERT" /\
  outcome (export 5 ctx_off [bricks] [cube] fresh) = inr tt /\
  final (export 5 ctx_off [bricks] [cube] fresh) = Store ∅ [default_material] [] [].
Proof.
  assert (material_mode ctx_off <> "DIFFUSE") as Hd by discriminate.
  assert (material_mode ctx_off <> "CONVERT") as Hc by discriminate.
  split; [exact Hd|]. split; [exact Hc|].
  exact (export_default_only 5 ctx_off [bricks] [cube] fresh Hd Hc).
Defined.

(** X10 on the bricks. *)
Lemma surface_named_witness :
  result (cycles_surface_to_dict 5 bricks_tree ctx diffuse (Some "Old Bricks"))
  = inr [("type", PStr "normal map");
         ("normals", PList [num 0.5; num 0.5; num 1]);
         ("strength", num 1);
         ("name", PStr "Old_Bricks");
         ("nested",
          PDict [("type", PStr "two sided");
                 ("both sides",
                  PDict [("type", PStr "diffuse");
                         ("color", PList [num 0.5; num 0.5; num 0.5]);
                         ("roughness", num 0)])])] /\
  dict_lookup "name"
    [("type", PStr "normal map");
     ("normals", PList [num 0.5; num 0.5; num 1]);
     ("strength", num 1);
     ("name", PStr "Old_Bricks");
     ("nested",
      PDict [("type", PStr "two sided");
             ("both sides",
              PDict [("type", PStr "diffuse");
                     ("color", PList [num 0.5; num 0.5; num 0.5]);
                     ("roughness", num 0)])])]
  = Some (PStr "Old_Bricks").
Proof.
  split; [reflexivity|].
  exact (surface_named 5 bricks_tree ctx diffuse "Old Bricks" _ eq_refl).
Defined.

(** X11 on a mirror in the phong mode. *)
Lemma phong_zero_roughness_witness :
  glossy_mode ctx_phong = "phong" /\
  input mirror "Roughness" = mret (socket_of "Roughness" (num 0)) /\
  f_eqb (f_mul (f_pow 0%float (f_of_int 2)) (f_pow 0%float (f_of_int 2))) (f_of_int 0)
  = true /\
  result (convert_glossy_material (Textures.convert_texture_node 1 []) ctx_phong mirror)
  = inl ZeroDivisionError /\
  result (cycles_surface_to_dict 2 [] ctx_phong mirror None) = inl ZeroDivisionError.
Proof.
  split; [reflexivity|]. split; [reflexivity|]. split; [reflexivity|].
  pose proof (phong_zero_roughness 0 [] ctx_phong mirror None
                (socket_of "Roughness" (num 0)) 0%float
                (or_intror eq_refl) eq_refl eq_refl eq_refl eq_refl) as [H1 H2].
  split; [exact H1|]. exact (H2 (or_introl eq_refl)).
Defined.

(** X12 on the bricks' normal map. *)
Lemma wrapper_takes_name_witness :
  result (wrap_with_bump_or_normal_map bricks_tree
            (Textures.convert_texture_node 4 bricks_tree) (follow_link 4 bricks_tree)
            ctx diffuse [("name", PStr "Bricks"); ("type", PStr "diffuse")])
  = inr [("type", PStr "normal map"); ("normals", PList [num 0.5; num 0.5; num 1]);
         ("strength", num 1); ("name", PStr "Bricks");
         ("nested", PDict [("type", PStr "diffuse")])] /\
  dict_lookup "nested"
    [("type", PStr "normal map"); ("normals", PList [num 0.5; num 0.5; num 1]);
     ("strength", num 1); ("name", PStr "Bricks");
     ("nested", PDict [("type", PStr "diffuse")])]
  = Some (PDict (dict_remove "name" [("name", PStr "Bricks"); ("type", PStr "diffuse")])).
Proof.
  split; [reflexivity|].
  destruct (wrapper_takes_name bricks_tree
              (Textures.convert_texture_node 4 bricks_tree) (follow_link 4 bricks_tree)
              ctx diffuse [("name", PStr "Bricks"); ("type", PStr "diffuse")] _ eq_refl)
    as [H | (_ & H & _)]; [discriminate H | exact H].
Defined.

(** X13 on a mix shader with one branch. *)
Lemma mix_needs_both_witness :
  inputs half_mix !! 1%nat = Some (shader "Shader" [Link "Diffuse BSDF" "BSDF"]) /\
  inputs half_mix !! 2%nat = Some (shader "Shader" []) /\
  convert_mix_material bricks_tree (Textures.convert_texture_node 4 bricks_tree)
    (follow_link 4 bricks_tree) (cycles_surface_to_dict 4 bricks_tree) ctx half_mix =
  raise (NotImplementedError [Lit "Mix shader is not linked to two materials"]).
Proof.
  split; [reflexivity|]. split; [reflexivity|].
  exact (proj1 (mix_needs_both bricks_tree (Textures.convert_texture_node 4 bricks_tree)
                  (follow_link 4 bricks_tree) (cycles_surface_to_dict 4 bricks_tree)
                  ctx half_mix _ _ eq_refl eq_refl eq_refl)).
Defined.

(** X14 on a sum of two values. *)
Lemma math_operands_witness :
  enable_math ctx = true /\
  result (convert_math_node (Textures.convert_texture_node 1 []) ctx (OutSocket sum "Value"))
  = inr (PDict [("type", PStr "math"); ("operation", PStr "add"); ("clamp", PBool false);
                ("a", num 0.5); ("b", num 1)]) /\
  exists d,
    PDict [("type", PStr "math"); ("operation", PStr "add"); ("clamp", PBool false);
           ("a", num 0.5); ("b", num 1)] = PDict d /\
    dict_has "a" d = true /\ dict_has "b" d = true /\ dict_has "c" d = false /\
    length d = 5%nat.
Proof.
  split; [reflexivity|]. split; [reflexivity|].
  exact (math_operands (Textures.convert_texture_node 1 []) ctx (OutSocket sum "Value") _
           eq_refl eq_refl).
Defined.

(** X15 on a TIFF scan and on a DPX frame. *)
Lemma export_image_path_witness :
  result (export_image ctx (Some scan)) = inr "textures/scan.png" /\
  (exists stem ext,
     table_get texture_exts (PStr (written_format "TIFF")) = mret ext /\
     "textures/scan.png" = "textures/" +:+ stem +:+ ext) /\
  file_format frame = "DPX" /\
  result (export_image ctx (Some frame)) = inl KeyError.
Proof.
  split; [reflexivity|].
  split; [exact (proj1 (export_image_path ctx scan) "textures/scan.png" eq_refl)|].
  split; [reflexivity|].
  exact (proj2 (export_image_path ctx frame) (or_intror eq_refl)).
Defined.

(** X16 on a world lit by a node that is no background, at strength 0
    and at strength 1. *)
Lemma background_strength_first_witness :
  get_world_input 5 (Some (sky "ShaderNodeHoldout" (num 0))) "Surface"
  = mret (Some (sky_node "ShaderNodeHoldout" (num 0))) /\
  eq_num (num 0) (NInt 0) = true /\
  result (convert_background 5 ctx (Some (sky "ShaderNodeHoldout" (num 0)))) = inr (PInt 0) /\
  eq_num (num 1) (NInt 0) = false /\
  result (convert_background 5 ctx (Some (sky "ShaderNodeHoldout" (num 1)))) = inr (PInt 5).
Proof.
  split; [reflexivity|]. split; [reflexivity|].
  split.
  { exact (proj1 (background_strength_first 5 ctx (Some (sky "ShaderNodeHoldout" (num 0)))
                    (sky_node "ShaderNodeHoldout" (num 0)) (socket_of "Strength" (num 0))
                    (num 0) eq_refl eq_refl eq_refl eq_refl) eq_refl). }
  split; [reflexivity|].
  assert (bl_idname (sky_node "ShaderNodeHoldout" (num 1)) <> "ShaderNodeBackground")
    as Hb by discriminate.
  assert (bl_idname (sky_node "ShaderNodeHoldout" (num 1)) <> "ShaderNodeEmission")
    as He by discriminate.
  exact (f_equal fst
           (proj2 (background_strength_first 5 ctx (Some (sky "ShaderNodeHoldout" (num 1)))
                     (sky_node "ShaderNodeHoldout" (num 1)) (socket_of "Strength" (num 1))
                     (num 1) eq_refl eq_refl eq_refl eq_refl) eq_refl Hb He)).
Defined.

(** X17 on a background node of strength 2. *)
Lemma background_drops_strength_witness :
  get_world_input 5 (Some (sky "ShaderNodeBackground" (num 2))) "Surface"
  = mret (Some (sky_node "ShaderNodeBackground" (num 2))) /\
  eq_num (num 2) (NInt 0) = false /\
  result (convert_background 5 ctx (Some (sky "ShaderNodeBackground" (num 2))))
  = inr (PDict [("type", PStr "background"); ("color", PList [num 0.5; num 0.5; num 1])]).
Proof.
  split; [reflexivity|]. split; [reflexivity|].
  exact (background_drops_strength 5 ctx (Some (sky "ShaderNodeBackground" (num 2)))
           (sky_node "ShaderNodeBackground" (num 2)) (socket_of "Strength" (num 2)) (num 2)
           (socket_of "Color" (rgba 0.5 0.5 1 1)) (PList [num 0.5; num 0.5; num 1])
           eq_refl eq_refl eq_refl eq_refl eq_refl (or_introl eq_refl) eq_refl eq_refl).
Defined.

(** X18 on a scene without a world. *)
Lemma background_boundary_witness :
  enable_background settings = true /\
  result (make_misc 5 ctx settings (PInt 64) None) = inl AttributeError.
Proof.
  split; [reflexivity|].
  exact (proj2 (proj2 (proj2 (background_boundary 5 ctx settings (PInt 64)))) eq_refl).
Defined.

(** X19 on the background of strength 2, without a sampler type. *)
Lemma make_misc_keys_witness :
  result (make_misc 5 ctx settings (PInt 64) (Some (sky "ShaderNodeBackground" (num 2))))
  = inr [("sampler", PDict [("samples", PInt 64)]);
         ("integrator", PDict [("type", PStr "path tracer mis")]);
         ("background",
          PDict [("type", PStr "background"); ("color", PList [num 0.5; num 0.5; num 1])]);
         ("accelerator", PDict [("type", PStr "bbh")])] /\
  exists b,
    [("sampler", PDict [("samples", PInt 64)]);
     ("integrator", PDict [("type", PStr "path tracer mis")]);
     ("background",
      PDict [("type", PStr "background"); ("color", PList [num 0.5; num 0.5; num 1])]);
     ("accelerator", PDict [("type", PStr "bbh")])]
    = [("sampler", PDict [("samples", PInt 64)]);
       ("integrator", PDict [("type", PStr "path tracer mis")]);
       ("background", b); ("accelerator", PDict [("type", PStr "bbh")])] /\
    result (convert_background 5 ctx (Some (sky "ShaderNodeBackground" (num 2)))) = inr b.
Proof.
  split; [reflexivity|].
  exact (make_misc_keys 5 ctx settings (PInt 64) (Some (sky "ShaderNodeBackground" (num 2)))
           _ eq_refl).
Defined.

(** X22 on a Separate XYZ node. *)
Lemma separate_needs_color_witness :
  enable_separate ctx = true /\ has_input separate_xyz "Color" = false /\
  has_input separate_xyz "Vector" = true /\
  convert_separate_node (Textures.convert_texture_node 1 []) ctx (OutSocket separate_xyz "X")
  = raise KeyError.
Proof.
  split; [reflexivity|]. split; [reflexivity|]. split; [reflexivity|].
  exact (separate_needs_color (Textures.convert_texture_node 1 []) ctx
           (OutSocket separate_xyz "X") eq_refl eq_refl).
Defined.

(** X23 on the two objects, with the camera selected. *)
Lemma write_meshes_selection_witness :
  NoDup (Geometry.selected blender) /\ NoDup (map Geometry.mesh_name [cube_mesh; floor_mesh]) /\
  returned (Geometry.write_meshes ctx settings (4, 1, 0) [cube_mesh; floor_mesh] "box" blender)
  = inr (mesh_descriptor "box") /\
  Geometry.selected
    (host_after (Geometry.write_meshes ctx settings (4, 1, 0) [cube_mesh; floor_mesh] "box" blender))
  = ["Camera"] /\
  exports (host_after (Geometry.write_meshes ctx settings (4, 1, 0) [cube_mesh; floor_mesh] "box" blender))
  = [Geometry.ObjExport "wm.obj_export" "/scenes/cornell/meshes/box.obj" true
       ["Cube"; "Floor"]].
Proof.
  assert (NoDup (Geometry.selected blender)) as Hs by (repeat constructor; set_solver).
  assert (NoDup (map Geometry.mesh_name [cube_mesh; floor_mesh])) as Hm.
  { repeat constructor; [|set_solver]. by intros [=]%list_elem_of_singleton. }
  split; [exact Hs|]. split; [exact Hm|].
  exact (write_meshes_selection ctx settings (4, 1, 0) [cube_mesh; floor_mesh] "box" blender Hs Hm).
Defined.

(** X24 on the two objects: one file each, the world matrices written. *)
Lemma export_separate_witness :
  mesh_mode settings <> "SINGLE" /\ NoDup (Geometry.selected blender) /\
  Forall2 (fun obj t => result (transform_matrix (Geometry.matrix_world obj)) = inr t)
    [cube_mesh; floor_mesh]
    [[("matrix", PList [num 1; num 0; num 0; num 2; num 0; num 1; num 0; num 0;
                        num 0; num 0; num 1; num 0.5; num 0; num 0; num 0; num 1])];
     [("matrix", PList [num 1; num 0; num 0; num 0; num 0; num 1; num 0; num 0;
                        num 0; num 0; num 1; num 0; num 0; num 0; num 0; num 1])]] /\
  returned (Geometry.export ctx settings (4, 1, 0) [cube_mesh; floor_mesh] blender)
  = inr [<["transform" :=
             PDict [("matrix",
                     PList [num 1; num 0; num 0; num 2; num 0; num 1; num 0; num 0;
                            num 0; num 0; num 1; num 0.5; num 0; num 0; num 0; num 1])]]>
           (mesh_descriptor "Cube");
         <["transform" :=
             PDict [("matrix",
                     PList [num 1; num 0; num 0; num 0; num 0; num 1; num 0; num 0;
                            num 0; num 0; num 1; num 0; num 0; num 0; num 0; num 1])]]>
           (mesh_descriptor "Floor")] /\
  Geometry.selected (host_after (Geometry.export ctx settings (4, 1, 0) [cube_mesh; floor_mesh] blender))
  = ["Camera"] /\
  exports (host_after (Geometry.export ctx settings (4, 1, 0) [cube_mesh; floor_mesh] blender))
  = [Geometry.ObjExport "wm.obj_export" "/scenes/cornell/meshes/Cube.obj" true ["Cube"];
     Geometry.ObjExport "wm.obj_export" "/scenes/cornell/meshes/Floor.obj" true ["Floor"]].
Proof.
  assert (mesh_mode settings <> "SINGLE") as Hmode by discriminate.
  assert (NoDup (Geometry.selected blender)) as Hs by (repeat constructor; set_solver).
  assert (Forall2 (fun obj t => result (transform_matrix (Geometry.matrix_world obj)) = inr t)
            [cube_mesh; floor_mesh]
            [[("matrix", PList [num 1; num 0; num 0; num 2; num 0; num 1; num 0; num 0;
                                num 0; num 0; num 1; num 0.5; num 0; num 0; num 0; num 1])];
             [("matrix", PList [num 1; num 0; num 0; num 0; num 0; num 1; num 0; num 0;
                                num 0; num 0; num 1; num 0; num 0; num 0; num 0; num 1])]])
    as Hts by (repeat constructor).
  split; [exact Hmode|]. split; [exact Hs|]. split; [exact Hts|].
  exact (export_separate ctx settings (4, 1, 0) [cube_mesh; floor_mesh] _ blender Hmode Hs Hts).
Defined.

(** X25 on the two objects: one file named after the scene file. *)
Lemma export_single_witness :
  mesh_mode settings_single = "SINGLE" /\ NoDup (Geometry.selected blender) /\
  NoDup (map Geometry.mesh_name [cube_mesh; floor_mesh]) /\
  returned (Geometry.export ctx settings_single (3, 2, 0) [cube_mesh; floor_mesh] blender)
  = inr [mesh_descriptor "box"] /\
  Geometry.selected
    (host_after (Geometry.export ctx settings_single (3, 2, 0) [cube_mesh; floor_mesh] blender))
  = ["Camera"] /\
  exports (host_after (Geometry.export ctx settings_single (3, 2, 0) [cube_mesh; floor_mesh] blender))
  = [Geometry.ObjExport "export_scene.obj" "/scenes/cornell/meshes/box.obj" true
       ["Cube"; "Floor"]].
Proof.
  assert (NoDup (Geometry.selected blender)) as Hs by (repeat constructor; set_solver).
  assert (NoDup (map Geometry.mesh_name [cube_mesh; floor_mesh])) as Hm.
  { repeat constructor; [|set_solver]. by intros [=]%list_elem_of_singleton. }
  split; [reflexivity|]. split; [exact Hs|]. split; [exact Hm|].
  exact (export_single ctx settings_single (3, 2, 0) [cube_mesh; floor_mesh] blender eq_refl Hs Hm).
Defined.

(** X26 on a rotation about the z axis by a quarter turn, as a 3x3
    matrix. *)
Lemma transform_matrix_row_major_witness :
  exists l,
    result (transform_matrix
              (PArray [PArray [num 0; num (-1); num 0];
                       PArray [num 1; num 0; num 0];
                       PArray [num 0; num 0; num 1]]))
    = inr [("matrix", PList l)] /\
    length l = 16%nat /\
    l !! 1%nat = Some (num (-1)) /\ l !! 3%nat = Some (num 0) /\ l !! 15%nat = Some (num 1).
Proof.
  destruct (transform_matrix_row_major
              [[num 0; num (-1); num 0]; [num 1; num 0; num 0]; [num 0; num 0; num 1]])
    as (l & Hr & Hl & Hij).
  - by left.
  - by repeat constructor.
  - exists l. split; [exact Hr|]. split; [exact Hl|].
    split; [exact (Hij 0%nat 1%nat ltac:(lia) ltac:(lia))|].
    split; [exact (Hij 0%nat 3%nat ltac:(lia) ltac:(lia))|].
    exact (Hij 3%nat 3%nat ltac:(lia) ltac:(lia)).
Defined.

(** X27 on the scan, repeated and extended; mirrored, it is not
    converted. *)
Lemma image_wrap_modes_witness :
  result (convert_image_texture_node (Textures.convert_texture_node 1 []) ctx
            (OutSocket (photo "EXTEND") "Color"))
  = inr (PDict [("type", PStr "image"); ("filename", PStr "textures/scan.png");
                ("interpolation", PStr "linear"); ("projection", PStr "flat");
                ("projection blend", num 0); ("output", PStr "color");
                ("wrap mode x", PStr "CLAMP"); ("wrap mode y", PStr "CLAMP")]) /\
  (exists d ext mode,
     PDict [("type", PStr "image"); ("filename", PStr "textures/scan.png");
            ("interpolation", PStr "linear"); ("projection", PStr "flat");
            ("projection blend", num 0); ("output", PStr "color");
            ("wrap mode x", PStr "CLAMP"); ("wrap mode y", PStr "CLAMP")] = PDict d /\
     attr (photo "EXTEND") "extension" = mret (PStr ext) /\
     (ext, mode) ∈ [("REPEAT", "repeat"); ("EXTEND", "CLAMP"); ("CLIP", "black")] /\
     dict_lookup "wrap mode x" d = Some (PStr mode) /\
     dict_lookup "wrap mode y" d = Some (PStr mode) /\
     ("Color" = "Color" /\ dict_lookup "output" d = Some (PStr "color") \/
      "Color" = "Alpha" /\ dict_lookup "output" d = Some (PStr "alpha"))) /\
  result (convert_image_texture_node (Textures.convert_texture_node 1 []) ctx
            (OutSocket (photo "MIRROR") "Color"))
  = inl KeyError.
Proof.
  split; [reflexivity|]. split; [|reflexivity].
  exact (image_wrap_modes (Textures.convert_texture_node 1 []) ctx
           (OutSocket (photo "EXTEND") "Color") _ eq_refl).
Defined.

(** X28 on Mix nodes: one for vectors, one for colors with the sockets of
    a Mix node, one with the sockets of a MixRGB node. *)
Lemma mix_node_requires_witness :
  enable_mix_node ctx = true /\
  result (convert_mix_node (Textures.convert_texture_node 1 []) ctx
            (OutSocket (blend "VECTOR") "Result"))
  = inl (NotImplementedError
           [Lit "Only Color and Float mix nodes are currently supported in Darts"]) /\
  result (convert_mix_node (Textures.convert_texture_node 1 []) ctx
            (OutSocket (blend "RGBA") "Result"))
  = inl KeyError /\
  result (convert_mix_node (Textures.convert_texture_node 1 []) ctx
            (OutSocket blend_rgb "Result"))
  = inr (PDict [("type", PStr "mix"); ("blend type", PStr "soft light");
                ("clamp factor", PBool true); ("clamp result", PBool false);
                ("factor", num 0.5); ("a", PList [num 1; num 0; num 0]);
                ("b", PList [num 0; num 0; num 1])]) /\
  has_input blend_rgb "Fac" = true /\ has_input blend_rgb "Color1" = true /\
  has_input blend_rgb "Color2" = true.
Proof.
  split; [reflexivity|].
  split.
  { exact (proj1 (mix_node_requires (Textures.convert_texture_node 1 []) ctx
                    (OutSocket (blend "VECTOR") "Result") eq_refl)
             (PStr "VECTOR") eq_refl eq_refl eq_refl). }
  split; [reflexivity|]. split; [reflexivity|].
  destruct (proj2 (mix_node_requires (Textures.convert_texture_node 1 []) ctx
                     (OutSocket blend_rgb "Result") eq_refl) _ eq_refl)
    as (H1 & H2 & H3 & _).
  by repeat split.
Defined.

End OnMoreExamples.
